(** * gh-poi: the branch-classification engine of [poi.go]

    A shallow embedding of the Go package: strings are byte strings
    ([string], compared bytewise as Go's [==] does), [int] is [Z], slices
    are lists, and [map[string]int] is a [gmap string Z].  Calls to the
    [Connection] interface thread an explicit world [W]; a Go
    [(value, error)] return is an [outcome], with a run-time panic (index
    out of range) kept apart from a returned error. *)

From Stdlib Require Import ZArith Lia List Ascii String Bool.
From stdpp Require Import base list strings gmap sorting.

Local Open Scope string_scope.
Local Open Scope list_scope.

(** ** The Go constructs the package relies on *)

Module Go.

(** An [error] value; only its message is observable here. *)
Definition error := string.

(** What a Go function returning [(A, error)] can do. *)
Inductive outcome (A : Type) : Type :=
| Ret (a : A)
| Fail (e : error)
| Panic.
Arguments Ret {A} a.
Arguments Fail {A} e.
Arguments Panic {A}.

(** What one iteration of a [for ... range] body does next. *)
Inductive flow (S R : Type) : Type :=
| Next (s : S)
| Break (s : S)
| Return (r : R).
Arguments Next {S R} s.
Arguments Break {S R} s.
Arguments Return {S R} r.

(** [for i, x := range xs { body }] over the loop-carried variables [s];
    [inl] is falling out of the loop, [inr] a [return] from inside. *)
Fixpoint for_range {X S R : Type} (body : nat -> X -> S -> flow S R)
    (i : nat) (xs : list X) (s : S) : S + R :=
  match xs with
  | [] => inl s
  | x :: xs' =>
      match body i x s with
      | Next s' => for_range body (Datatypes.S i) xs' s'
      | Break s' => inl s'
      | Return r => inr r
      end
  end.

(** A loop that has no [return] in its body always falls through. *)
Definition fell_through {S : Type} (r : S + Empty_set) : S :=
  match r with
  | inl s => s
  | inr e => match e with end
  end.

(** [len(s)] of a string, in bytes. *)
Definition len (s : string) : nat := String.length s.

(** A computation that calls out to the world: it ends in an [outcome]
    and leaves a (possibly changed) world behind, also when it fails. *)
Definition M (W A : Type) : Type := W -> outcome A * W.

Section Monad.
Context {W : Type}.

Definition ret {A : Type} (a : A) : M W A := fun w => (Ret a, w).

Definition fail {A : Type} (e : error) : M W A := fun w => (Fail e, w).

Definition panic {A : Type} : M W A := fun w => (Panic, w).

Definition bind {A B : Type} (m : M W A) (k : A -> M W B) : M W B :=
  fun w =>
    match m w with
    | (Ret a, w') => k a w'
    | (Fail e, w') => (Fail e, w')
    | (Panic, w') => (Panic, w')
    end.

(** A pure step that may fail or panic. *)
Definition lift {A : Type} (o : outcome A) : M W A := fun w => (o, w).

(** One call of an interface method; the call itself always returns. *)
Definition call {A : Type} (f : W -> A * W) : M W A :=
  fun w => let (a, w') := f w in (Ret a, w').

(** [for i, x := range xs { body }] with calls in the body. *)
Fixpoint for_rangeM {X S R : Type}
    (body : nat -> X -> S -> M W (flow S R))
    (i : nat) (xs : list X) (s : S) : M W (S + R) :=
  match xs with
  | [] => ret (inl s)
  | x :: xs' =>
      bind (body i x s)
        (fun f =>
           match f with
           | Next s' => for_rangeM body (Datatypes.S i) xs' s'
           | Break s' => ret (inl s')
           | Return r => ret (inr r)
           end)
  end.
End Monad.

End Go.

Import Go.

Notation "x <- m ;; k" := (bind m (fun x => k))
  (at level 100, m at next level, right associativity,
   format "'[v' x  <-  m  ;;  '/' k ']'").

(** ** package shared *)

Module shared.

(** Modelled from the spec: the enumeration [BranchState] of package
    [shared] (spec section 3; the earlier revision of poi.go declares it
    with [iota] in this order). *)
Inductive BranchState : Set := Unknown | NotDeletable | Deletable | Deleted.

(** Modelled from the spec: the enumeration [PullRequestState] of package
    [shared] (spec section 3). *)
Inductive PullRequestState : Set := Closed | Merged | Open.

#[global] Instance BranchState_eq_dec : EqDecision BranchState.
Proof. solve_decision. Defined.

#[global] Instance PullRequestState_eq_dec : EqDecision PullRequestState.
Proof. solve_decision. Defined.

(** Modelled from the spec: the struct [shared.PullRequest] (section 3). *)
Module PullRequest.
Record t : Type := mk {
  Name : string;
  State : PullRequestState;
  IsDraft : bool;
  Number : Z;
  Commits : list string;
  Url : string;
  Author : string
}.
End PullRequest.

(** Modelled from the spec: the struct [shared.Branch] (section 3).  The
    zero value [Branch{}] has every field at its Go zero value. *)
Module Branch.
Record t : Type := mk {
  Head : bool;
  Name : string;
  IsMerged : bool;
  IsProtected : bool;
  RemoteHeadOid : string;
  Commits : list string;
  PullRequests : list PullRequest.t;
  State : BranchState
}.

Definition zero : t := mk false "" false false "" [] [] Unknown.

(** Field assignments on the loop's copy of a branch. *)
Definition set_Head (v : bool) (b : t) : t :=
  mk v (Name b) (IsMerged b) (IsProtected b) (RemoteHeadOid b)
     (Commits b) (PullRequests b) (State b).
Definition set_Name (v : string) (b : t) : t :=
  mk (Head b) v (IsMerged b) (IsProtected b) (RemoteHeadOid b)
     (Commits b) (PullRequests b) (State b).
Definition set_IsMerged (v : bool) (b : t) : t :=
  mk (Head b) (Name b) v (IsProtected b) (RemoteHeadOid b)
     (Commits b) (PullRequests b) (State b).
Definition set_IsProtected (v : bool) (b : t) : t :=
  mk (Head b) (Name b) (IsMerged b) v (RemoteHeadOid b)
     (Commits b) (PullRequests b) (State b).
Definition set_RemoteHeadOid (v : string) (b : t) : t :=
  mk (Head b) (Name b) (IsMerged b) (IsProtected b) v
     (Commits b) (PullRequests b) (State b).
Definition set_Commits (v : list string) (b : t) : t :=
  mk (Head b) (Name b) (IsMerged b) (IsProtected b) (RemoteHeadOid b)
     v (PullRequests b) (State b).
Definition set_PullRequests (v : list PullRequest.t) (b : t) : t :=
  mk (Head b) (Name b) (IsMerged b) (IsProtected b) (RemoteHeadOid b)
     (Commits b) v (State b).
Definition set_State (v : BranchState) (b : t) : t :=
  mk (Head b) (Name b) (IsMerged b) (IsProtected b) (RemoteHeadOid b)
     (Commits b) (PullRequests b) v.
End Branch.

End shared.

Import shared.

(** ** package main: the pure classification functions *)

Record UncommittedChange : Type := {
  X : string;
  Y : string;
  Path : string
}.

(** [func (uc *UncommittedChange) IsUntracked() bool] *)
Definition IsUntracked (uc : UncommittedChange) : bool :=
  bool_decide (Y uc = "?").

(** [func isFullyMerged(branch, pr) bool] *)
Definition isFullyMerged (branch : Branch.t) (pr : PullRequest.t) : bool :=
  if negb (bool_decide (PullRequest.State pr = Merged))
     || (List.length (Branch.Commits branch) =? 0)%nat
  then false
  else
    match Branch.Commits branch with
    | [] => false (* unreachable: the length was checked just above *)
    | localHeadOid :: _ =>
        match for_range
                (fun _ oid (_ : unit) =>
                   if bool_decide (oid = localHeadOid)
                   then Return true else Next tt)
                0%nat (PullRequest.Commits pr) tt with
        | inr r => r
        | inl _ => false
        end
    end.

(** [func getDeleteStatus(branch, uncommittedChanges) BranchState]; the
    counter cannot overflow, a slice holding fewer than [2^63] elements. *)
Definition getDeleteStatus (branch : Branch.t)
    (uncommittedChanges : list UncommittedChange) : BranchState :=
  if Branch.IsProtected branch then NotDeletable
  else
    let hasTrackedChanges :=
      fell_through
        (for_range
           (fun _ change (has : bool) =>
              if negb (IsUntracked change) then Break true else Next has)
           0%nat uncommittedChanges false) in
    if Branch.Head branch && hasTrackedChanges then NotDeletable
    else if (List.length (Branch.PullRequests branch) =? 0)%nat
    then NotDeletable
    else
      match for_range
              (fun _ pr (fullyMergedCnt : Z) =>
                 if bool_decide (PullRequest.State pr = Open)
                 then Return NotDeletable
                 else if isFullyMerged branch pr
                 then Next (fullyMergedCnt + 1)%Z
                 else Next fullyMergedCnt)
              0%nat (Branch.PullRequests branch) 0%Z with
      | inr r => r
      | inl fullyMergedCnt =>
          if (fullyMergedCnt =? 0)%Z then NotDeletable else Deletable
      end.

(** [func checkDeletion(branches, uncommittedChanges) []Branch] *)
Definition checkDeletion (branches : list Branch.t)
    (uncommittedChanges : list UncommittedChange) : list Branch.t :=
  fell_through
    (for_range
       (fun _ branch (results : list Branch.t) =>
          let branch :=
            Branch.set_State (getDeleteStatus branch uncommittedChanges)
              branch in
          Next (results ++ [branch]))
       0%nat branches []).

(** ** Strings: the [strings], [strconv] and [regexp] calls of poi.go *)

Module GoStrings.

Definition LF : ascii := "010"%char.
Definition CR : ascii := "013"%char.

(** [strings.Replace(text, "\r\n", "\n", -1)] *)
Fixpoint replaceCRLF (s : string) : string :=
  match s with
  | EmptyString => EmptyString
  | String c rest =>
      match rest with
      | String d rest' =>
          if Ascii.eqb c CR && Ascii.eqb d LF
          then String LF (replaceCRLF rest')
          else String c (replaceCRLF rest)
      | EmptyString => String c EmptyString
      end
  end.

(** [strings.FieldsFunc(s, f)] for a predicate on single bytes: the
    maximal runs of bytes that do not satisfy [f]; no field is empty.
    [cur] is the field being read. *)
Fixpoint fieldsFrom (f : ascii -> bool) (s : string) (cur : string)
    : list string :=
  match s with
  | EmptyString => if (len cur =? 0)%nat then [] else [cur]
  | String c rest =>
      if f c
      then if (len cur =? 0)%nat then fieldsFrom f rest ""
           else cur :: fieldsFrom f rest ""
      else fieldsFrom f rest (cur +:+ String c "")
  end.

Definition FieldsFunc (s : string) (f : ascii -> bool) : list string :=
  fieldsFrom f s "".

(** [strings.Split(s, sep)] for a one-byte separator: always at least one
    piece, empty pieces kept. *)
Fixpoint splitFrom (sep : ascii) (s : string) (cur : string)
    : list string :=
  match s with
  | EmptyString => [cur]
  | String c rest =>
      if Ascii.eqb c sep then cur :: splitFrom sep rest ""
      else splitFrom sep rest (cur +:+ String c "")
  end.

Definition Split (s : string) (sep : ascii) : list string :=
  splitFrom sep s "".

(** [s[len(p):]] when [p] is a prefix of [s]. *)
Fixpoint cutPrefix (p s : string) : option string :=
  match p with
  | EmptyString => Some s
  | String a p' =>
      match s with
      | String b s' => if Ascii.eqb a b then cutPrefix p' s' else None
      | EmptyString => None
      end
  end.

Definition isDigit (c : ascii) : bool :=
  (48 <=? nat_of_ascii c)%nat && (nat_of_ascii c <=? 57)%nat.

(** The longest prefix of bytes satisfying [f], and what follows it. *)
Fixpoint span (f : ascii -> bool) (s : string) : string * string :=
  match s with
  | EmptyString => ("", "")
  | String c rest =>
      if f c
      then let (a, b) := span f rest in (String c a, b)
      else ("", s)
  end.

Definition maxInt : Z := 9223372036854775807.

(** The value of a string of decimal digits, most significant first. *)
Fixpoint decimal (acc : Z) (digits : string) : Z :=
  match digits with
  | EmptyString => acc
  | String c rest =>
      decimal (10 * acc + (Z.of_nat (nat_of_ascii c) - 48))%Z rest
  end.

(** [strconv.Atoi] on a non-empty string of digits: the value, or an
    error when it does not fit a 64-bit [int]. *)
Definition Atoi (digits : string) : option Z :=
  let n := decimal 0 digits in
  if (n <=? maxInt)%Z then Some n else None.

(** [string(b)] for a byte [b]: the UTF-8 encoding of the code point. *)
Definition stringOfByte (b : ascii) : string :=
  let n := N_of_ascii b in
  if (n <? 128)%N then String b ""
  else String (ascii_of_N (N.lor 192 (N.shiftr n 6)))
         (String (ascii_of_N (N.lor 128 (N.land n 63))) "").

(** [s[n:]], which panics when [n > len(s)]. *)
Fixpoint sliceFrom (n : nat) (s : string) : option string :=
  match n with
  | O => Some s
  | Datatypes.S n' =>
      match s with
      | String _ rest => sliceFrom n' rest
      | EmptyString => None
      end
  end.

End GoStrings.

Import GoStrings.

(** [func splitLines(text string) []string] *)
Definition splitLines (text : string) : list string :=
  FieldsFunc (replaceCRLF text) (fun c => Ascii.eqb c LF).

(** What the regular expression [^refs/(?:heads|remotes/.+?)/] of
    [extractBranchNames] removes.  The pattern is anchored, so it matches
    at most once, at the start.  After [refs/remotes/] the lazy [.+?]
    takes one character and then as few more as needed to reach a [/];
    [.] does not match a line feed. *)
Fixpoint afterFirstSlash (s : string) : option string :=
  match s with
  | EmptyString => None
  | String c rest =>
      if Ascii.eqb c "/" then Some rest
      else if Ascii.eqb c LF then None
      else afterFirstSlash rest
  end.

Definition stripRefPrefix (name : string) : string :=
  match cutPrefix "refs/heads/" name with
  | Some rest => rest
  | None =>
      match cutPrefix "refs/remotes/" name with
      | Some (String c rest) =>
          if Ascii.eqb c LF then name
          else match afterFirstSlash rest with
               | Some rest' => rest'
               | None => name
               end
      | _ => name
      end
  end.

(** [func extractBranchNames(refNames []string) []string] *)
Definition extractBranchNames (refNames : list string) : list string :=
  fell_through
    (for_range (fun _ name (result : list string) =>
                  Next (result ++ [stripRefPrefix name]))
       0%nat refNames []).

(** [func getPRNumber(mergeConfig string) int]: the pattern
    [^refs/pull/(\d+)] captures the longest run of ASCII digits after the
    prefix, and needs at least one. *)
Definition getPRNumber (mergeConfig : string) : Z :=
  match cutPrefix "refs/pull/" mergeConfig with
  | Some rest =>
      let (digits, _) := span isDigit rest in
      if (len digits =? 0)%nat then 0%Z
      else match Atoi digits with
           | Some num => num
           | None => 0%Z
           end
  | None => 0%Z
  end.

(** The capture of [^[ *]+(.+)] in [extractMergedBranchNames]: the greedy
    [[ *]+] takes every leading space and asterisk, and gives the last one
    back to [(.+)] when nothing else is left on the line for it. *)
Definition isPad (c : ascii) : bool := Ascii.eqb c " " || Ascii.eqb c "*".
Definition notLF (c : ascii) : bool := negb (Ascii.eqb c LF).

Fixpoint lastByte (s : string) : option ascii :=
  match s with
  | EmptyString => None
  | String c EmptyString => Some c
  | String _ rest => lastByte rest
  end.

Definition mergedNameCapture (name : string) : option string :=
  let (pad, rest) := span isPad name in
  let (line, _) := span notLF rest in
  if (len pad =? 0)%nat then None
  else if negb (len line =? 0)%nat then Some line
  else if (len pad =? 1)%nat then None
  else match lastByte pad with
       | Some c => Some (String c "")
       | None => None
       end.

(** [func extractMergedBranchNames(mergedNames []string) []string] *)
Definition extractMergedBranchNames (mergedNames : list string)
    : list string :=
  fell_through
    (for_range (fun _ name (result : list string) =>
                  match mergedNameCapture name with
                  | Some found1 => Next (result ++ [found1])
                  | None => Next result
                  end)
       0%nat mergedNames []).

(** [func nameExists(name string, names []string) bool] *)
Definition nameExists (name : string) (names : list string) : bool :=
  match for_range (fun _ n (_ : unit) =>
                     if bool_decide (n = name) then Return true else Next tt)
          0%nat names tt with
  | inr r => r
  | inl _ => false
  end.

(** [func applyMerged(branches, mergedNames) []Branch] *)
Definition applyMerged (branches : list Branch.t) (mergedNames : list string)
    : list Branch.t :=
  fell_through
    (for_range (fun _ branch (results : list Branch.t) =>
                  let branch :=
                    Branch.set_IsMerged
                      (nameExists (Branch.Name branch) mergedNames) branch in
                  Next (results ++ [branch]))
       0%nat branches []).

(** [func branchNameExists(branchName string, branches []Branch) bool] *)
Definition branchNameExists (branchName : string) (branches : list Branch.t)
    : bool :=
  match for_range (fun _ branch (_ : unit) =>
                     if bool_decide (Branch.Name branch = branchName)
                     then Return true else Next tt)
          0%nat branches tt with
  | inr r => r
  | inl _ => false
  end.

(** [func toBranch(branchNames []string) []Branch]; indexing
    [splitNames[1]] panics on a line without a colon. *)
Definition toBranch (branchNames : list string) : outcome (list Branch.t) :=
  match for_range
          (fun _ branchName (results : list Branch.t) =>
             let splitNames := Split branchName ":" in
             match splitNames with
             | s0 :: s1 :: _ =>
                 let branch := Branch.zero in
                 let branch :=
                   Branch.set_Head (bool_decide (s0 = "*")) branch in
                 let branch := Branch.set_Name s1 branch in
                 Next (results ++ [branch])
             | _ => Return tt
             end)
          0%nat branchNames [] with
  | inl results => Ret results
  | inr _ => Panic
  end.

(** [func toUncommittedChange(changes []string) []UncommittedChange];
    [change[0]], [change[1]] and [change[3:]] panic on a line shorter than
    three bytes. *)
Definition toUncommittedChange (changes : list string)
    : outcome (list UncommittedChange) :=
  match for_range
          (fun _ change (results : list UncommittedChange) =>
             match change with
             | String c0 (String c1 _) =>
                 match sliceFrom 3 change with
                 | Some path =>
                     Next (results ++
                             [{| X := stringOfByte c0;
                                 Y := stringOfByte c1;
                                 Path := path |}])
                 | None => Return tt
                 end
             | _ => Return tt
             end)
          0%nat changes [] with
  | inl results => Ret results
  | inr _ => Panic
  end.

(** [func getBranchNames(branches []Branch, state BranchState) []string] *)
Definition getBranchNames (branches : list Branch.t) (state : BranchState)
    : list string :=
  fell_through
    (for_range (fun _ branch (results : list string) =>
                  if bool_decide (Branch.State branch = state)
                  then Next (results ++ [Branch.Name branch])
                  else Next results)
       0%nat branches []).

(** [func checkDeleted(branchesBefore, branchesAfter) []Branch] *)
Definition checkDeleted (branchesBefore branchesAfter : list Branch.t)
    : list Branch.t :=
  fell_through
    (for_range (fun _ branch (results : list Branch.t) =>
                  let branch :=
                    if bool_decide (Branch.State branch = Deletable)
                    then if negb (branchNameExists (Branch.Name branch)
                                    branchesAfter)
                         then Branch.set_State Deleted branch
                         else branch
                    else branch in
                  Next (results ++ [branch]))
       0%nat branchesBefore []).


(** ** The connector interface and the library calls *)

(** A Go [(string, error)] return. *)
Definition reply : Type := string * option error.

(** [type Connection interface]: every method acts on the world.  The
    [context.Context] argument only carries cancellation, which the
    methods' own [error] results already cover. *)
Module Connection.
Record t (W : Type) : Type := mk {
  CheckRepos : string -> list string -> W -> option error * W;
  GetRemoteNames : W -> reply * W;
  GetSshConfig : string -> W -> reply * W;
  GetRepoNames : string -> string -> W -> reply * W;
  GetBranchNames : W -> reply * W;
  GetMergedBranchNames : string -> string -> W -> reply * W;
  GetRemoteHeadOid : string -> string -> W -> reply * W;
  GetLsRemoteHeadOid : string -> string -> W -> reply * W;
  GetLog : string -> W -> reply * W;
  GetAssociatedRefNames : string -> W -> reply * W;
  GetPullRequests : string -> string -> string -> string -> W -> reply * W;
  GetUncommittedChanges : W -> reply * W;
  GetConfig : string -> W -> reply * W;
  AddConfig : string -> string -> W -> reply * W;
  RemoveConfig : string -> W -> reply * W;
  CheckoutBranch : string -> W -> reply * W;
  DeleteBranches : list string -> W -> reply * W
}.
Arguments CheckRepos {W} _ _ _ _.
Arguments GetRemoteNames {W} _ _.
Arguments GetSshConfig {W} _ _ _.
Arguments GetRepoNames {W} _ _ _ _.
Arguments GetBranchNames {W} _ _.
Arguments GetMergedBranchNames {W} _ _ _ _.
Arguments GetRemoteHeadOid {W} _ _ _ _.
Arguments GetLsRemoteHeadOid {W} _ _ _ _.
Arguments GetLog {W} _ _ _.
Arguments GetAssociatedRefNames {W} _ _ _.
Arguments GetPullRequests {W} _ _ _ _ _ _.
Arguments GetUncommittedChanges {W} _ _.
Arguments GetConfig {W} _ _ _.
Arguments AddConfig {W} _ _ _ _.
Arguments RemoveConfig {W} _ _ _.
Arguments CheckoutBranch {W} _ _ _.
Arguments DeleteBranches {W} _ _ _.
End Connection.

(** [type Remote struct] *)
Module Remote.
Record t : Type := mk {
  Name : string;
  Hostname : string;
  RepoName : string
}.
End Remote.

(** The fields [getRepo] reads of its local [response] struct. *)
Module RepoResponse.
Record t : Type := mk {
  DefaultBranchRef_Name : string;
  Name : string;
  Owner_Login : string;
  Parent_Name : string;
  Parent_Owner_Login : string
}.
End RepoResponse.

(** One [Edges[i].Node] of the local [response] struct of
    [toPullRequests]; [Commits] holds [Commits.Nodes[j].Commit.Oid]. *)
Module SearchNode.
Record t : Type := mk {
  Number : Z;
  HeadRefName : string;
  HeadRefOid : string;
  Url : string;
  State : string;
  IsDraft : bool;
  Commits : list string;
  Author_Login : string
}.
End SearchNode.

(** What poi.go takes from outside the package: the standard library's
    [json.Unmarshal] (into the two response structs), [strings.Fields],
    [strings.TrimSpace] and [sort.Slice], and the method [IsDetached] of
    [shared.Branch].  [sort.Slice] is not stable, so all that is known of
    its result is that it rearranges the slice into order. *)
Class Library : Type := {
  json_Unmarshal_repo : string -> error + RepoResponse.t;
  json_Unmarshal_search : string -> error + list SearchNode.t;
  strings_Fields : string -> list string;
  strings_TrimSpace : string -> string;
  sort_Slice : forall A : Type, (A -> A -> bool) -> list A -> list A;
  sort_Slice_Permutation :
    forall (A : Type) (less : A -> A -> bool) (l : list A),
      Permutation (sort_Slice A less l) l;
  (** The method [IsDetached] of [shared.Branch], whose source is not part
      of poi.go: per the specification it holds of the synthetic name of a
      detached head. *)
  IsDetached : Branch.t -> bool
}.
Arguments sort_Slice {_} {A} less l.

(** ** package main: parsing the forge's answers *)

Definition ErrNotFound : error := "not found".

(** [func toPullRequestState(state string) (PullRequestState, error)] *)
Definition toPullRequestState (state : string) : outcome PullRequestState :=
  if bool_decide (state = "CLOSED") then Ret Closed
  else if bool_decide (state = "MERGED") then Ret Merged
  else if bool_decide (state = "OPEN") then Ret Open
  else Fail ErrNotFound.

Section Parsing.
Context `{Library}.

(** [func getRepo(jsonResp string) ([]string, string, error)] *)
Definition getRepo (jsonResp : string) : outcome (list string * string) :=
  match json_Unmarshal_repo jsonResp with
  | inl err => Fail ("error unmarshaling response: " +:+ err)
  | inr resp =>
      let repoNames :=
        [RepoResponse.Owner_Login resp +:+ "/" +:+ RepoResponse.Name resp] in
      let repoNames :=
        if (0 <? len (RepoResponse.Parent_Name resp))%nat
        then repoNames ++
               [RepoResponse.Parent_Owner_Login resp +:+ "/"
                  +:+ RepoResponse.Parent_Name resp]
        else repoNames in
      Ret (repoNames, RepoResponse.DefaultBranchRef_Name resp)
  end.

(** [func toPullRequests(jsonResp string) ([]PullRequest, error)] *)
Definition toPullRequests (jsonResp : string)
    : outcome (list PullRequest.t) :=
  match json_Unmarshal_search jsonResp with
  | inl err => Fail ("error unmarshaling response: " +:+ err)
  | inr edges =>
      match for_range
              (fun _ node (results : list PullRequest.t) =>
                 match toPullRequestState (SearchNode.State node) with
                 | Ret state =>
                     let commits :=
                       fell_through
                         (for_range
                            (fun _ oid (commits : list string) =>
                               Next (commits ++ [oid]))
                            0%nat (SearchNode.Commits node) []) in
                     Next (results ++
                             [PullRequest.mk (SearchNode.HeadRefName node)
                                state (SearchNode.IsDraft node)
                                (SearchNode.Number node) commits
                                (SearchNode.Url node)
                                (SearchNode.Author_Login node)])
                 | _ =>
                     Return ("unexpected pull request state: "
                               +:+ SearchNode.State node)
                 end)
              0%nat edges [] with
      | inl results => Ret results
      | inr e => Fail e
      end
  end.

(** [func getQueryOrgs(repoNames []string) string] *)
Definition getQueryOrgs (repoNames : list string) : string :=
  let repos :=
    fell_through
      (for_range
         (fun _ name (repos : string) =>
            Next (repos +:+ "org:"
                    +:+ List.hd "" (Split name "/") +:+ " "))
         0%nat repoNames "") in
  strings_TrimSpace repos.

(** [func getQueryRepos(repoNames []string) string] *)
Definition getQueryRepos (repoNames : list string) : string :=
  let repos :=
    fell_through
      (for_range
         (fun _ name (repos : string) =>
            Next (repos +:+ "repo:" +:+ name +:+ " "))
         0%nat repoNames "") in
  strings_TrimSpace repos.
End Parsing.

(** The [oid] that [getQueryHashes] asks about for a branch: the remote
    head when it is known, else [branch.Commits[len(branch.Commits)-1]]
    (which is only read when [Commits] is not empty). *)
Definition queryHashOid (branch : Branch.t) : string :=
  if bool_decide (Branch.RemoteHeadOid branch = "")
  then List.last (Branch.Commits branch) ""
  else Branch.RemoteHeadOid branch.

(** [func getQueryHashes(branches []Branch) []string]; the loop carries
    [results] and the builder [hashes]. *)
Definition getQueryHashes (branches : list Branch.t) : list string :=
  let '(results, hashes) :=
    fell_through
      (for_range
         (fun i branch '(results, hashes) =>
            if bool_decide (Branch.RemoteHeadOid branch = "")
               && (List.length (Branch.Commits branch) =? 0)%nat
            then Next (results, hashes)
            else
              let separator :=
                if (i =? List.length branches - 1)%nat then "" else " " in
              let oid := queryHashOid branch in
              let hash := "hash:" +:+ oid +:+ separator in
              let '(results, hashes) :=
                if (256 <? len hashes + len hash)%nat
                then (results ++ [hashes], "")
                else (results, hashes) in
              Next (results, hashes +:+ hash))
         0%nat branches ([], "")) in
  if (0 <? len hashes)%nat then results ++ [hashes] else results.

(** ** package main: the functions that call the connection *)

Section Poi.
Context {W : Type} (connection : Connection.t W) `{Library}.

(** The body of the loop of [trimBranch], at index [i] and commit [oid];
    the loop carries [results] and [childNames]. *)
Definition trimBranchStep (remoteHeadOid : string) (isMerged : bool)
    (branchName defaultBranchName : string)
    (i : nat) (oid : string) (st : list string * list string)
    : M W (flow (list string * list string) (list string)) :=
  let (results, childNames) := st in
  if (0 <? len remoteHeadOid)%nat || isMerged
  then ret (Break (results ++ [oid], childNames))
  else
    rep <- call (Connection.GetAssociatedRefNames connection oid) ;;
    let (refNames, err) := rep : reply in
    match err with
    | Some e => fail e
    | None =>
        let names := extractBranchNames (splitLines refNames) in
        let first :=
          if (i =? 0)%nat
          then for_range
                 (fun _ name (childNames : list string) =>
                    if bool_decide (name = defaultBranchName)
                    then Return ([] : list string)
                    else if negb (bool_decide (name = branchName))
                    then Next (childNames ++ [name])
                    else Next childNames)
                 0%nat names childNames
          else inl childNames in
        match first with
        | inr r => ret (Return r)
        | inl childNames =>
            let isChild (name : string) : bool :=
              match for_range
                      (fun _ childName (_ : unit) =>
                         if bool_decide (name = childName)
                         then Return true else Next tt)
                      0%nat childNames tt with
              | inr b => b
              | inl _ => false
              end in
            match for_range
                    (fun _ name (_ : unit) =>
                       if negb (bool_decide (name = branchName))
                          && negb (isChild name)
                       then Return results else Next tt)
                    0%nat names tt with
            | inr r => ret (Return r)
            | inl _ => ret (Next (results ++ [oid], childNames))
            end
        end
    end.

(** [func trimBranch(ctx, oids, remoteHeadOid, isMerged, branchName,
    defaultBranchName, connection) ([]string, error)] *)
Definition trimBranch (oids : list string) (remoteHeadOid : string)
    (isMerged : bool) (branchName defaultBranchName : string)
    : M W (list string) :=
  r <- for_rangeM
         (trimBranchStep remoteHeadOid isMerged branchName defaultBranchName)
         0%nat oids ([], []) ;;
  match r with
  | inl (results, _) => ret results
  | inr r => ret r
  end.

(** [func applyProtected(ctx, branches, connection) ([]Branch, error)] *)
Definition applyProtected (branches : list Branch.t)
    : M W (list Branch.t) :=
  r <- for_rangeM
         (fun _ branch (results : list Branch.t) =>
            rep <- call (Connection.GetConfig connection
                           ("branch." +:+ Branch.Name branch
                              +:+ ".gh-poi-protected")) ;;
            let (config, _) := rep : reply in
            let splitConfig := splitLines config in
            let branch :=
              if (0 <? List.length splitConfig)%nat
                 && bool_decide (List.hd "" splitConfig = "true")
              then Branch.set_IsProtected true branch
              else branch in
            ret (Next (R := Empty_set) (results ++ [branch])))
         0%nat branches [] ;;
  ret (fell_through r).

(** [func applyCommits(ctx, remote, branches, defaultBranchName,
    connection) ([]Branch, error)]; [splitLines(remoteHeadOid)[0]] panics
    when the answer holds no line. *)
Definition applyCommits (remote : Remote.t) (branches : list Branch.t)
    (defaultBranchName : string) : M W (list Branch.t) :=
  r <- for_rangeM
         (fun _ branch (results : list Branch.t) =>
            if bool_decide (Branch.Name branch = defaultBranchName)
               || IsDetached branch
            then
              let branch := Branch.set_Commits [] branch in
              ret (Next (R := Empty_set) (results ++ [branch]))
            else
              rep <- call (Connection.GetRemoteHeadOid connection
                             (Remote.Name remote) (Branch.Name branch)) ;;
              let (remoteHeadOid, err) := rep : reply in
              branch <-
                match err with
                | None =>
                    match splitLines remoteHeadOid with
                    | l0 :: _ => ret (Branch.set_RemoteHeadOid l0 branch)
                    | [] => panic
                    end
                | Some _ =>
                    rep <- call (Connection.GetConfig connection
                                   ("branch." +:+ Branch.Name branch
                                      +:+ ".remote")) ;;
                    let (result, _) := rep : reply in
                    match splitLines result with
                    | remoteUrl :: _ =>
                        rep <- call (Connection.GetLsRemoteHeadOid connection
                                       remoteUrl (Branch.Name branch)) ;;
                        let (result, err) := rep : reply in
                        match err with
                        | None =>
                            match strings_Fields result with
                            | f0 :: _ =>
                                ret (Branch.set_RemoteHeadOid f0 branch)
                            | [] => ret branch
                            end
                        | Some _ => ret branch
                        end
                    | [] => ret branch
                    end
                end ;;
              rep <- call (Connection.GetLog connection (Branch.Name branch)) ;;
              let (oids, err) := rep : reply in
              match err with
              | Some e => fail e
              | None =>
                  trimmedOids <-
                    trimBranch (splitLines oids)
                      (Branch.RemoteHeadOid branch) (Branch.IsMerged branch)
                      (Branch.Name branch) defaultBranchName ;;
                  let branch := Branch.set_Commits trimmedOids branch in
                  ret (Next (results ++ [branch]))
              end)
         0%nat branches [] ;;
  ret (fell_through r).

(** [func findMatchedPullRequest(branchName, prs, prNumbers)
    []PullRequest]; a missing key of the Go map reads as [0], and ranging
    over the map visits its entries in some order. *)
Definition findMatchedPullRequest (branchName : string)
    (prs : list PullRequest.t) (prNumbers : gmap string Z)
    : list PullRequest.t :=
  fell_through
    (for_range
       (fun _ pr (results : list PullRequest.t) =>
          let prExists (pr : PullRequest.t) : bool :=
            match for_range
                    (fun _ result (_ : unit) =>
                       if bool_decide
                            (PullRequest.Number pr = PullRequest.Number result)
                       then Return true else Next tt)
                    0%nat results tt with
            | inr b => b
            | inl _ => false
            end in
          let prNumberExists (prNumber : Z) : bool :=
            match for_range
                    (fun _ (kv : string * Z) (_ : unit) =>
                       if bool_decide (kv.2 = prNumber)
                       then Return true else Next tt)
                    0%nat (map_to_list prNumbers) tt with
            | inr b => b
            | inl _ => false
            end in
          if prExists pr then Next results
          else if prNumberExists (PullRequest.Number pr)
          then if bool_decide
                    (PullRequest.Number pr
                     = default 0%Z (prNumbers !! branchName))
               then Next (results ++ [pr])
               else Next results
          else if bool_decide (PullRequest.Name pr = branchName)
          then Next (results ++ [pr])
          else Next results)
       0%nat prs []).

(** The first loop of [applyPullRequest]: the explicit PR number of every
    branch whose [branch.<name>.merge] names one. *)
Definition collectPRNumbers (branches : list Branch.t)
    : M W (gmap string Z) :=
  r <- for_rangeM
         (fun _ branch (prNumbers : gmap string Z) =>
            if IsDetached branch then ret (Next (R := Empty_set) prNumbers)
            else
              rep <- call (Connection.GetConfig connection
                             ("branch." +:+ Branch.Name branch +:+ ".merge")) ;;
              let (mergeConfig, _) := rep : reply in
              let n := getPRNumber mergeConfig in
              if (0 <? n)%Z
              then ret (Next (<[Branch.Name branch := n]> prNumbers))
              else ret (Next prNumbers))
         0%nat branches ∅ ;;
  ret (fell_through r).

(** The second loop of [applyPullRequest]. *)
Definition attachPullRequests (branches : list Branch.t)
    (prs : list PullRequest.t) (prNumbers : gmap string Z)
    : list Branch.t :=
  fell_through
    (for_range
       (fun _ branch (results : list Branch.t) =>
          let prs := findMatchedPullRequest (Branch.Name branch) prs prNumbers in
          let prs :=
            sort_Slice
              (fun a b => (PullRequest.Number a <? PullRequest.Number b)%Z)
              prs in
          let branch := Branch.set_PullRequests prs branch in
          Next (results ++ [branch]))
       0%nat branches []).

(** [func applyPullRequest(ctx, branches, prs, connection) []Branch] *)
Definition applyPullRequest (branches : list Branch.t)
    (prs : list PullRequest.t) : M W (list Branch.t) :=
  prNumbers <- collectPRNumbers branches ;;
  ret (attachPullRequests branches prs prNumbers).

(** The idiom [x, err := f(...); if err != nil { return nil, err }]. *)
Definition orReturn (f : W -> reply * W) : M W string :=
  rep <- call f ;;
  let (out, err) := rep : reply in
  match err with
  | Some e => fail e
  | None => ret out
  end.

(** [func loadBranches(ctx, remote, defaultBranchName, repoNames,
    connection) ([]Branch, error)] *)
Definition loadBranches (remote : Remote.t) (defaultBranchName : string)
    (repoNames : list string) : M W (list Branch.t) :=
  names <- orReturn (Connection.GetBranchNames connection) ;;
  branches <- lift (toBranch (splitLines names)) ;;
  mergedNames <- orReturn (Connection.GetMergedBranchNames connection
                             (Remote.Name remote) defaultBranchName) ;;
  let branches :=
    applyMerged branches (extractMergedBranchNames (splitLines mergedNames)) in
  branches <- applyProtected branches ;;
  branches <- applyCommits remote branches defaultBranchName ;;
  let orgs := getQueryOrgs repoNames in
  let repos := getQueryRepos repoNames in
  r <- for_rangeM
         (fun _ queryHashes (prs : list PullRequest.t) =>
            json <- orReturn (Connection.GetPullRequests connection
                                (Remote.Hostname remote) orgs repos
                                queryHashes) ;;
            pr <- lift (toPullRequests json) ;;
            ret (Next (R := Empty_set) (prs ++ pr)))
         0%nat (getQueryHashes branches) [] ;;
  let prs := fell_through r in
  applyPullRequest branches prs.

(** The entry [switchToDefaultBranchIfDeleted] makes up for a default
    branch that is not in the list. *)
Definition defaultBranchEntry (defaultBranchName : string) : Branch.t :=
  let branch := Branch.zero in
  let branch := Branch.set_Head true branch in
  let branch := Branch.set_Name defaultBranchName branch in
  Branch.set_State NotDeletable branch.

(** [func switchToDefaultBranchIfDeleted(ctx, branches, defaultBranchName,
    connection, dryRun) ([]Branch, error)] *)
Definition switchToDefaultBranchIfDeleted (branches : list Branch.t)
    (defaultBranchName : string) (dryRun : bool) : M W (list Branch.t) :=
  let needsCheckout :=
    fell_through
      (for_range
         (fun _ branch (needsCheckout : bool) =>
            if Branch.Head branch
               && bool_decide (Branch.State branch = Deletable)
            then Break true else Next needsCheckout)
         0%nat branches false) in
  if negb needsCheckout then ret branches
  else
    _ <- (if negb dryRun
          then _ <- orReturn (Connection.CheckoutBranch connection
                                defaultBranchName) ;;
               ret tt
          else ret tt) ;;
    let results : list Branch.t := [] in
    let results :=
      if negb (branchNameExists defaultBranchName branches)
      then results ++ [defaultBranchEntry defaultBranchName]
      else results in
    ret (fell_through
           (for_range
              (fun _ branch (results : list Branch.t) =>
                 let branch :=
                   if bool_decide (Branch.Name branch = defaultBranchName)
                   then Branch.set_Head true branch
                   else Branch.set_Head false branch in
                 Next (results ++ [branch]))
              0%nat branches results)).

(** [func GetBranches(ctx, remote, connection, dryRun) ([]Branch, error)] *)
Definition GetBranches (remote : Remote.t) (dryRun : bool)
    : M W (list Branch.t) :=
  json <- orReturn (Connection.GetRepoNames connection
                      (Remote.Hostname remote) (Remote.RepoName remote)) ;;
  repo <- lift (getRepo json) ;;
  let (repoNames, defaultBranchName) := repo : list string * string in
  err <- call (Connection.CheckRepos connection
                 (Remote.Hostname remote) repoNames) ;;
  match err with
  | Some e => fail e
  | None =>
      branches <- loadBranches remote defaultBranchName repoNames ;;
      changes <- orReturn (Connection.GetUncommittedChanges connection) ;;
      uncommittedChanges <- lift (toUncommittedChange (splitLines changes)) ;;
      let branches := checkDeletion branches uncommittedChanges in
      branches <- switchToDefaultBranchIfDeleted branches defaultBranchName
                    dryRun ;;
      ret (sort_Slice
             (fun a b => String.ltb (Branch.Name a) (Branch.Name b))
             branches)
  end.

(** [func DeleteBranches(ctx, branches, connection) ([]Branch, error)] *)
Definition DeleteBranches (branches : list Branch.t) : M W (list Branch.t) :=
  let branchNames := getBranchNames branches Deletable in
  if (List.length branchNames =? 0)%nat then ret branches
  else
    _ <- call (Connection.DeleteBranches connection branchNames) ;;
    branchNamesAfter <- orReturn (Connection.GetBranchNames connection) ;;
    branchesAfter <- lift (toBranch (splitLines branchNamesAfter)) ;;
    ret (checkDeleted branches branchesAfter).

End Poi.

(** * Specification-side definitions *)

(** What [checkDeleted] does to one branch. *)
Definition markDeleted (branchesAfter : list Branch.t) (branch : Branch.t)
    : Branch.t :=
  if bool_decide (Branch.State branch = Deletable)
  then if negb (branchNameExists (Branch.Name branch) branchesAfter)
       then Branch.set_State Deleted branch
       else branch
  else branch.

(** ** The fully-merged test with the oldest retained commit *)

(** The oldest retained commit of a branch: the last entry of its
    newest-first Commits list. *)
Definition oldestRetained (branch : Branch.t) : option string :=
  last (Branch.Commits branch).

(** The fully-merged test read with the oldest retained commit: the pull
    request is Merged, the Commits list is not empty, and its oldest
    retained entry is among the pull request's Commits. *)
Definition fullyMergedOnOldest (branch : Branch.t) (pr : PullRequest.t)
    : Prop :=
  PullRequest.State pr = Merged
  /\ Branch.Commits branch <> []
  /\ exists oid : string,
       oldestRetained branch = Some oid /\ In oid (PullRequest.Commits pr).

(** ** The ancestry walk in the specification's words *)

(** The path whose components are [parts]: they are joined by slashes. *)
Fixpoint joinPath (parts : list string) : string :=
  match parts with
  | [] => ""
  | part :: rest =>
      match rest with
      | [] => part
      | _ :: _ => part +:+ String "/" (joinPath rest)
      end
  end.

(** The bare name of a ref, read off its path components: a branch
    [refs/heads/<name>] and a remote-tracking branch
    [refs/remotes/<remote>/<name>] are both named [<name>], which may
    itself hold slashes; any other ref, a tag for one, keeps its full
    name. *)
Definition bareName (ref : string) : string :=
  match Split ref "/" with
  | top :: kind :: rest =>
      if negb (bool_decide (top = "refs")) then ref
      else if bool_decide (kind = "heads") then
        match rest with
        | _ :: _ => joinPath rest
        | [] => ref
        end
      else if bool_decide (kind = "remotes") then
        match rest with
        | _ :: ((_ :: _) as name) => joinPath name
        | _ => ref
        end
      else ref
  | _ => ref
  end.

Section WalkSpec.
Context {W : Type} (connection : Connection.t W).

(** The bare names associated with a commit: one lookup, the prefix of
    each ref name stripped; a failed lookup fails the walk. *)
Definition associatedNames (oid : string) : M W (list string) :=
  refNames <- orReturn (Connection.GetAssociatedRefNames connection oid) ;;
  ret (List.map bareName (splitLines refNames)).

(** What git answers: no remote-tracking ref has an empty remote name, as
    [refs/remotes//x] would. *)
Definition remotesNamed : Prop :=
  forall (oid out : string) (w w' : W),
    Connection.GetAssociatedRefNames connection oid w = ((out, None), w') ->
    Forall (fun ref => cutPrefix "refs/remotes//" ref = None)
      (splitLines out).

(** A name that stops the walk on a later commit: neither the branch's own
    nor a registered sibling. *)
Definition isForeign (branchName : string) (siblings : list string)
    (name : string) : bool :=
  negb (bool_decide (name = branchName))
  && negb (existsb (fun sibling => bool_decide (name = sibling)) siblings).

(** The walk over the commits after the first, as the specification words
    it: stop with what was accumulated at the first commit that carries a
    foreign name, otherwise accumulate and go on. *)
Fixpoint walkLater (branchName : string) (siblings : list string)
    (oids : list string) (accumulated : list string) : M W (list string) :=
  match oids with
  | [] => ret accumulated
  | oid :: oids' =>
      names <- associatedNames oid ;;
      if existsb (isForeign branchName siblings) names
      then ret accumulated
      else walkLater branchName siblings oids' (accumulated ++ [oid])
  end.

(** The whole walk, as the specification words it. *)
Definition walk (branchName defaultBranchName : string) (oids : list string)
    : M W (list string) :=
  match oids with
  | [] => ret []
  | first :: later =>
      names <- associatedNames first ;;
      if existsb (fun name => bool_decide (name = defaultBranchName)) names
      then ret []
      else
        let siblings :=
          List.filter (fun name => negb (bool_decide (name = branchName)))
            names in
        walkLater branchName siblings later [first]
  end.

End WalkSpec.

(** A connection that also keeps the list of commits whose associated ref
    names were looked up, newest lookup first. *)
Section Recording.
Context {W : Type} (connection : Connection.t W).

Definition through {A : Type} (f : W -> A * W)
    : W * list string -> A * (W * list string) :=
  fun st => let (a, w') := f st.1 in (a, (w', st.2)).

Definition recording : Connection.t (W * list string) :=
  {| Connection.CheckRepos h r := through (Connection.CheckRepos connection h r);
     Connection.GetRemoteNames := through (Connection.GetRemoteNames connection);
     Connection.GetSshConfig n := through (Connection.GetSshConfig connection n);
     Connection.GetRepoNames h r :=
       through (Connection.GetRepoNames connection h r);
     Connection.GetBranchNames := through (Connection.GetBranchNames connection);
     Connection.GetMergedBranchNames r b :=
       through (Connection.GetMergedBranchNames connection r b);
     Connection.GetRemoteHeadOid r b :=
       through (Connection.GetRemoteHeadOid connection r b);
     Connection.GetLsRemoteHeadOid u b :=
       through (Connection.GetLsRemoteHeadOid connection u b);
     Connection.GetLog b := through (Connection.GetLog connection b);
     Connection.GetAssociatedRefNames oid :=
       fun st =>
         let (a, w') := Connection.GetAssociatedRefNames connection oid st.1 in
         (a, (w', oid :: st.2));
     Connection.GetPullRequests h o r q :=
       through (Connection.GetPullRequests connection h o r q);
     Connection.GetUncommittedChanges :=
       through (Connection.GetUncommittedChanges connection);
     Connection.GetConfig k := through (Connection.GetConfig connection k);
     Connection.AddConfig k v := through (Connection.AddConfig connection k v);
     Connection.RemoveConfig k :=
       through (Connection.RemoveConfig connection k);
     Connection.CheckoutBranch b :=
       through (Connection.CheckoutBranch connection b);
     Connection.DeleteBranches bs :=
       through (Connection.DeleteBranches connection bs) |}.
End Recording.


(** ** Pull-request matching: the properties in question *)

(** Some branch's tracking configuration names PR number [n]. *)
Definition explicitlyTracked (prNumbers : gmap string Z) (n : Z) : Prop :=
  exists name : string, prNumbers !! name = Some n.






(** Why a pull request is in the list matched to a branch name. *)
Definition matchedBecause (branchName : string) (prNumbers : gmap string Z)
    (pr : PullRequest.t) : Prop :=
  (explicitlyTracked prNumbers (PullRequest.Number pr)
   /\ PullRequest.Number pr = default 0%Z (prNumbers !! branchName))
  \/ (~ explicitlyTracked prNumbers (PullRequest.Number pr)
      /\ PullRequest.Name pr = branchName).

(** ** The fail-safe switch: the properties in question *)

(** The trigger of the switch: the checked-out branch is Deletable. *)
Definition checkedOutIsDeletable (branches : list Branch.t) : Prop :=
  exists b : Branch.t,
    In b branches /\ Branch.Head b = true /\ Branch.State b = Deletable.

(** The relabelling of the switch: Head on the default branch only, with
    an entry made up for it when it is not in the list. *)
Definition relabelled (branches : list Branch.t) (defaultBranchName : string)
    : list Branch.t :=
  (if negb (branchNameExists defaultBranchName branches)
   then [defaultBranchEntry defaultBranchName] else [])
  ++ List.map
       (fun b => Branch.set_Head
                   (bool_decide (Branch.Name b = defaultBranchName)) b)
       branches.

(** Exactly one entry has Head set, and it is the named branch. *)
Definition onlyHeadIs (name : string) (branches : list Branch.t) : Prop :=
  List.length (List.filter Branch.Head branches) = 1%nat
  /\ forall b : Branch.t,
       In b branches -> Branch.Head b = true -> Branch.Name b = name.

(** The part of [GetBranches] that comes before the fail-safe switch: the
    classified branches and the default branch name. *)
Definition classifyBranches {W : Type} (connection : Connection.t W)
    `{Library} (remote : Remote.t) : M W (list Branch.t * string) :=
  json <- orReturn (Connection.GetRepoNames connection
                      (Remote.Hostname remote) (Remote.RepoName remote)) ;;
  repo <- lift (getRepo json) ;;
  let (repoNames, defaultBranchName) := repo : list string * string in
  err <- call (Connection.CheckRepos connection
                 (Remote.Hostname remote) repoNames) ;;
  match err with
  | Some e => fail e
  | None =>
      branches <- loadBranches connection remote defaultBranchName repoNames ;;
      changes <- orReturn (Connection.GetUncommittedChanges connection) ;;
      uncommittedChanges <- lift (toUncommittedChange (splitLines changes)) ;;
      ret (checkDeletion branches uncommittedChanges, defaultBranchName)
  end.

(** ** Deletion: the properties in question *)

(** The connection whose batched delete acts on the world as before but
    answers [r], whatever the command really answered. *)
Definition withDeleteReply {W : Type} (connection : Connection.t W)
    (r : reply) : Connection.t W :=
  {| Connection.CheckRepos := Connection.CheckRepos connection;
     Connection.GetRemoteNames := Connection.GetRemoteNames connection;
     Connection.GetSshConfig := Connection.GetSshConfig connection;
     Connection.GetRepoNames := Connection.GetRepoNames connection;
     Connection.GetBranchNames := Connection.GetBranchNames connection;
     Connection.GetMergedBranchNames :=
       Connection.GetMergedBranchNames connection;
     Connection.GetRemoteHeadOid := Connection.GetRemoteHeadOid connection;
     Connection.GetLsRemoteHeadOid := Connection.GetLsRemoteHeadOid connection;
     Connection.GetLog := Connection.GetLog connection;
     Connection.GetAssociatedRefNames :=
       Connection.GetAssociatedRefNames connection;
     Connection.GetPullRequests := Connection.GetPullRequests connection;
     Connection.GetUncommittedChanges :=
       Connection.GetUncommittedChanges connection;
     Connection.GetConfig := Connection.GetConfig connection;
     Connection.AddConfig := Connection.AddConfig connection;
     Connection.RemoveConfig := Connection.RemoveConfig connection;
     Connection.CheckoutBranch := Connection.CheckoutBranch connection;
     Connection.DeleteBranches names w :=
       (r, (Connection.DeleteBranches connection names w).2) |}.

(** Some branch of the list is Deletable. *)
Definition someDeletable (branches : list Branch.t) : Prop :=
  exists b : Branch.t, In b branches /\ Branch.State b = Deletable.

(** ** Query batching in the specification's words *)

(** A branch with a known remote head or some trimmed commit. *)
Definition contributes (b : Branch.t) : bool :=
  negb (bool_decide (Branch.RemoteHeadOid b = "")
        && (List.length (Branch.Commits b) =? 0)%nat).

(** The filter ["hash:<oid>"] of the branch at index [i] of [total], with
    its separator: a space, except after the last branch of the list. *)
Definition hashFilter (total i : nat) (b : Branch.t) : string :=
  "hash:" +:+ queryHashOid b
    +:+ (if (i =? total - 1)%nat then "" else " ").

(** The filters of the contributing branches, in order. *)
Fixpoint hashFilters (total i : nat) (branches : list Branch.t)
    : list string :=
  match branches with
  | [] => []
  | b :: rest =>
      (if contributes b then [hashFilter total i b] else [])
      ++ hashFilters total (Datatypes.S i) rest
  end.

(** Batching: a new block starts whenever appending the next filter would
    push the current block's length past 256; the last block is emitted
    when it is not empty. *)
Fixpoint pack (block : string) (filters : list string) : list string :=
  match filters with
  | [] => if (0 <? len block)%nat then [block] else []
  | f :: fs =>
      if (256 <? len block + len f)%nat
      then block :: pack f fs
      else pack (block +:+ f) fs
  end.

(** The blocks, one after the other. *)
Definition joined (blocks : list string) : string :=
  fold_right String.append "" blocks.

(** ** A small repository to run the package against *)

Module Stub.

(** The state of the repository the commands act on. *)
Record world : Type := mkWorld {
  head : string;
  branches : list string;
  config : list (string * string);
  kept : list string;
  checkoutFails : bool;
  listingFails : bool;
  journal : list string
}.

Definition ErrCommand : error := "failed to run external command: git".

Fixpoint assoc (key : string) (table : list (string * string))
    : option string :=
  match table with
  | [] => None
  | (k, v) :: table' =>
      if bool_decide (k = key) then Some v else assoc key table'
  end.

Definition answer (table : list (string * string)) (key : string)
    (w : world) : reply * world :=
  match assoc key table with
  | Some v => ((v, None), w)
  | None => (("", Some ErrCommand), w)
  end.

Definition oid1 : string := "a97e9630426df5d34ca9ee77ae1159bdfd5ff8f0".
Definition oid2 : string := "6ebe3d30d23531af56bd23b5a098d3ccae2a534a".

Definition logs : list (string * string) :=
  [("main", oid2); ("issue1", oid1 +:+ String LF oid2)].

Definition refs : list (string * string) :=
  [(oid1, "refs/heads/issue1");
   (oid2, "refs/heads/main" +:+ String LF "refs/heads/issue1")].

(** [git branch --format=%(HEAD):%(refname:lstrip=2)] *)
Definition listing (w : world) : string :=
  fold_right
    (fun name rest =>
       (if bool_decide (name = head w) then "*:" else " :")
         +:+ name +:+ String LF rest)
    "" (branches w).

Definition withHead (name : string) (w : world) : world :=
  mkWorld name (branches w) (config w) (kept w) (checkoutFails w)
    (listingFails w) (("checkout " +:+ name) :: journal w).

Definition logged (entry : string) (w : world) : world :=
  mkWorld (head w) (branches w) (config w) (kept w) (checkoutFails w)
    (listingFails w) (entry :: journal w).

Definition refused (w : world) (name : string) : bool :=
  bool_decide (name = head w)
  || existsb (fun k => bool_decide (k = name)) (kept w).

(** [git branch -D names...]: every branch that is neither checked out nor
    kept goes; the command fails when one had to stay. *)
Definition delete (names : list string) (w : world) : reply * world :=
  let gone (name : string) : bool :=
    existsb (fun n => bool_decide (n = name)) names && negb (refused w name) in
  let w' :=
    mkWorld (head w) (List.filter (fun name => negb (gone name)) (branches w))
      (config w) (kept w) (checkoutFails w) (listingFails w)
      ("branch -D" :: journal w) in
  if existsb (refused w) names
  then (("", Some ErrCommand), w')
  else (("", None), w').

Definition connection : Connection.t world :=
  {| Connection.CheckRepos _ _ w := (None, w);
     Connection.GetRemoteNames w :=
       (("origin git@github.com:owner/repo.git (fetch)", None), w);
     Connection.GetSshConfig _ w := (("", None), w);
     Connection.GetRepoNames _ _ w := (("REPO", None), w);
     Connection.GetBranchNames w :=
       if listingFails w then (("", Some ErrCommand), w)
       else ((listing w, None), w);
     Connection.GetMergedBranchNames _ _ w := (("  main", None), w);
     Connection.GetRemoteHeadOid _ _ w := (("", Some ErrCommand), w);
     Connection.GetLsRemoteHeadOid _ _ w := (("", None), w);
     Connection.GetLog name := answer logs name;
     Connection.GetAssociatedRefNames oid := answer refs oid;
     Connection.GetPullRequests _ _ _ _ w := (("PRS", None), w);
     Connection.GetUncommittedChanges w := (("", None), w);
     Connection.GetConfig key w := answer (config w) key w;
     Connection.AddConfig _ _ w := (("", None), w);
     Connection.RemoveConfig _ w := (("", None), w);
     Connection.CheckoutBranch name w :=
       if checkoutFails w
       then (("", Some ErrCommand), logged ("checkout " +:+ name) w)
       else (("", None), withHead name w);
     Connection.DeleteBranches names := delete names |}.

Definition isSpace (c : ascii) : bool :=
  Ascii.eqb c " " || ((9 <=? nat_of_ascii c)%nat && (nat_of_ascii c <=? 13)%nat).

Fixpoint trimLeft (s : string) : string :=
  match s with
  | String c rest => if isSpace c then trimLeft rest else s
  | EmptyString => EmptyString
  end.

Definition reversed (s : string) : string :=
  string_of_list_ascii (rev (list_ascii_of_string s)).

Definition sorted {A : Type} (less : A -> A -> bool) (l : list A) : list A :=
  @merge_sort A (fun a b => Is_true (negb (less b a)))
    (fun a b => Is_true_dec (negb (less b a))) l.

Definition pr1 : PullRequest.t :=
  PullRequest.mk "issue1" Merged false 1 [oid1]
    "https://github.com/owner/repo/pull/1" "owner".

#[global] Instance library : Library :=
  {| json_Unmarshal_repo s :=
       if bool_decide (s = "REPO")
       then inr (RepoResponse.mk "main" "repo" "owner" "" "")
       else inl "unexpected end of JSON input";
     json_Unmarshal_search s :=
       if bool_decide (s = "PRS")
       then inr [SearchNode.mk 1 "issue1" oid1
                   "https://github.com/owner/repo/pull/1" "MERGED" false
                   [oid1] "owner"]
       else inl "unexpected end of JSON input";
     strings_Fields s := FieldsFunc s isSpace;
     strings_TrimSpace s := reversed (trimLeft (reversed (trimLeft s)));
     sort_Slice A less l := sorted less l;
     sort_Slice_Permutation A less l := merge_sort_Permutation _ l;
     IsDetached b := String.prefix "(" (Branch.Name b) |}.

(** A repository with [issue1] checked out, next to [main]. *)
Definition repository (checkoutFails : bool) : world :=
  mkWorld "issue1" ["issue1"; "main"]
    [("branch.main.merge", "refs/heads/main");
     ("branch.issue1.merge", "refs/heads/issue1");
     ("branch.issue1.remote", "origin")]
    [] checkoutFails false [].

Definition remote : Remote.t := Remote.mk "origin" "github.com" "owner/repo".

(** A repository given by its checked-out branch, its branches, its
    configuration and the branches it refuses to delete. *)
Definition checkedOut (head : string) (names : list string)
    (config : list (string * string)) (kept : list string) : world :=
  mkWorld head names config kept false false [].

(** The same repository when the branch listing cannot be read. *)
Definition unreadable (w : world) : world :=
  mkWorld (head w) (branches w) (config w) (kept w) (checkoutFails w) true
    (journal w).

(** A branch as [toBranch] makes it, with a state. *)
Definition branch (head : bool) (name : string) (state : BranchState)
    : Branch.t :=
  Branch.mk head name false false "" [] [] state.

(** Pull request number 5, from head ref [a]. *)
Definition pr5 : PullRequest.t :=
  PullRequest.mk "a" Merged false 5 [oid1]
    "https://github.com/owner/repo/pull/5" "owner".

(** Pull request number 5 of another repository, from head ref [b]. *)
Definition pr5' : PullRequest.t :=
  PullRequest.mk "b" Closed false 5 [oid2]
    "https://github.com/parent/repo/pull/5" "someone".




End Stub.

(** * More of the package *)

(** ** package main: choosing the remote *)

(** [func getPrimaryRemote(remotes []Remote) (Remote, error)] *)
Definition getPrimaryRemote (remotes : list Remote.t) : outcome Remote.t :=
  if (List.length remotes =? 0)%nat then Fail ErrNotFound
  else
    match for_range
            (fun _ remote (_ : unit) =>
               if bool_decide (Remote.Name remote = "origin")
               then Return remote else Next tt)
            0%nat remotes tt with
    | inr remote => Ret remote
    | inl _ =>
        match remotes with
        | remote0 :: _ => Ret remote0
        | [] => Panic (* unreachable: the length was checked above *)
        end
    end.

(** The body of the loop of [findHostname]: [kv[1]] panics on a parameter
    that is the bare word [hostname]. *)
Definition findHostnameStep (param : string) : flow unit (outcome string) :=
  let kv := Split param " " in
  if bool_decide (List.hd "" kv = "hostname")
  then match kv with
       | _ :: kv1 :: _ => Return (Ret kv1)
       | _ => Return Panic
       end
  else Next tt.

(** [func findHostname(params []string, defaultName string) string] *)
Definition findHostname (params : list string) (defaultName : string)
    : outcome string :=
  match for_range (fun _ param (_ : unit) => findHostnameStep param)
          0%nat params tt with
  | inr r => r
  | inl _ => Ret defaultName
  end.

(** ** Text that the parsers read back *)

(** The bytes of a string. *)
Definition bytes (s : string) : list ascii := list_ascii_of_string s.

(** Lines, each followed by the end-of-line mark [eol]. *)
Definition unlines (eol : string) (lines : list string) : string :=
  fold_right (fun line rest => line +:+ eol +:+ rest) "" lines.

(** A line that [splitLines] gives back as it is: not empty, and free of
    line feeds and carriage returns. *)
Definition plainLine (line : string) : Prop :=
  line <> "" /\ ~ In LF (bytes line) /\ ~ In CR (bytes line).

(** The branch that [toBranch] makes of one line, if the line has the two
    fields it reads. *)
Definition branchOfLine (line : string) : option Branch.t :=
  match Split line ":" with
  | s0 :: s1 :: _ =>
      Some (Branch.set_Name s1
              (Branch.set_Head (bool_decide (s0 = "*")) Branch.zero))
  | _ => None
  end.

(** The change that [toUncommittedChange] makes of one line, if the line
    has the three bytes it reads. *)
Definition changeOfLine (line : string) : option UncommittedChange :=
  match line with
  | String c0 (String c1 _) =>
      match sliceFrom 3 line with
      | Some path =>
          Some {| X := stringOfByte c0; Y := stringOfByte c1; Path := path |}
      | None => None
      end
  | _ => None
  end.

(** All the parses of a list, when every element parses. *)
Fixpoint parseAll {X Y : Type} (parse : X -> option Y) (xs : list X)
    : option (list Y) :=
  match xs with
  | [] => Some []
  | x :: xs' =>
      match parse x, parseAll parse xs' with
      | Some y, Some ys => Some (y :: ys)
      | _, _ => None
      end
  end.

(** A line of [git branch --format=%(HEAD):%(refname:lstrip=2)]. *)
Definition branchLine (entry : bool * string) : string :=
  (if entry.1 then "*:" else " :") +:+ entry.2.

(** ** Connections that differ in the methods a function should not use *)

(** [connection], with the methods that [GetBranches] has no business
    calling taken from [other]: the remote listing, the SSH configuration,
    the configuration writes and the branch deletion. *)
Definition withOtherWrites {W : Type} (connection other : Connection.t W)
    : Connection.t W :=
  {| Connection.CheckRepos := Connection.CheckRepos connection;
     Connection.GetRemoteNames := Connection.GetRemoteNames other;
     Connection.GetSshConfig := Connection.GetSshConfig other;
     Connection.GetRepoNames := Connection.GetRepoNames connection;
     Connection.GetBranchNames := Connection.GetBranchNames connection;
     Connection.GetMergedBranchNames :=
       Connection.GetMergedBranchNames connection;
     Connection.GetRemoteHeadOid := Connection.GetRemoteHeadOid connection;
     Connection.GetLsRemoteHeadOid := Connection.GetLsRemoteHeadOid connection;
     Connection.GetLog := Connection.GetLog connection;
     Connection.GetAssociatedRefNames :=
       Connection.GetAssociatedRefNames connection;
     Connection.GetPullRequests := Connection.GetPullRequests connection;
     Connection.GetUncommittedChanges :=
       Connection.GetUncommittedChanges connection;
     Connection.GetConfig := Connection.GetConfig connection;
     Connection.AddConfig := Connection.AddConfig other;
     Connection.RemoveConfig := Connection.RemoveConfig other;
     Connection.CheckoutBranch := Connection.CheckoutBranch connection;
     Connection.DeleteBranches := Connection.DeleteBranches other |}.

(** [connection], with the checkout taken from [other]. *)
Definition withOtherCheckout {W : Type} (connection other : Connection.t W)
    : Connection.t W :=
  {| Connection.CheckRepos := Connection.CheckRepos connection;
     Connection.GetRemoteNames := Connection.GetRemoteNames connection;
     Connection.GetSshConfig := Connection.GetSshConfig connection;
     Connection.GetRepoNames := Connection.GetRepoNames connection;
     Connection.GetBranchNames := Connection.GetBranchNames connection;
     Connection.GetMergedBranchNames :=
       Connection.GetMergedBranchNames connection;
     Connection.GetRemoteHeadOid := Connection.GetRemoteHeadOid connection;
     Connection.GetLsRemoteHeadOid := Connection.GetLsRemoteHeadOid connection;
     Connection.GetLog := Connection.GetLog connection;
     Connection.GetAssociatedRefNames :=
       Connection.GetAssociatedRefNames connection;
     Connection.GetPullRequests := Connection.GetPullRequests connection;
     Connection.GetUncommittedChanges :=
       Connection.GetUncommittedChanges connection;
     Connection.GetConfig := Connection.GetConfig connection;
     Connection.AddConfig := Connection.AddConfig connection;
     Connection.RemoveConfig := Connection.RemoveConfig connection;
     Connection.CheckoutBranch := Connection.CheckoutBranch other;
     Connection.DeleteBranches := Connection.DeleteBranches connection |}.

(** [other], with only the two methods that [DeleteBranches] uses taken
    from [connection]. *)
Definition onlyDeleting {W : Type} (connection other : Connection.t W)
    : Connection.t W :=
  {| Connection.CheckRepos := Connection.CheckRepos other;
     Connection.GetRemoteNames := Connection.GetRemoteNames other;
     Connection.GetSshConfig := Connection.GetSshConfig other;
     Connection.GetRepoNames := Connection.GetRepoNames other;
     Connection.GetBranchNames := Connection.GetBranchNames connection;
     Connection.GetMergedBranchNames := Connection.GetMergedBranchNames other;
     Connection.GetRemoteHeadOid := Connection.GetRemoteHeadOid other;
     Connection.GetLsRemoteHeadOid := Connection.GetLsRemoteHeadOid other;
     Connection.GetLog := Connection.GetLog other;
     Connection.GetAssociatedRefNames :=
       Connection.GetAssociatedRefNames other;
     Connection.GetPullRequests := Connection.GetPullRequests other;
     Connection.GetUncommittedChanges :=
       Connection.GetUncommittedChanges other;
     Connection.GetConfig := Connection.GetConfig other;
     Connection.AddConfig := Connection.AddConfig other;
     Connection.RemoveConfig := Connection.RemoveConfig other;
     Connection.CheckoutBranch := Connection.CheckoutBranch other;
     Connection.DeleteBranches := Connection.DeleteBranches connection |}.

(** The pull request that [toPullRequests] makes of one search node, if
    the node's state is one of the three known strings. *)
Definition pullRequestOfNode (node : SearchNode.t) : option PullRequest.t :=
  match toPullRequestState (SearchNode.State node) with
  | Ret state =>
      Some (PullRequest.mk (SearchNode.HeadRefName node) state
              (SearchNode.IsDraft node) (SearchNode.Number node)
              (SearchNode.Commits node) (SearchNode.Url node)
              (SearchNode.Author_Login node))
  | _ => None
  end.

(** ** package main: the remote *)

(** [strings.HasSuffix(s, suffix)] *)
Definition HasSuffix (s suffix : string) : bool :=
  (len suffix <=? len s)%nat
  && bool_decide
       (String.substring (len s - len suffix) (len suffix) s = suffix).

Definition github : string := "github.com".
Definition localhost : string := "github.localhost".

Section Remotes.
Context {W : Type} (connection : Connection.t W).

(** Two callees of [GetRemote] are not unfolded here: [toRemotes], a match
    against one regular expression per line, and [strings.ToLower], which
    maps Unicode letters.  Both are pure and always return; what follows
    holds whatever they compute. *)
Variable toRemotes : list string -> list Remote.t.
Variable strings_ToLower : string -> string.

(** [func normalizeHostname(host string) string] *)
Definition normalizeHostname (host : string) : string :=
  let hostname := strings_ToLower host in
  if HasSuffix hostname ("." +:+ github) then github
  else if HasSuffix hostname ("." +:+ localhost) then localhost
  else hostname.

(** [func GetRemote(ctx, connection) (Remote, error)] *)
Definition GetRemote : M W Remote.t :=
  remoteNames <- orReturn (Connection.GetRemoteNames connection) ;;
  let remotes := toRemotes (splitLines remoteNames) in
  remote <- lift (getPrimaryRemote remotes) ;;
  let hostname := Remote.Hostname remote in
  rep <- call (Connection.GetSshConfig connection hostname) ;;
  let (config, err) := rep : reply in
  match err with
  | None =>
      found <- lift (findHostname (splitLines config) hostname) ;;
      ret (Remote.mk (Remote.Name remote) (normalizeHostname found)
             (Remote.RepoName remote))
  | Some _ => ret remote
  end.

End Remotes.

(** ** More of the small repository *)

Module Fixture.

(** [Stub.connection] when the forge cannot be asked for the repository:
    [GetRepoNames] gives [answer]. *)
Definition withRepoNames (answer : reply) : Connection.t Stub.world :=
  {| Connection.CheckRepos := Connection.CheckRepos Stub.connection;
     Connection.GetRemoteNames := Connection.GetRemoteNames Stub.connection;
     Connection.GetSshConfig := Connection.GetSshConfig Stub.connection;
     Connection.GetRepoNames _ _ w := (answer, w);
     Connection.GetBranchNames := Connection.GetBranchNames Stub.connection;
     Connection.GetMergedBranchNames :=
       Connection.GetMergedBranchNames Stub.connection;
     Connection.GetRemoteHeadOid :=
       Connection.GetRemoteHeadOid Stub.connection;
     Connection.GetLsRemoteHeadOid :=
       Connection.GetLsRemoteHeadOid Stub.connection;
     Connection.GetLog := Connection.GetLog Stub.connection;
     Connection.GetAssociatedRefNames :=
       Connection.GetAssociatedRefNames Stub.connection;
     Connection.GetPullRequests := Connection.GetPullRequests Stub.connection;
     Connection.GetUncommittedChanges :=
       Connection.GetUncommittedChanges Stub.connection;
     Connection.GetConfig := Connection.GetConfig Stub.connection;
     Connection.AddConfig := Connection.AddConfig Stub.connection;
     Connection.RemoveConfig := Connection.RemoveConfig Stub.connection;
     Connection.CheckoutBranch := Connection.CheckoutBranch Stub.connection;
     Connection.DeleteBranches := Connection.DeleteBranches Stub.connection |}.

(** [Stub.connection] with a remote-tracking branch for every branch:
    [GetRemoteHeadOid] succeeds with [answer]. *)
Definition withRemoteHead (answer : string) : Connection.t Stub.world :=
  {| Connection.CheckRepos := Connection.CheckRepos Stub.connection;
     Connection.GetRemoteNames := Connection.GetRemoteNames Stub.connection;
     Connection.GetSshConfig := Connection.GetSshConfig Stub.connection;
     Connection.GetRepoNames := Connection.GetRepoNames Stub.connection;
     Connection.GetBranchNames := Connection.GetBranchNames Stub.connection;
     Connection.GetMergedBranchNames :=
       Connection.GetMergedBranchNames Stub.connection;
     Connection.GetRemoteHeadOid _ _ w := ((answer, None), w);
     Connection.GetLsRemoteHeadOid :=
       Connection.GetLsRemoteHeadOid Stub.connection;
     Connection.GetLog := Connection.GetLog Stub.connection;
     Connection.GetAssociatedRefNames :=
       Connection.GetAssociatedRefNames Stub.connection;
     Connection.GetPullRequests := Connection.GetPullRequests Stub.connection;
     Connection.GetUncommittedChanges :=
       Connection.GetUncommittedChanges Stub.connection;
     Connection.GetConfig := Connection.GetConfig Stub.connection;
     Connection.AddConfig := Connection.AddConfig Stub.connection;
     Connection.RemoveConfig := Connection.RemoveConfig Stub.connection;
     Connection.CheckoutBranch := Connection.CheckoutBranch Stub.connection;
     Connection.DeleteBranches := Connection.DeleteBranches Stub.connection |}.

(** [Stub.connection] with an SSH configuration: [GetSshConfig] gives
    [answer]. *)
Definition withSshConfig (answer : reply) : Connection.t Stub.world :=
  {| Connection.CheckRepos := Connection.CheckRepos Stub.connection;
     Connection.GetRemoteNames := Connection.GetRemoteNames Stub.connection;
     Connection.GetSshConfig _ w := (answer, w);
     Connection.GetRepoNames := Connection.GetRepoNames Stub.connection;
     Connection.GetBranchNames := Connection.GetBranchNames Stub.connection;
     Connection.GetMergedBranchNames :=
       Connection.GetMergedBranchNames Stub.connection;
     Connection.GetRemoteHeadOid :=
       Connection.GetRemoteHeadOid Stub.connection;
     Connection.GetLsRemoteHeadOid :=
       Connection.GetLsRemoteHeadOid Stub.connection;
     Connection.GetLog := Connection.GetLog Stub.connection;
     Connection.GetAssociatedRefNames :=
       Connection.GetAssociatedRefNames Stub.connection;
     Connection.GetPullRequests := Connection.GetPullRequests Stub.connection;
     Connection.GetUncommittedChanges :=
       Connection.GetUncommittedChanges Stub.connection;
     Connection.GetConfig := Connection.GetConfig Stub.connection;
     Connection.AddConfig := Connection.AddConfig Stub.connection;
     Connection.RemoveConfig := Connection.RemoveConfig Stub.connection;
     Connection.CheckoutBranch := Connection.CheckoutBranch Stub.connection;
     Connection.DeleteBranches := Connection.DeleteBranches Stub.connection |}.

(** A lower-casing of the ASCII letters, the part of [strings.ToLower]
    that host names exercise. *)
Definition lowerByte (c : ascii) : ascii :=
  let n := nat_of_ascii c in
  if (65 <=? n)%nat && (n <=? 90)%nat then ascii_of_nat (n + 32) else c.

Fixpoint lower (s : string) : string :=
  match s with
  | String c rest => String (lowerByte c) (lower rest)
  | EmptyString => EmptyString
  end.

(** A reader of [git remote -v] lines of the one shape
    [<name> git@<host>:<owner>/<repo>.git (fetch)] that the small
    repository prints. *)
Definition remotes (lines : list string) : list Remote.t :=
  List.map
    (fun line =>
       Remote.mk (List.hd "" (Split line " ")) "GitHub.com" "owner/repo")
    lines.

(** The SSH configuration of a host that is an alias. *)
Definition sshConfig : string :=
  "user git" +:+ String LF ("hostname ssh.GitHub.com" +:+ String LF "port 443").

End Fixture.

(** * Strings, lines and paths *)

Lemma append_cons (c : ascii) (s t : string) :
  String c s +:+ t = String c (s +:+ t).
Proof. reflexivity. Qed.

Lemma append_empty_l (s : string) : "" +:+ s = s.
Proof. reflexivity. Qed.

Lemma append_empty_r (s : string) : s +:+ "" = s.
Proof. induction s as [|c s IH]; [done|]. by rewrite append_cons, IH. Qed.

Lemma len_append (s t : string) : len (s +:+ t) = (len s + len t)%nat.
Proof.
  unfold len. induction s as [|c s IH]; [done|].
  change (String c s +:+ t) with (String c (s +:+ t)).
  cbn [String.length Nat.add]. by f_equal.
Qed.

Lemma append_assoc (s t u : string) : (s +:+ t) +:+ u = s +:+ (t +:+ u).
Proof.
  induction s as [|c s IH]; [done|].
  change ((String c s +:+ t) +:+ u) with (String c ((s +:+ t) +:+ u)).
  change (String c s +:+ (t +:+ u)) with (String c (s +:+ (t +:+ u))).
  by f_equal.
Qed.

Lemma bytes_append (s t : string) : bytes (s +:+ t) = bytes s ++ bytes t.
Proof.
  induction s as [|c s IH]; [done|].
  rewrite append_cons. cbn [bytes list_ascii_of_string app].
  f_equal. apply IH.
Qed.

Lemma cutPrefix_append (p s : string) : cutPrefix p (p +:+ s) = Some s.
Proof.
  induction p as [|c p IH]; [done|].
  rewrite append_cons. cbn [cutPrefix]. by rewrite Ascii.eqb_refl.
Qed.

Lemma fieldsFrom_fields (f : ascii -> bool) (s : string) :
  forall cur : string,
    (forall c, In c (bytes cur) -> f c = false) ->
    Forall (fun field => field <> ""
                         /\ forall c, In c (bytes field) -> f c = false)
      (fieldsFrom f s cur).
Proof.
  induction s as [|c s IH]; intros cur Hcur; cbn [fieldsFrom].
  - destruct cur as [|c0 cur]; cbn [len String.length Nat.eqb];
      [constructor|].
    constructor; [|constructor]. split; [discriminate | done].
  - destruct (f c) eqn:Hc.
    + destruct cur as [|c0 cur]; cbn [len String.length Nat.eqb].
      * apply IH. intros ? [].
      * constructor; [split; [discriminate | done]|].
        apply IH. intros ? [].
    + apply IH. intros c'. rewrite bytes_append.
      intros [Hin | [<- | []]]%in_app_or; [by apply Hcur | done].
Qed.

Lemma splitFrom_plain (sep : ascii) (s : string) :
  forall cur : string,
    ~ In sep (bytes s) -> splitFrom sep s cur = [cur +:+ s].
Proof.
  induction s as [|c s IH]; intros cur Hfree.
  - by rewrite append_empty_r.
  - cbn [splitFrom].
    assert (Ascii.eqb c sep = false) as ->.
    { apply Ascii.eqb_neq. intros ->. apply Hfree. by left. }
    rewrite IH by (intros Hin; apply Hfree; by right).
    by rewrite append_assoc.
Qed.

Lemma splitFrom_nonempty (sep : ascii) (s : string) :
  forall cur : string, exists s0 rest, splitFrom sep s cur = s0 :: rest.
Proof.
  induction s as [|c s IH]; intros cur; cbn [splitFrom]; [eauto|].
  destruct (Ascii.eqb c sep); eauto.
Qed.

Lemma afterFirstSlash_plain (remote : string) :
  forall name : string,
    ~ In "/"%char (bytes remote) -> ~ In LF (bytes remote) ->
    afterFirstSlash (remote +:+ String "/" name) = Some name.
Proof.
  induction remote as [|c remote IH]; intros name Hslash Hlf; [done|].
  rewrite append_cons. cbn [afterFirstSlash].
  assert (Ascii.eqb c "/" = false) as ->.
  { apply Ascii.eqb_neq. intros ->. apply Hslash. by left. }
  assert (Ascii.eqb c LF = false) as ->.
  { apply Ascii.eqb_neq. intros ->. apply Hlf. by left. }
  apply IH; intros Hin; [apply Hslash | apply Hlf]; by right.
Qed.

Lemma cutPrefix_Some (p : string) :
  forall s rest : string, cutPrefix p s = Some rest -> s = p +:+ rest.
Proof.
  induction p as [|a p IH]; intros s rest; cbn [cutPrefix].
  - by intros [= ->].
  - destruct s as [|b s]; [done|].
    destruct (Ascii.eqb a b) eqn:Hab; [|done].
    apply Ascii.eqb_eq in Hab as <-. intros Hcut%IH.
    by rewrite append_cons, Hcut.
Qed.

Lemma splitFrom_field (sep : ascii) (field : string) :
  forall rest cur : string,
    ~ In sep (bytes field) ->
    splitFrom sep (field +:+ String sep rest) cur
    = (cur +:+ field) :: splitFrom sep rest "".
Proof.
  induction field as [|c field IH]; intros rest cur Hfree.
  - rewrite append_empty_l, append_empty_r. cbn [splitFrom].
    by rewrite Ascii.eqb_refl.
  - rewrite append_cons. cbn [splitFrom].
    assert (Ascii.eqb c sep = false) as ->.
    { apply Ascii.eqb_neq. intros ->. apply Hfree. by left. }
    rewrite IH by (intros Hin; apply Hfree; by right).
    by rewrite append_assoc.
Qed.

(** Joining what [Split] made gives the string back. *)
Lemma joinPath_splitFrom (s : string) :
  forall cur : string, joinPath (splitFrom "/" s cur) = cur +:+ s.
Proof.
  induction s as [|c s IH]; intros cur; cbn [splitFrom].
  - by rewrite append_empty_r.
  - destruct (Ascii.eqb c "/") eqn:Hc.
    + apply Ascii.eqb_eq in Hc as ->.
      specialize (IH ""). rewrite append_empty_l in IH.
      destruct (splitFrom_nonempty "/" s "") as (s0 & rest & Hsplit).
      rewrite Hsplit in IH |- *. cbn [joinPath] in IH |- *.
      by rewrite IH.
    + rewrite IH. by rewrite append_assoc.
Qed.

Lemma first_slash (s : string) :
  ~ In "/"%char (bytes s)
  \/ exists seg tail : string,
       s = seg +:+ String "/" tail /\ ~ In "/"%char (bytes seg).
Proof.
  induction s as [|c s IH]; [left; by intros []|].
  destruct (Ascii.eqb c "/") eqn:Hc.
  - apply Ascii.eqb_eq in Hc as ->. right. exists "", s. split; [done|].
    by intros [].
  - apply Ascii.eqb_neq in Hc. destruct IH as [Hfree | (seg & tail & -> & Hseg)].
    + left. intros [Heq | Hin]; [by apply Hc | by apply Hfree].
    + right. exists (String c seg), tail. split; [done|].
      intros [Heq | Hin]; [by apply Hc | by apply Hseg].
Qed.

Lemma afterFirstSlash_none (s : string) :
  ~ In "/"%char (bytes s) -> afterFirstSlash s = None.
Proof.
  induction s as [|c s IH]; intros Hfree; [done|].
  cbn [afterFirstSlash].
  assert (Ascii.eqb c "/" = false) as ->.
  { apply Ascii.eqb_neq. intros ->. apply Hfree. by left. }
  destruct (Ascii.eqb c LF); [done|].
  apply IH. intros Hin. apply Hfree. by right.
Qed.

(** The lines of [splitLines] hold no line feed. *)
Lemma splitLines_plain (text : string) :
  Forall (fun line => ~ In LF (bytes line)) (splitLines text).
Proof.
  unfold splitLines, FieldsFunc.
  eapply Forall_impl;
    [apply (fieldsFrom_fields (fun c => Ascii.eqb c LF)); by intros ? []|].
  intros line [_ Hfree] Hin%Hfree. by rewrite Ascii.eqb_refl in Hin.
Qed.

(** On a ref name without a line feed and with a named remote, the
    regular expression of [extractBranchNames] leaves the bare name. *)
Lemma stripRefPrefix_bareName (ref : string) :
  ~ In LF (bytes ref) ->
  cutPrefix "refs/remotes//" ref = None ->
  stripRefPrefix ref = bareName ref.
Proof.
  intros Hlf Hnamed. unfold stripRefPrefix, bareName, Split.
  destruct (cutPrefix "refs/heads/" ref) as [name|] eqn:Hheads.
  { apply cutPrefix_Some in Hheads as ->.
    change ("refs/heads/" +:+ name)
      with ("refs" +:+ String "/" ("heads" +:+ String "/" name)).
    rewrite !splitFrom_field by (cbn; intuition discriminate).
    destruct (splitFrom_nonempty "/" name "") as (s0 & rest & Hsplit).
    pose proof (joinPath_splitFrom name "") as Hjoin.
    rewrite Hsplit in Hjoin |- *. by rewrite Hjoin. }
  destruct (cutPrefix "refs/remotes/" ref) as [rest|] eqn:Hremotes.
  { apply cutPrefix_Some in Hremotes as ->.
    change ("refs/remotes/" +:+ rest)
      with ("refs" +:+ String "/" ("remotes" +:+ String "/" rest)).
    rewrite !splitFrom_field by (cbn; intuition discriminate).
    cbn [append bool_decide negb].
    change (bool_decide ("refs" = "refs")) with true.
    change (bool_decide ("remotes" = "heads")) with false.
    change (bool_decide ("remotes" = "remotes")) with true.
    cbn [negb].
    destruct rest as [|c rest]; [done|].
    assert (Hc : c <> "/"%char).
    { intros ->. discriminate Hnamed. }
    assert (Hc' : Ascii.eqb c LF = false).
    { apply Ascii.eqb_neq. intros ->. apply Hlf.
      rewrite bytes_append. apply in_or_app. right. by left. }
    rewrite Hc'.
    destruct (first_slash rest) as [Hfree | (seg & tail & -> & Hseg)].
    - rewrite afterFirstSlash_none by done.
      rewrite splitFrom_plain; [done|].
      intros [Heq | Hin]; [by apply Hc | by apply Hfree].
    - rewrite afterFirstSlash_plain; [|done|].
      + change (String c (seg +:+ String "/" tail))
          with (String c seg +:+ String "/" tail).
        rewrite splitFrom_field
          by (intros [Heq | Hin]; [by apply Hc | by apply Hseg]).
        destruct (splitFrom_nonempty "/" tail "") as (s0 & more & Hsplit).
        pose proof (joinPath_splitFrom tail "") as Hjoin.
        rewrite Hsplit in Hjoin |- *. by rewrite Hjoin.
      + intros Hin. apply Hlf. rewrite bytes_append. apply in_or_app.
        right. right. rewrite bytes_append. apply in_or_app. by left. }
  pose proof (joinPath_splitFrom ref "") as Hjoin.
  rewrite append_empty_l in Hjoin.
  destruct (splitFrom "/" ref "") as [|top [|kind rest]]; [done..|].
  destruct (bool_decide (top = "refs")) eqn:Htop; [|done].
  apply bool_decide_eq_true in Htop as ->. cbn [negb].
  destruct (bool_decide (kind = "heads")) eqn:Hkind.
  { apply bool_decide_eq_true in Hkind as ->.
    destruct rest as [|r0 rest]; [done|].
    exfalso. rewrite <- Hjoin in Hheads.
    change (joinPath ("refs" :: "heads" :: r0 :: rest))
      with ("refs/heads/" +:+ joinPath (r0 :: rest)) in Hheads.
    by rewrite cutPrefix_append in Hheads. }
  destruct (bool_decide (kind = "remotes")) eqn:Hkind'; [|done].
  apply bool_decide_eq_true in Hkind' as ->.
  destruct rest as [|r0 [|r1 rest]]; [done..|].
  exfalso. rewrite <- Hjoin in Hremotes.
  change (joinPath ("refs" :: "remotes" :: r0 :: r1 :: rest))
    with ("refs/remotes/" +:+ joinPath (r0 :: r1 :: rest)) in Hremotes.
  by rewrite cutPrefix_append in Hremotes.
Qed.
(** * Properties *)

(** ** Loops *)

Section LoopFacts.
Context {X S R : Type}.

(** A body that ignores the index runs the same from any start index. *)
Lemma for_range_index_irrelevant (f : X -> S -> flow S R) (xs : list X) :
  forall (i j : nat) (s : S),
    for_range (fun _ => f) i xs s = for_range (fun _ => f) j xs s.
Proof.
  induction xs as [|x xs IH]; intros i j s; simpl; [reflexivity|].
  destruct (f x s); auto.
Qed.

(** A loop that only appends one value per element builds a [map]. *)
Lemma for_range_append_map {Y : Type} (g : X -> Y) (xs : list X) :
  forall (i : nat) (acc : list Y),
    for_range (R := R) (fun _ x acc => Next (acc ++ [g x])) i xs acc
    = inl (acc ++ List.map g xs).
Proof.
  induction xs as [|x xs IH]; intros i acc; simpl.
  - by rewrite app_nil_r.
  - rewrite IH. by rewrite <- app_assoc.
Qed.

(** A loop that returns [true] at the first hit is [existsb]. *)
Lemma for_range_search (p : X -> bool) (xs : list X) :
  forall i : nat,
    match for_range (fun _ x (_ : unit) =>
                       if p x then Return true else Next tt) i xs tt with
    | inr b => b
    | inl _ => false
    end = existsb p xs.
Proof.
  induction xs as [|x xs IH]; intros i; simpl; [reflexivity|].
  destruct (p x); simpl; auto.
Qed.

(** A loop that breaks with [true] at the first hit is [existsb] too. *)
Lemma for_range_flag (p : X -> bool) (xs : list X) :
  forall (i : nat) (b : bool),
    fell_through
      (for_range (fun _ x (has : bool) =>
                    if p x then Break true else Next has) i xs b)
    = b || existsb p xs.
Proof.
  induction xs as [|x xs IH]; intros i b; simpl.
  - by rewrite orb_false_r.
  - destruct (p x); simpl; [by rewrite orb_true_r | apply IH].
Qed.
End LoopFacts.

(** A loop that appends some elements' images builds a filtered [map]. *)
Lemma for_range_append_filter {X Y R : Type} (p : X -> bool) (g : X -> Y)
    (xs : list X) :
  forall (i : nat) (acc : list Y),
    for_range (R := R)
      (fun _ x acc => if p x then Next (acc ++ [g x]) else Next acc) i xs acc
    = inl (acc ++ List.map g (List.filter p xs)).
Proof.
  induction xs as [|x xs IH]; intros i acc; simpl.
  - by rewrite app_nil_r.
  - destruct (p x); simpl; rewrite IH; [by rewrite <- app_assoc | done].
Qed.

(** ** Running a sequence of two computations *)

Lemma bind_Ret {W A B : Type} (m : M W A) (k : A -> M W B) (w w' : W) (a : A) :
  m w = (Ret a, w') -> bind m k w = k a w'.
Proof. intros Hm. unfold bind. by rewrite Hm. Qed.

Lemma bind_Fail {W A B : Type} (m : M W A) (k : A -> M W B) (w w' : W)
    (e : error) :
  m w = (Fail e, w') -> bind m k w = (Fail e, w').
Proof. intros Hm. unfold bind. by rewrite Hm. Qed.

Lemma bind_Panic {W A B : Type} (m : M W A) (k : A -> M W B) (w w' : W) :
  m w = (Panic, w') -> bind m k w = (Panic, w').
Proof. intros Hm. unfold bind. by rewrite Hm. Qed.

(** ** The helper functions, in closed form *)

Lemma existsb_eq_In (name : string) (names : list string) :
  existsb (fun n => bool_decide (n = name)) names = true <-> In name names.
Proof.
  rewrite existsb_exists. split.
  - intros (n & Hin & Heq). apply bool_decide_eq_true in Heq. by subst.
  - intros Hin. exists name. split; [done | by apply bool_decide_eq_true].
Qed.

Lemma nameExists_spec (name : string) (names : list string) :
  nameExists name names = existsb (fun n => bool_decide (n = name)) names.
Proof. unfold nameExists. apply for_range_search. Qed.

Lemma branchNameExists_spec (branchName : string) (branches : list Branch.t) :
  branchNameExists branchName branches
  = existsb (fun b => bool_decide (Branch.Name b = branchName)) branches.
Proof.
  unfold branchNameExists.
  apply (for_range_search (fun b => bool_decide (Branch.Name b = branchName))).
Qed.

Lemma branchNameExists_In (branchName : string) (branches : list Branch.t) :
  branchNameExists branchName branches = true
  <-> In branchName (List.map Branch.Name branches).
Proof.
  rewrite branchNameExists_spec, existsb_exists, in_map_iff.
  split; intros (b & H1 & H2).
  - apply bool_decide_eq_true in H2. eauto.
  - exists b. split; [done | by apply bool_decide_eq_true].
Qed.

Lemma extractBranchNames_map (refNames : list string) :
  extractBranchNames refNames = List.map stripRefPrefix refNames.
Proof.
  unfold extractBranchNames. by rewrite for_range_append_map.
Qed.

Lemma checkDeletion_map (branches : list Branch.t)
    (changes : list UncommittedChange) :
  checkDeletion branches changes
  = List.map (fun b => Branch.set_State (getDeleteStatus b changes) b)
      branches.
Proof.
  unfold checkDeletion.
  by rewrite (for_range_append_map
                (fun b => Branch.set_State (getDeleteStatus b changes) b)).
Qed.

Lemma getBranchNames_filter (branches : list Branch.t) (state : BranchState) :
  getBranchNames branches state
  = List.map Branch.Name
      (List.filter (fun b => bool_decide (Branch.State b = state)) branches).
Proof.
  unfold getBranchNames.
  by rewrite (for_range_append_filter
                (fun b => bool_decide (Branch.State b = state)) Branch.Name).
Qed.

Lemma checkDeleted_map (before after : list Branch.t) :
  checkDeleted before after = List.map (markDeleted after) before.
Proof.
  unfold checkDeleted. by rewrite (for_range_append_map (markDeleted after)).
Qed.

(** ** Classification *)

Lemma isFullyMerged_closed (branch : Branch.t) (pr : PullRequest.t) :
  isFullyMerged branch pr
  = bool_decide (PullRequest.State pr = Merged)
    && match Branch.Commits branch with
       | [] => false
       | localHeadOid :: _ =>
           existsb (fun oid => bool_decide (oid = localHeadOid))
             (PullRequest.Commits pr)
       end.
Proof.
  unfold isFullyMerged.
  destruct (bool_decide (PullRequest.State pr = Merged)); simpl; [|done].
  destruct (Branch.Commits branch) as [|c0 cs]; simpl; [done|].
  apply (for_range_search (fun oid => bool_decide (oid = c0))).
Qed.

(** The counting loop of [getDeleteStatus], from any count. *)
Lemma getDeleteStatus_loop (branch : Branch.t) (prs : list PullRequest.t) :
  forall (i : nat) (cnt : Z),
    for_range
      (fun _ pr (fullyMergedCnt : Z) =>
         if bool_decide (PullRequest.State pr = Open)
         then Return NotDeletable
         else if isFullyMerged branch pr
         then Next (fullyMergedCnt + 1)%Z
         else Next fullyMergedCnt) i prs cnt
    = if existsb (fun pr => bool_decide (PullRequest.State pr = Open)) prs
      then inr NotDeletable
      else inl (cnt + Z.of_nat
                        (List.length (List.filter (isFullyMerged branch) prs)))%Z.
Proof.
  induction prs as [|pr prs IH]; intros i cnt; simpl.
  - f_equal. lia.
  - destruct (bool_decide (PullRequest.State pr = Open)); simpl; [done|].
    destruct (isFullyMerged branch pr); simpl; rewrite IH;
      destruct (existsb _ prs); try done; f_equal; lia.
Qed.

(** C1: [getDeleteStatus] evaluates the priority order of the
    classification engine: a protected branch is NotDeletable whatever its
    other fields; otherwise the checked-out branch with at least one
    uncommitted change whose Y status is not [?] is NotDeletable (changes
    that are all untracked never block); otherwise a branch without pull
    requests is NotDeletable; otherwise any Open pull request makes it
    NotDeletable; otherwise no fully merged pull request makes it
    NotDeletable; otherwise it is Deletable. *)
Theorem getDeleteStatus_priority_order (branch : Branch.t)
    (uncommittedChanges : list UncommittedChange) :
  getDeleteStatus branch uncommittedChanges =
    if Branch.IsProtected branch then NotDeletable
    else if Branch.Head branch
            && existsb (fun change => negb (bool_decide (Y change = "?")))
                 uncommittedChanges
    then NotDeletable
    else match Branch.PullRequests branch with
         | [] => NotDeletable
         | _ :: _ =>
             if existsb (fun pr => bool_decide (PullRequest.State pr = Open))
                  (Branch.PullRequests branch)
             then NotDeletable
             else if (List.length
                        (List.filter (isFullyMerged branch)
                           (Branch.PullRequests branch)) =? 0)%nat
             then NotDeletable
             else Deletable
         end.
Proof.
  unfold getDeleteStatus.
  destruct (Branch.IsProtected branch); [done|].
  rewrite (for_range_flag (fun change => negb (IsUntracked change))).
  simpl. unfold IsUntracked.
  destruct (Branch.Head branch && _); [done|].
  rewrite getDeleteStatus_loop.
  destruct (Branch.PullRequests branch) as [|pr prs] eqn:Hprs; [done|].
  cbn [List.length Nat.eqb].
  destruct (existsb _ (pr :: prs)); [done|].
  destruct (List.length _) eqn:Hlen; simpl; [done|].
  by destruct (Pos.of_succ_nat n).
Qed.

(** C2, as the code has it: a pull request counts as fully merged
    against a branch exactly when its State is Merged, the branch's
    Commits list is not empty, and the first entry of that list, which in
    the newest-first order is the newest retained commit, is among the
    pull request's Commits; so against a branch with an empty Commits list
    no pull request is fully merged.  Read with the oldest retained commit
    the test is the same whenever the newest and the oldest retained
    commit are one, as they are in a list of one commit. *)
Theorem isFullyMerged_iff (branch : Branch.t) (pr : PullRequest.t) :
  (isFullyMerged branch pr = true
   <-> PullRequest.State pr = Merged
       /\ Branch.Commits branch <> []
       /\ exists localHeadOid : string,
            List.head (Branch.Commits branch) = Some localHeadOid
            /\ In localHeadOid (PullRequest.Commits pr))
  /\ (Branch.Commits branch = [] -> isFullyMerged branch pr = false)
  /\ (List.head (Branch.Commits branch) = oldestRetained branch ->
      (isFullyMerged branch pr = true <-> fullyMergedOnOldest branch pr)).
Proof.
  assert (Hnewest :
            isFullyMerged branch pr = true
            <-> PullRequest.State pr = Merged
                /\ Branch.Commits branch <> []
                /\ exists localHeadOid : string,
                     List.head (Branch.Commits branch) = Some localHeadOid
                     /\ In localHeadOid (PullRequest.Commits pr)).
  { rewrite isFullyMerged_closed.
    rewrite andb_true_iff, bool_decide_eq_true.
    destruct (Branch.Commits branch) as [|c0 cs]; simpl.
    - split; [intros [_ ?]; done | intros (_ & Hne & _); done].
    - rewrite existsb_eq_In. split.
      + intros [HM Hin]. repeat split; [done.. | eauto].
      + intros (HM & _ & c & [= <-] & Hin). done. }
  split; [exact Hnewest|]. split.
  - rewrite isFullyMerged_closed. intros ->. by rewrite andb_false_r.
  - intros Hone. rewrite Hnewest. unfold fullyMergedOnOldest.
    by rewrite Hone.
Qed.

(** ** The ancestry trimmer *)

Section Walk.
Context {W : Type} (connection : Connection.t W).

(** The loop that checks one commit's names against the siblings. *)
Lemma check_loop (branchName : string) (childNames names results : list string) :
  forall i : nat,
    for_range
      (fun _ name (_ : unit) =>
         if negb (bool_decide (name = branchName))
            && negb (match for_range
                             (fun _ childName (_ : unit) =>
                                if bool_decide (name = childName)
                                then Return true else Next tt)
                             0%nat childNames tt with
                     | inr b => b
                     | inl _ => false
                     end)
         then Return results else Next tt) i names tt
    = if existsb (isForeign branchName childNames) names
      then inr results else inl tt.
Proof.
  induction names as [|name names IH]; intros i; simpl; [done|].
  unfold isForeign at 1.
  rewrite (for_range_search (fun childName => bool_decide (name = childName))).
  destruct (negb (bool_decide (name = branchName)) && _); simpl; [done|].
  apply IH.
Qed.

(** The loop that registers the first commit's names. *)
Lemma register_loop (branchName defaultBranchName : string)
    (names : list string) :
  forall (i : nat) (childNames : list string),
    for_range
      (fun _ name (childNames : list string) =>
         if bool_decide (name = defaultBranchName)
         then Return ([] : list string)
         else if negb (bool_decide (name = branchName))
         then Next (childNames ++ [name])
         else Next childNames) i names childNames
    = if existsb (fun name => bool_decide (name = defaultBranchName)) names
      then inr []
      else inl (childNames
                  ++ List.filter
                       (fun name => negb (bool_decide (name = branchName)))
                       names).
Proof.
  induction names as [|name names IH]; intros i childNames; simpl.
  - by rewrite app_nil_r.
  - destruct (bool_decide (name = defaultBranchName)); simpl; [done|].
    destruct (negb (bool_decide (name = branchName))); simpl; rewrite IH;
      destruct (existsb _ names); try done.
    by rewrite <- app_assoc.
Qed.

(** None of the first commit's names is foreign to the siblings it
    registers. *)
Lemma first_names_not_foreign (branchName : string) (names : list string) :
  existsb
    (isForeign branchName
       (List.filter (fun name => negb (bool_decide (name = branchName))) names))
    names = false.
Proof.
  apply not_true_is_false. rewrite existsb_exists.
  intros (name & Hin & Hf). unfold isForeign in Hf.
  apply andb_true_iff in Hf as [Hown Hsib].
  apply negb_true_iff in Hsib.
  apply not_true_iff_false in Hsib. apply Hsib.
  apply existsb_exists. exists name. split.
  - apply filter_In. done.
  - by apply bool_decide_eq_true.
Qed.

(** On what git answers, the names the code extracts are the bare
    names. *)
Lemma names_bare (oid refNames : string) (w w1 : W) :
  remotesNamed connection ->
  Connection.GetAssociatedRefNames connection oid w = ((refNames, None), w1) ->
  extractBranchNames (splitLines refNames)
  = List.map bareName (splitLines refNames).
Proof.
  intros Hnamed Hcall. rewrite extractBranchNames_map.
  apply List.map_ext_in. intros ref Hin.
  pose proof (splitLines_plain refNames) as Hplain.
  pose proof (Hnamed _ _ _ _ Hcall) as Hrefs.
  rewrite List.Forall_forall in Hplain, Hrefs.
  apply stripRefPrefix_bareName; [by apply Hplain | by apply Hrefs].
Qed.

Lemma trim_loop_later (branchName defaultBranchName : string)
    (oids : list string) :
  remotesNamed connection ->
  forall (i : nat) (results siblings : list string) (w : W),
    (r <- for_rangeM (trimBranchStep connection "" false branchName defaultBranchName)
            (Datatypes.S i) oids (results, siblings) ;;
     match r with
     | inl (results, _) => ret results
     | inr r => ret r
     end) w
    = walkLater connection branchName siblings oids results w.
Proof.
  intros Hnamed.
  induction oids as [|oid oids IH]; intros i results siblings w; [done|].
  specialize (IH (Datatypes.S i) (results ++ [oid]) siblings).
  cbn [for_rangeM walkLater].
  unfold trimBranchStep at 1, associatedNames, orReturn.
  unfold bind, call, ret, fail in IH |- *.
  cbn [Nat.eqb Nat.ltb Nat.leb len String.length orb].
  destruct (Connection.GetAssociatedRefNames connection oid w)
    as [[refNames [e|]] w1] eqn:Hcall; [done|].
  rewrite (names_bare _ _ _ _ Hnamed Hcall).
  rewrite check_loop.
  destruct (existsb _ _); [done|].
  apply IH.
Qed.
End Walk.

Lemma caught_up_test (remoteHeadOid : string) (isMerged : bool) :
  remoteHeadOid <> "" \/ isMerged = true ->
  (0 <? len remoteHeadOid)%nat || isMerged = true.
Proof.
  intros [Hne | ->]; [|by rewrite orb_true_r].
  destruct remoteHeadOid; [done|reflexivity].
Qed.

(** With a remote head or the merged flag, [trimBranch] answers from the
    log alone, over any connection and world. *)
Lemma trimBranch_caught_up {W : Type} (connection : Connection.t W)
    (oids : list string) (remoteHeadOid : string) (isMerged : bool)
    (branchName defaultBranchName : string) (w : W) :
  remoteHeadOid <> "" \/ isMerged = true ->
  trimBranch connection oids remoteHeadOid isMerged branchName
    defaultBranchName w
  = (Ret (List.firstn 1 oids), w).
Proof.
  intros Hup. apply caught_up_test in Hup.
  unfold trimBranch. destruct oids as [|newest oids]; [done|].
  cbn [for_rangeM]. unfold trimBranchStep at 1. rewrite Hup. reflexivity.
Qed.

(** C3, as the code has it: for a branch whose remote head oid is known or
    whose merged flag is set, [trimBranch] returns the list that holds
    just the newest commit of the log when the log is not empty, and the
    empty list when the log is empty; in both cases it performs no
    ref-association lookup: the world is left as it was, and a connection
    that records the lookups records none. *)
Theorem trimBranch_known_remote_or_merged {W : Type}
    (connection : Connection.t W) (oids : list string)
    (remoteHeadOid : string) (isMerged : bool)
    (branchName defaultBranchName : string) (w : W) (lookups : list string) :
  remoteHeadOid <> "" \/ isMerged = true ->
  trimBranch connection oids remoteHeadOid isMerged branchName
    defaultBranchName w
  = (Ret match oids with
         | [] => []
         | newest :: _ => [newest]
         end, w)
  /\ trimBranch (recording connection) oids remoteHeadOid isMerged branchName
       defaultBranchName (w, lookups)
     = (Ret match oids with
            | [] => []
            | newest :: _ => [newest]
            end, (w, lookups)).
Proof.
  intros Hup. split; rewrite trimBranch_caught_up by done; by destruct oids.
Qed.

(** C4: for a branch with no known remote head oid and the merged flag
    unset, over a connection that answers as git does (no remote-tracking
    ref with an empty remote name), [trimBranch] is the walk of the
    specification over the newest-first log, on the bare names of the refs
    associated with each commit ([refs/heads/] or
    [refs/remotes/<remote>/] stripped): a name of the first commit equal
    to the default branch name gives the empty list; otherwise every name
    of the first commit other than the branch's own is registered as a
    sibling; then, on each later commit, a name that is neither the
    branch's own nor a sibling stops the walk with exactly the commits
    accumulated so far, and otherwise the commit is accumulated and the
    walk goes on. *)
Theorem trimBranch_is_walk {W : Type} (connection : Connection.t W)
    (oids : list string) (branchName defaultBranchName : string) (w : W) :
  remotesNamed connection ->
  trimBranch connection oids "" false branchName defaultBranchName w
  = walk connection branchName defaultBranchName oids w.
Proof.
  intros Hnamed. unfold trimBranch.
  destruct oids as [|first later]; [done|].
  pose proof (trim_loop_later connection branchName defaultBranchName later
                Hnamed 0)
    as Hlater.
  cbn [for_rangeM walk].
  unfold trimBranchStep at 1, associatedNames, orReturn.
  unfold bind, call, ret, fail in Hlater |- *.
  cbn [Nat.eqb Nat.ltb Nat.leb len String.length orb].
  destruct (Connection.GetAssociatedRefNames connection first w)
    as [[refNames [e|]] w1] eqn:Hcall; [done|].
  rewrite (names_bare connection _ _ _ _ Hnamed Hcall).
  rewrite register_loop.
  destruct (existsb _ _); [done|].
  cbn [app]. rewrite check_loop, first_names_not_foreign.
  apply Hlater.
Qed.

(** ** Pull-request matching *)


(** The same for a loop whose iterations call the world and always go on
    to the next element. *)
Lemma for_rangeM_invariant {W X S : Type} (P : S -> Prop)
    (body : nat -> X -> S -> M W (flow S Empty_set)) (xs : list X) :
  (forall i x s w, P s ->
     exists s' w', body i x s w = (Ret (Next s'), w') /\ P s') ->
  forall (i : nat) (s : S) (w : W), P s ->
    exists s' w', for_rangeM body i xs s w = (Ret (inl s'), w') /\ P s'.
Proof.
  intros Hbody. induction xs as [|x xs IH]; intros i s w Hs.
  - exists s, w. done.
  - destruct (Hbody i x s w Hs) as (s1 & w1 & Hrun & Hs1).
    destruct (IH (Datatypes.S i) s1 w1 Hs1) as (s2 & w2 & Hrest & Hs2).
    exists s2, w2. split; [|done].
    cbn [for_rangeM]. unfold bind. by rewrite Hrun.
Qed.

Lemma prNumberExists_spec (prNumbers : gmap string Z) (prNumber : Z) :
  match for_range
          (fun _ (kv : string * Z) (_ : unit) =>
             if bool_decide (kv.2 = prNumber) then Return true else Next tt)
          0%nat (map_to_list prNumbers) tt with
  | inr b => b
  | inl _ => false
  end = true
  <-> explicitlyTracked prNumbers prNumber.
Proof.
  rewrite (for_range_search (fun kv : string * Z => bool_decide (kv.2 = prNumber))).
  rewrite existsb_exists. unfold explicitlyTracked. split.
  - intros ([name n] & Hin & Heq). apply bool_decide_eq_true in Heq.
    simpl in Heq. subst n. exists name.
    apply elem_of_map_to_list. by apply list_elem_of_In.
  - intros (name & Hlook). exists (name, prNumber). split.
    + apply list_elem_of_In. by apply elem_of_map_to_list.
    + by apply bool_decide_eq_true.
Qed.


Section Matching.
Context {W : Type} (connection : Connection.t W) `{Library}.

(** The first loop of [applyPullRequest] always completes, and only
    records positive numbers. *)
Lemma collectPRNumbers_total (branches : list Branch.t) (w : W) :
  exists (prNumbers : gmap string Z) (w' : W),
    collectPRNumbers connection branches w = (Ret prNumbers, w')
    /\ forall name n, prNumbers !! name = Some n -> (0 < n)%Z.
Proof.
  unfold collectPRNumbers.
  match goal with
  | |- context [for_rangeM ?body 0%nat branches ∅] =>
      destruct (for_rangeM_invariant
                  (fun m : gmap string Z =>
                     forall name n, m !! name = Some n -> (0 < n)%Z)
                  body branches) with (i := 0%nat) (s := (∅ : gmap string Z))
                                      (w := w)
        as (m & w' & Hrun & Hpos)
  end.
  - intros i branch m w0 Hm.
    destruct (IsDetached branch); [by exists m, w0|].
    unfold bind, call.
    destruct (Connection.GetConfig connection _ w0) as [[mergeConfig err] w1].
    destruct (0 <? getPRNumber mergeConfig)%Z eqn:Hn; [|by exists m, w1].
    eexists _, w1. split; [reflexivity|].
    intros name n [[_ <-] | [_ Hold]]%lookup_insert_Some; [lia | eauto].
  - intros name n Hlook. by rewrite lookup_empty in Hlook.
  - exists m, w'. split; [|done].
    by rewrite (bind_Ret _ _ _ _ _ Hrun).
Qed.

Lemma attachPullRequests_map (branches : list Branch.t)
    (prs : list PullRequest.t) (prNumbers : gmap string Z) :
  attachPullRequests branches prs prNumbers
  = List.map
      (fun branch =>
         Branch.set_PullRequests
           (sort_Slice
              (fun a b => (PullRequest.Number a <? PullRequest.Number b)%Z)
              (findMatchedPullRequest (Branch.Name branch) prs prNumbers))
           branch)
      branches.
Proof.
  unfold attachPullRequests.
  by rewrite (for_range_append_map
                (fun branch =>
                   Branch.set_PullRequests
                     (sort_Slice
                        (fun a b =>
                           (PullRequest.Number a <? PullRequest.Number b)%Z)
                        (findMatchedPullRequest (Branch.Name branch) prs
                           prNumbers))
                     branch)).
Qed.





End Matching.

(** ** The fail-safe switch *)

Lemma needsCheckout_spec (branches : list Branch.t) :
  fell_through
    (for_range
       (fun _ branch (needsCheckout : bool) =>
          if Branch.Head branch
             && bool_decide (Branch.State branch = Deletable)
          then Break true else Next needsCheckout)
       0%nat branches false) = true
  <-> checkedOutIsDeletable branches.
Proof.
  rewrite (for_range_flag
             (fun b => Branch.Head b && bool_decide (Branch.State b = Deletable))).
  cbn [orb]. rewrite existsb_exists. unfold checkedOutIsDeletable.
  split; intros (b & Hin & Hb); exists b; (split; [done|]).
  - apply andb_true_iff in Hb as [Hh Hs]. by apply bool_decide_eq_true in Hs.
  - destruct Hb as [-> Hs]. by apply bool_decide_eq_true.
Qed.

Lemma relabel_loop (defaultBranchName : string) (branches : list Branch.t) :
  forall (i : nat) (results : list Branch.t),
    fell_through
      (for_range
         (fun _ branch (results : list Branch.t) =>
            let branch :=
              if bool_decide (Branch.Name branch = defaultBranchName)
              then Branch.set_Head true branch
              else Branch.set_Head false branch in
            Next (results ++ [branch]))
         i branches results)
    = results
      ++ List.map
           (fun b => Branch.set_Head
                       (bool_decide (Branch.Name b = defaultBranchName)) b)
           branches.
Proof.
  induction branches as [|b branches IH]; intros i results.
  - cbn. by rewrite app_nil_r.
  - cbn [for_range List.map]. rewrite IH, <- app_assoc.
    by destruct (bool_decide _).
Qed.

(** Heads after relabelling, when no entry bears the default name. *)
Lemma relabel_no_default (defaultBranchName : string)
    (branches : list Branch.t) :
  ~ In defaultBranchName (List.map Branch.Name branches) ->
  List.filter Branch.Head
    (List.map
       (fun b => Branch.set_Head
                   (bool_decide (Branch.Name b = defaultBranchName)) b)
       branches) = [].
Proof.
  induction branches as [|b branches IH]; intros Hnot; [done|].
  cbn [List.map List.filter Branch.set_Head Branch.Head].
  cbn [List.map] in Hnot.
  rewrite bool_decide_eq_false_2 by (intros Heq; apply Hnot; by left).
  apply IH. intros Hin. apply Hnot. by right.
Qed.

(** Heads after relabelling, when names are unique and one entry bears
    the default name. *)
Lemma relabel_one_default (defaultBranchName : string)
    (branches : list Branch.t) :
  NoDup (List.map Branch.Name branches) ->
  In defaultBranchName (List.map Branch.Name branches) ->
  List.length
    (List.filter Branch.Head
       (List.map
          (fun b => Branch.set_Head
                      (bool_decide (Branch.Name b = defaultBranchName)) b)
          branches)) = 1%nat.
Proof.
  induction branches as [|b branches IH]; [done|].
  cbn [List.map]. rewrite NoDup_cons. intros [Hfresh Hnodup] Hin.
  cbn [List.filter Branch.set_Head Branch.Head].
  case_bool_decide as Hname.
  - cbn [List.length]. f_equal.
    rewrite relabel_no_default; [done|].
    intros Hin'. apply Hfresh, list_elem_of_In. by rewrite Hname.
  - apply IH; [done|]. by destruct Hin as [|].
Qed.

Lemma relabelled_only_head (defaultBranchName : string)
    (branches : list Branch.t) :
  NoDup (List.map Branch.Name branches) ->
  onlyHeadIs defaultBranchName (relabelled branches defaultBranchName).
Proof.
  intros Hnodup. unfold relabelled, onlyHeadIs. split.
  - destruct (branchNameExists defaultBranchName branches) eqn:Hex;
      cbn [negb app].
    + apply relabel_one_default; [done|]. by apply branchNameExists_In.
    + cbn [List.filter defaultBranchEntry Branch.set_State Branch.set_Name
             Branch.set_Head Branch.Head Branch.zero].
      rewrite relabel_no_default; [done|].
      intros Hin%branchNameExists_In. congruence.
  - intros b [Hb | Hb]%in_app_or Hhead.
    + destruct (negb _); [|done]. by destruct Hb as [<- | []].
    + apply in_map_iff in Hb as (x & <- & _).
      cbn in Hhead |- *. by apply bool_decide_eq_true in Hhead.
Qed.

(** C6: whenever the fail-safe switch triggers (the checked-out branch is
    Deletable) on a list of uniquely named branches, the branch list it
    produces has exactly one entry with Head set and that entry is the
    default branch; when the default branch was absent from the list, a
    minimal NotDeletable entry for it is put first; and in dry-run mode no
    checkout is called (the world is untouched) while the relabelled list
    is the same one a successful checkout returns. *)
Theorem switchToDefaultBranchIfDeleted_relabels {W : Type}
    (connection : Connection.t W) (branches : list Branch.t)
    (defaultBranchName : string) (w : W) :
  checkedOutIsDeletable branches ->
  NoDup (List.map Branch.Name branches) ->
  onlyHeadIs defaultBranchName (relabelled branches defaultBranchName)
  /\ (~ In defaultBranchName (List.map Branch.Name branches) ->
      exists rest : list Branch.t,
        relabelled branches defaultBranchName
        = Branch.mk true defaultBranchName false false "" [] [] NotDeletable
            :: rest)
  /\ switchToDefaultBranchIfDeleted connection branches defaultBranchName
       true w
     = (Ret (relabelled branches defaultBranchName), w)
  /\ switchToDefaultBranchIfDeleted connection branches defaultBranchName
       false w
     = match Connection.CheckoutBranch connection defaultBranchName w with
       | ((_, None), w') => (Ret (relabelled branches defaultBranchName), w')
       | ((_, Some e), w') => (Fail e, w')
       end.
Proof.
  intros Htrigger%needsCheckout_spec Hnodup.
  split; [by apply relabelled_only_head|]. split.
  { intros Hnot. unfold relabelled.
    destruct (branchNameExists defaultBranchName branches) eqn:Hex.
    - apply branchNameExists_In in Hex. done.
    - eexists. reflexivity. }
  unfold switchToDefaultBranchIfDeleted. rewrite Htrigger. cbn [negb].
  split.
  - unfold bind, ret. rewrite relabel_loop. reflexivity.
  - unfold orReturn, bind, call, ret, fail.
    destruct (Connection.CheckoutBranch connection defaultBranchName w)
      as [[out [e|]] w']; [done|].
    rewrite relabel_loop. reflexivity.
Qed.

(** ** The whole classification call *)

Section Classification.
Context {W : Type} (connection : Connection.t W) `{Library}.

(** [GetBranches] classifies, then switches, then sorts. *)
Lemma GetBranches_split (remote : Remote.t) (dryRun : bool) (w : W) :
  GetBranches connection remote dryRun w
  = (classified <- classifyBranches connection remote ;;
     branches <- switchToDefaultBranchIfDeleted connection classified.1
                   classified.2 dryRun ;;
     ret (sort_Slice
            (fun a b => String.ltb (Branch.Name a) (Branch.Name b))
            branches)) w.
Proof.
  unfold GetBranches, classifyBranches, bind.
  destruct (orReturn _ w) as [[json|e|] w1]; [|done..].
  destruct (lift (getRepo json) w1) as [[[repoNames defaultBranchName]|e|] w2];
    [|done..].
  destruct (call _ w2) as [[[e|]|e|] w3]; [done| |done..].
  destruct (loadBranches _ _ _ _ w3) as [[branches|e|] w4]; [|done..].
  destruct (orReturn _ w4) as [[changes|e|] w5]; [|done..].
  destruct (lift _ w5) as [[uncommittedChanges|e|] w6]; [|done..].
  reflexivity.
Qed.

(** C7: when everything before the fail-safe switch has succeeded, the
    switch has to check out the default branch (the checked-out branch is
    Deletable and the run is not a dry run) and the checkout call fails,
    [GetBranches] returns that error and no branch list. *)
Theorem GetBranches_checkout_failure (remote : Remote.t) (w w1 w2 : W)
    (branches : list Branch.t) (defaultBranchName out : string) (e : error) :
  classifyBranches connection remote w = (Ret (branches, defaultBranchName), w1) ->
  checkedOutIsDeletable branches ->
  Connection.CheckoutBranch connection defaultBranchName w1
  = ((out, Some e), w2) ->
  GetBranches connection remote false w = (Fail e, w2)
  /\ forall (partial : list Branch.t) (w' : W),
       GetBranches connection remote false w <> (Ret partial, w').
Proof.
  intros Hclassified Htrigger%needsCheckout_spec Hcheckout.
  assert (Hfail : GetBranches connection remote false w = (Fail e, w2)).
  { rewrite GetBranches_split.
    rewrite (bind_Ret _ _ _ _ _ Hclassified). cbn [fst snd].
    apply bind_Fail.
    unfold switchToDefaultBranchIfDeleted. rewrite Htrigger. cbn [negb].
    apply bind_Fail, bind_Fail.
    unfold orReturn, bind, call, fail. by rewrite Hcheckout. }
  split; [done|]. intros partial w'. by rewrite Hfail.
Qed.
End Classification.

(** ** Deletion *)

Lemma getBranchNames_nil (branches : list Branch.t) :
  getBranchNames branches Deletable = []
  <-> forall b, In b branches -> Branch.State b <> Deletable.
Proof.
  rewrite getBranchNames_filter. split.
  - intros Hnil b Hin Hstate.
    assert (Hb : In b (List.filter
                         (fun b => bool_decide (Branch.State b = Deletable))
                         branches))
      by (apply filter_In; split; [done | by apply bool_decide_eq_true]).
    destruct (List.filter _ branches); [done | discriminate].
  - intros Hnone. induction branches as [|b branches IH]; [done|].
    cbn [List.filter].
    rewrite bool_decide_eq_false_2 by (apply Hnone; by left).
    apply IH. intros x Hx. apply Hnone. by right.
Qed.

Lemma getBranchNames_length (branches : list Branch.t) :
  (List.length (getBranchNames branches Deletable) =? 0)%nat = false
  <-> someDeletable branches.
Proof.
  rewrite Nat.eqb_neq. unfold someDeletable. split.
  - intros Hlen.
    destruct (getBranchNames branches Deletable) as [|name names] eqn:Hnames;
      [done|].
    rewrite getBranchNames_filter in Hnames.
    destruct (List.filter _ branches) as [|b bs] eqn:Hfilter; [done|].
    assert (Hb : In b (List.filter
                         (fun b => bool_decide (Branch.State b = Deletable))
                         branches)) by (rewrite Hfilter; by left).
    apply filter_In in Hb as [Hin Hstate%bool_decide_eq_true]. eauto.
  - intros (b & Hin & Hstate) Hlen.
    apply length_zero_iff_nil in Hlen.
    pose proof (proj1 (getBranchNames_nil branches) Hlen b Hin). done.
Qed.

Lemma markDeleted_cases (after : list Branch.t) (b : Branch.t) :
  (Branch.State b = Deletable ->
   ~ In (Branch.Name b) (List.map Branch.Name after) ->
   markDeleted after b = Branch.set_State Deleted b)
  /\ (Branch.State b = Deletable ->
      In (Branch.Name b) (List.map Branch.Name after) ->
      markDeleted after b = b)
  /\ (Branch.State b <> Deletable -> markDeleted after b = b).
Proof.
  unfold markDeleted. repeat split.
  - intros Hstate Habsent. rewrite bool_decide_eq_true_2 by done.
    destruct (branchNameExists _ after) eqn:Hex; [|done].
    by apply branchNameExists_In in Hex.
  - intros Hstate Hpresent. rewrite bool_decide_eq_true_2 by done.
    apply branchNameExists_In in Hpresent. by rewrite Hpresent.
  - intros Hstate. by rewrite bool_decide_eq_false_2.
Qed.

Section Deletion.
Context {W : Type} (connection : Connection.t W).

(** [DeleteBranches] once there is something to delete. *)
Lemma DeleteBranches_run (branches : list Branch.t) (w : W) :
  someDeletable branches ->
  DeleteBranches connection branches w
  = let w1 := (Connection.DeleteBranches connection
                 (getBranchNames branches Deletable) w).2 in
    match Connection.GetBranchNames connection w1 with
    | ((_, Some e), w2) => (Fail e, w2)
    | ((listing, None), w2) =>
        match toBranch (splitLines listing) with
        | Ret after => (Ret (checkDeleted branches after), w2)
        | Fail e => (Fail e, w2)
        | Panic => (Panic, w2)
        end
    end.
Proof.
  intros Hsome%getBranchNames_length.
  unfold DeleteBranches. rewrite Hsome.
  unfold orReturn, bind, call, lift, ret, fail.
  destruct (Connection.DeleteBranches connection _ w) as [r w1]. cbn [snd].
  destruct (Connection.GetBranchNames connection w1) as [[listing [e|]] w2];
    [done|].
  by destruct (toBranch (splitLines listing)).
Qed.

(** C8: [DeleteBranches] returns its input unchanged when no branch is
    Deletable; otherwise, once the branch listing has been read again,
    every branch that was Deletable becomes Deleted exactly when its name
    is absent from that listing and stays Deletable when it is still
    there, and every branch that was not Deletable is returned with all
    its fields unchanged. *)
Theorem DeleteBranches_marks_deleted (branches : list Branch.t) (w : W) :
  ((forall b, In b branches -> Branch.State b <> Deletable) ->
   DeleteBranches connection branches w = (Ret branches, w))
  /\ (forall (r : reply) (w1 w2 : W) (listing : string)
             (after : list Branch.t),
        someDeletable branches ->
        Connection.DeleteBranches connection
          (getBranchNames branches Deletable) w = (r, w1) ->
        Connection.GetBranchNames connection w1 = ((listing, None), w2) ->
        toBranch (splitLines listing) = Ret after ->
        DeleteBranches connection branches w
        = (Ret (List.map (markDeleted after) branches), w2)
        /\ forall b : Branch.t,
             (Branch.State b = Deletable ->
              ~ In (Branch.Name b) (List.map Branch.Name after) ->
              markDeleted after b = Branch.set_State Deleted b)
             /\ (Branch.State b = Deletable ->
                 In (Branch.Name b) (List.map Branch.Name after) ->
                 markDeleted after b = b)
             /\ (Branch.State b <> Deletable -> markDeleted after b = b)).
Proof.
  split.
  - intros Hnone%getBranchNames_nil. unfold DeleteBranches.
    by rewrite Hnone.
  - intros r w1 w2 listing after Hsome Hdelete Hlisting Hparse.
    split; [|apply markDeleted_cases].
    rewrite DeleteBranches_run by done.
    rewrite Hdelete. cbn [snd]. rewrite Hlisting, Hparse.
    by rewrite checkDeleted_map.
Qed.

(** C10: [DeleteBranches] discards the result and the error of the batched
    delete call: whatever that call answers, the outcome is the same; a
    failed delete followed by a successful re-read returns a branch list,
    not an error; and an error returned by [DeleteBranches] is the error
    of re-reading the branch names after the delete. *)
Theorem DeleteBranches_discards_delete_result (branches : list Branch.t)
    (w : W) :
  (forall r : reply,
     DeleteBranches (withDeleteReply connection r) branches w
     = DeleteBranches connection branches w)
  /\ (forall (out listing : string) (e : error) (w1 w2 : W)
             (after : list Branch.t),
        someDeletable branches ->
        Connection.DeleteBranches connection
          (getBranchNames branches Deletable) w = ((out, Some e), w1) ->
        Connection.GetBranchNames connection w1 = ((listing, None), w2) ->
        toBranch (splitLines listing) = Ret after ->
        DeleteBranches connection branches w
        = (Ret (checkDeleted branches after), w2))
  /\ (forall (e : error) (w' : W),
        DeleteBranches connection branches w = (Fail e, w') ->
        exists (r : reply) (w1 : W) (listing : string),
          Connection.DeleteBranches connection
            (getBranchNames branches Deletable) w = (r, w1)
          /\ Connection.GetBranchNames connection w1
             = ((listing, Some e), w')).
Proof.
  split; [|split].
  - intros r. unfold DeleteBranches.
    destruct (List.length _ =? 0)%nat; [done|].
    unfold orReturn, bind, call, lift, ret, fail. cbn.
    by destruct (Connection.DeleteBranches connection _ w) as [r0 w1].
  - intros out listing e w1 w2 after Hsome Hdelete Hlisting Hparse.
    rewrite DeleteBranches_run by done.
    rewrite Hdelete. cbn [snd]. by rewrite Hlisting, Hparse.
  - intros e w' Hfail.
    destruct (List.length (getBranchNames branches Deletable) =? 0)%nat
      eqn:Hlen.
    { unfold DeleteBranches in Hfail. by rewrite Hlen in Hfail. }
    apply getBranchNames_length in Hlen.
    rewrite DeleteBranches_run in Hfail by done.
    destruct (Connection.DeleteBranches connection _ w) as [r w1] eqn:Hdelete.
    cbn [snd] in Hfail.
    destruct (Connection.GetBranchNames connection w1)
      as [[listing [e'|]] w2] eqn:Hlisting.
    + injection Hfail as -> ->. eauto.
    + exfalso. unfold toBranch in Hfail.
      by destruct (for_range _ _ _ _).
Qed.
End Deletion.

(** ** Query batching *)

(** The loop of [getQueryHashes] over a suffix [rest] of the list [all],
    from index [i], followed by the final flush. *)
Lemma getQueryHashes_loop (all rest : list Branch.t) :
  forall (i : nat) (results : list string) (hashes : string),
    (let '(results, hashes) :=
       fell_through
         (for_range
            (fun i branch '(results, hashes) =>
               if bool_decide (Branch.RemoteHeadOid branch = "")
                  && (List.length (Branch.Commits branch) =? 0)%nat
               then Next (results, hashes)
               else
                 let separator :=
                   if (i =? List.length all - 1)%nat then "" else " " in
                 let oid := queryHashOid branch in
                 let hash := "hash:" +:+ oid +:+ separator in
                 let '(results, hashes) :=
                   if (256 <? len hashes + len hash)%nat
                   then (results ++ [hashes], "")
                   else (results, hashes) in
                 Next (results, hashes +:+ hash))
            i rest (results, hashes)) in
     if (0 <? len hashes)%nat then results ++ [hashes] else results)
    = results ++ pack hashes (hashFilters (List.length all) i rest).
Proof.
  induction rest as [|b rest IH]; intros i results hashes.
  - cbn [for_range fell_through hashFilters pack].
    destruct (0 <? len hashes)%nat; [done | by rewrite app_nil_r].
  - cbn [for_range hashFilters]. unfold contributes.
    destruct (bool_decide (Branch.RemoteHeadOid b = "")
              && (List.length (Branch.Commits b) =? 0)%nat);
      cbn [negb app]; [apply IH|].
    cbn [pack]. fold (hashFilter (List.length all) i b).
    destruct (256 <? len hashes + len (hashFilter (List.length all) i b))%nat.
    + rewrite IH, <- app_assoc. reflexivity.
    + apply IH.
Qed.

Lemma pack_bound (filters : list string) :
  forall block : string,
    (len block <= 256)%nat ->
    Forall (fun f => (len f <= 256)%nat) filters ->
    Forall (fun b => (len b <= 256)%nat) (pack block filters).
Proof.
  induction filters as [|f fs IH]; intros block Hblock Hfilters; cbn [pack].
  - destruct (0 <? len block)%nat; [constructor; [done|] |]; constructor.
  - apply Forall_cons in Hfilters as [Hf Hfs].
    destruct (256 <? len block + len f)%nat eqn:Hfull.
    + constructor; [done | by apply IH].
    + apply IH; [|done]. rewrite len_append.
      by apply Nat.ltb_ge in Hfull.
Qed.

Lemma pack_joined (filters : list string) :
  forall block : string,
    joined (pack block filters) = block +:+ joined filters.
Proof.
  induction filters as [|f fs IH]; intros block; cbn [pack].
  - destruct block; [done|]. reflexivity.
  - destruct (256 <? len block + len f)%nat.
    + cbn [joined fold_right]. fold (joined (pack f fs)) (joined fs).
      by rewrite IH.
    + rewrite IH. cbn [joined fold_right]. apply append_assoc.
Qed.

Lemma hashFilters_none (total : nat) (branches : list Branch.t) :
  forall i : nat,
    (forall b, In b branches -> contributes b = false) ->
    hashFilters total i branches = [].
Proof.
  induction branches as [|b rest IH]; intros i Hnone; [done|].
  cbn [hashFilters]. rewrite (Hnone b) by (by left).
  apply IH. intros x Hx. apply Hnone. by right.
Qed.

(** C9: [getQueryHashes] batches the ["hash:<oid>"] filters of the
    branches, starting a new block whenever appending the next filter with
    its separator would push the current block past 256 characters; so
    when every filter is at most 256 characters long, every block is at
    most 256 characters long; and a branch with neither a RemoteHeadOid
    nor any trimmed commit contributes no filter: the blocks hold exactly
    the filters of the other branches, and are none when there is no other
    branch. *)
Theorem getQueryHashes_batches (branches : list Branch.t) :
  let filters := hashFilters (List.length branches) 0 branches in
  getQueryHashes branches = pack "" filters
  /\ (Forall (fun f => (len f <= 256)%nat) filters ->
      Forall (fun block => (len block <= 256)%nat) (getQueryHashes branches))
  /\ joined (getQueryHashes branches) = joined filters
  /\ ((forall b, In b branches ->
         Branch.RemoteHeadOid b = "" /\ Branch.Commits b = []) ->
      getQueryHashes branches = []).
Proof.
  intros filters.
  assert (Hpack : getQueryHashes branches = pack "" filters).
  { unfold getQueryHashes.
    exact (getQueryHashes_loop branches branches 0 [] ""). }
  split; [done|]. rewrite Hpack. split; [|split].
  - intros Hfilters. apply pack_bound; [cbn; lia | done].
  - by rewrite pack_joined.
  - intros Hnone. unfold filters. rewrite hashFilters_none; [done|].
    intros b [Hoid Hcommits]%Hnone. unfold contributes.
    by rewrite Hoid, Hcommits.
Qed.

(** * The package on a small repository *)

(** The run of the test "deletable when the branch is checked out": the
    merged branch [issue1] is Deletable and Head moves to [main]. *)
Example GetBranches_checked_out_issue1 :
  (GetBranches Stub.connection Stub.remote false (Stub.repository false)).1
  = Ret [Branch.mk false "issue1" false false "" [Stub.oid1] [Stub.pr1]
           Deletable;
         Branch.mk true "main" true false "" [] [] NotDeletable].
Proof. vm_compute. reflexivity. Qed.

(** Scenarios A and B of the specification. *)
Example getDeleteStatus_scenarios :
  let issue1 prs :=
    Branch.mk false "issue1" false false "" [Stub.oid1] prs Unknown in
  let opened :=
    PullRequest.mk "issue1" Open false 2 [] "" "owner" in
  getDeleteStatus (issue1 [Stub.pr1]) [] = Deletable
  /\ getDeleteStatus (issue1 [Stub.pr1; opened]) [] = NotDeletable.
Proof. split; reflexivity. Qed.

(** Scenario D: the second commit is shared with [main], so only the first
    commit is kept; and a log whose first commit is already on [main] is
    trimmed to nothing. *)
Example trimBranch_scenario_D :
  (trimBranch Stub.connection [Stub.oid1; Stub.oid2] "" false "issue1" "main"
     (Stub.repository false)).1 = Ret [Stub.oid1]
  /\ (trimBranch Stub.connection [Stub.oid2] "" false "issue1" "main"
        (Stub.repository false)).1 = Ret [].
Proof. split; vm_compute; reflexivity. Qed.

(** Without a remote head or the merged flag, every commit the walk visits
    is looked up, and a recording connection shows it. *)
Example trimBranch_records_lookups :
  (trimBranch (recording Stub.connection) [Stub.oid1; Stub.oid2] "" false
     "issue1" "main" (Stub.repository false, [])).2.2
  = [Stub.oid2; Stub.oid1].
Proof. vm_compute. reflexivity. Qed.

(** Bare names: a branch and its remote-tracking branches share one, with
    the slashes of the name kept; a tag keeps its full name. *)
Example bareName_refs :
  List.map bareName
    ["refs/heads/issue1"; "refs/remotes/origin/issue1";
     "refs/remotes/upstream/feature/x"; "refs/tags/v1.0"; "HEAD"]
  = ["issue1"; "issue1"; "feature/x"; "refs/tags/v1.0"; "HEAD"].
Proof. vm_compute. reflexivity. Qed.

(** * Instances *)

Lemma isFullyMerged_iff_witness :
  let issue1 :=
    Branch.mk false "issue1" false false "" [Stub.oid1] [Stub.pr1] Unknown in
  (Branch.Commits (Stub.branch false "issue1" Unknown) = []
   /\ isFullyMerged (Stub.branch false "issue1" Unknown) Stub.pr1 = false)
  /\ (List.head (Branch.Commits issue1) = oldestRetained issue1
      /\ (isFullyMerged issue1 Stub.pr1 = true
          <-> fullyMergedOnOldest issue1 Stub.pr1)).
Proof.
  split; (split; [reflexivity|]).
  - apply (proj1 (proj2 (isFullyMerged_iff
                           (Stub.branch false "issue1" Unknown) Stub.pr1))).
    reflexivity.
  - apply (proj2 (proj2 (isFullyMerged_iff
                           (Branch.mk false "issue1" false false ""
                              [Stub.oid1] [Stub.pr1] Unknown)
                           Stub.pr1))).
    reflexivity.
Defined.

(** A branch that retains two commits, with a merged pull request that
    holds the older one only: the oldest retained commit is among the pull
    request's commits, yet the pull request does not count as fully merged
    and the branch is not deletable, because the test reads the newest. *)
Lemma isFullyMerged_oldest_retained_counterexample :
  let branch :=
    Branch.mk false "issue1" false false "" [Stub.oid2; Stub.oid1]
      [Stub.pr1] Unknown in
  fullyMergedOnOldest branch Stub.pr1
  /\ isFullyMerged branch Stub.pr1 = false
  /\ getDeleteStatus branch [] = NotDeletable.
Proof.
  split; [|split; reflexivity].
  split; [reflexivity|]. split; [discriminate|].
  exists Stub.oid1. split; [reflexivity | by left].
Qed.

Lemma trimBranch_known_remote_or_merged_witness :
  (Stub.oid1 <> "" \/ false = true)
  /\ trimBranch Stub.connection [Stub.oid1; Stub.oid2] Stub.oid1 false
       "issue1" "main" (Stub.repository false)
     = (Ret [Stub.oid1], Stub.repository false).
Proof.
  split; [left; discriminate|].
  apply (trimBranch_known_remote_or_merged Stub.connection
           [Stub.oid1; Stub.oid2] Stub.oid1 false "issue1" "main"
           (Stub.repository false) []).
  left. discriminate.
Defined.

Lemma trimBranch_is_walk_witness :
  remotesNamed Stub.connection
  /\ trimBranch Stub.connection [Stub.oid1; Stub.oid2] "" false "issue1"
       "main" (Stub.repository false)
     = walk Stub.connection "issue1" "main" [Stub.oid1; Stub.oid2]
         (Stub.repository false)
  /\ walk Stub.connection "issue1" "main" [Stub.oid1; Stub.oid2]
       (Stub.repository false)
     = (Ret [Stub.oid1], Stub.repository false).
Proof.
  assert (Hnamed : remotesNamed Stub.connection).
  { intros oid out w w' Hcall. cbn in Hcall.
    unfold Stub.answer, Stub.refs, Stub.assoc in Hcall.
    repeat case_bool_decide; try discriminate Hcall;
      injection Hcall as <- <-; vm_compute; repeat constructor. }
  split; [exact Hnamed|]. split; [|reflexivity].
  exact (trimBranch_is_walk Stub.connection [Stub.oid1; Stub.oid2] "issue1"
           "main" (Stub.repository false) Hnamed).
Defined.

(** With an empty log the trimmer has no newest commit to return: the
    result is the empty list, not a list of one element. *)
Lemma trimBranch_empty_log_counterexample :
  let result :=
    (trimBranch Stub.connection [] Stub.oid1 true "issue1" "main"
       (Stub.repository false)).1 in
  (Stub.oid1 <> "" \/ true = true)
  /\ result = Ret []
  /\ ~ exists newest : string, result = Ret [newest].
Proof.
  split; [by right|]. split; [reflexivity|].
  intros [newest Hresult]. discriminate Hresult.
Qed.



Lemma switchToDefaultBranchIfDeleted_relabels_witness :
  let branches :=
    [Stub.branch true "issue1" Deletable;
     Stub.branch false "main" NotDeletable] in
  checkedOutIsDeletable branches
  /\ NoDup (List.map Branch.Name branches)
  /\ switchToDefaultBranchIfDeleted Stub.connection branches "main" true
       (Stub.repository false)
     = (Ret [Stub.branch false "issue1" Deletable;
             Stub.branch true "main" NotDeletable],
        Stub.repository false).
Proof.
  intros branches.
  assert (Htrigger : checkedOutIsDeletable branches).
  { exists (Stub.branch true "issue1" Deletable).
    split; [by left | by split]. }
  assert (Hnames : NoDup (List.map Branch.Name branches)).
  { apply NoDup_cons. split; [|apply NoDup_singleton].
    intros [= ]%list_elem_of_singleton. }
  split; [done|]. split; [done|].
  exact (proj1 (proj2 (proj2
           (switchToDefaultBranchIfDeleted_relabels Stub.connection branches
              "main" (Stub.repository false) Htrigger Hnames)))).
Defined.

Lemma GetBranches_checkout_failure_witness :
  GetBranches Stub.connection Stub.remote false (Stub.repository true)
  = (Fail Stub.ErrCommand,
     Stub.logged "checkout main" (Stub.repository true)).
Proof.
  refine (proj1 (GetBranches_checkout_failure Stub.connection Stub.remote
                   (Stub.repository true) (Stub.repository true) _
                   [Branch.mk true "issue1" false false "" [Stub.oid1]
                      [Stub.pr1] Deletable;
                    Branch.mk false "main" true false "" [] [] NotDeletable]
                   "main" "" Stub.ErrCommand _ _ _)).
  - vm_compute. reflexivity.
  - eexists. split; [by left | by split].
  - reflexivity.
Defined.

Lemma DeleteBranches_marks_deleted_witness :
  let branches :=
    [Stub.branch false "a" Deletable; Stub.branch false "b" Deletable;
     Stub.branch true "main" NotDeletable] in
  let w := Stub.checkedOut "main" ["a"; "b"; "main"] [] ["b"] in
  someDeletable branches
  /\ (DeleteBranches Stub.connection branches w).1
     = Ret [Stub.branch false "a" Deleted; Stub.branch false "b" Deletable;
            Stub.branch true "main" NotDeletable].
Proof.
  intros branches w.
  assert (Hsome : someDeletable branches).
  { exists (Stub.branch false "a" Deletable). split; [by left | done]. }
  split; [done|].
  destruct (proj2 (DeleteBranches_marks_deleted Stub.connection branches w)
              (Stub.delete ["a"; "b"] w).1 (Stub.delete ["a"; "b"] w).2
              (Stub.delete ["a"; "b"] w).2
              (Stub.listing (Stub.delete ["a"; "b"] w).2)
              [Stub.branch false "b" Unknown; Stub.branch true "main" Unknown]
              Hsome eq_refl eq_refl eq_refl) as [Hrun _].
  rewrite Hrun. reflexivity.
Defined.

Lemma getQueryHashes_batches_witness :
  let branches :=
    [Stub.branch false "a" Deletable;
     Branch.set_Commits [Stub.oid1; Stub.oid2] (Stub.branch false "b" Deletable);
     Branch.set_RemoteHeadOid Stub.oid1 (Stub.branch true "main" NotDeletable)] in
  Forall (fun f => (len f <= 256)%nat)
    (hashFilters (List.length branches) 0 branches)
  /\ Forall (fun block => (len block <= 256)%nat) (getQueryHashes branches).
Proof.
  intros branches.
  assert (Hfilters : Forall (fun f => (len f <= 256)%nat)
                       (hashFilters (List.length branches) 0 branches)).
  { repeat (apply List.Forall_cons; [apply Nat.leb_le; reflexivity|]).
    apply List.Forall_nil. }
  split; [done|].
  exact (proj1 (proj2 (getQueryHashes_batches branches)) Hfilters).
Defined.

Lemma DeleteBranches_discards_delete_result_witness :
  let branches :=
    [Stub.branch false "a" Deletable; Stub.branch true "main" NotDeletable] in
  let w := Stub.unreadable (Stub.checkedOut "main" ["a"; "main"] [] []) in
  (DeleteBranches Stub.connection branches w).1 = Fail Stub.ErrCommand
  /\ exists (r : reply) (w1 : Stub.world) (listing : string),
       Connection.DeleteBranches Stub.connection
         (getBranchNames branches Deletable) w = (r, w1)
       /\ Connection.GetBranchNames Stub.connection w1
          = ((listing, Some Stub.ErrCommand), (Stub.delete ["a"] w).2).
Proof.
  intros branches w. split; [reflexivity|].
  apply (proj2 (proj2 (DeleteBranches_discards_delete_result Stub.connection
                         branches w))).
  reflexivity.
Defined.

(** * Further properties of the package *)

(** ** Lines *)

(** X1: every line [splitLines] returns is non-empty and holds no line
    feed, whatever the text. *)
Theorem splitLines_lines (text : string) :
  Forall (fun line => line <> "" /\ ~ In LF (bytes line)) (splitLines text).
Proof.
  unfold splitLines, FieldsFunc.
  eapply Forall_impl;
    [apply (fieldsFrom_fields (fun c => Ascii.eqb c LF)); by intros ? []|].
  intros line [Hne Hfree]. split; [done|].
  intros Hin%Hfree. by rewrite Ascii.eqb_refl in Hin.
Qed.

Lemma append_eq_empty (s t : string) : s +:+ t = "" -> s = "" /\ t = "".
Proof. destruct s; [done|]. rewrite append_cons. discriminate. Qed.

Lemma replaceCRLF_plain (line : string) :
  forall rest : string,
    ~ In CR (bytes line) ->
    replaceCRLF (line +:+ rest) = line +:+ replaceCRLF rest.
Proof.
  induction line as [|c line IH]; intros rest Hfree; [done|].
  assert (Hc : Ascii.eqb c CR = false).
  { apply Ascii.eqb_neq. intros ->. apply Hfree. by left. }
  assert (Hline : ~ In CR (bytes line)) by (intros Hin; apply Hfree; by right).
  rewrite !append_cons. cbn [replaceCRLF].
  destruct (line +:+ rest) as [|d tail] eqn:Htail.
  - apply append_eq_empty in Htail as [-> ->]. reflexivity.
  - rewrite Hc. cbn [andb]. rewrite <- Htail. f_equal. by apply IH.
Qed.

Lemma replaceCRLF_LF (rest : string) :
  replaceCRLF (String LF rest) = String LF (replaceCRLF rest).
Proof. by destruct rest. Qed.

Lemma replaceCRLF_CRLF (rest : string) :
  replaceCRLF (String CR (String LF rest)) = String LF (replaceCRLF rest).
Proof. reflexivity. Qed.

Lemma replaceCRLF_unlines (lines : list string) :
  Forall plainLine lines ->
  replaceCRLF (unlines (String LF "") lines) = unlines (String LF "") lines
  /\ replaceCRLF (unlines (String CR (String LF "")) lines)
     = unlines (String LF "") lines.
Proof.
  induction 1 as [|line lines (_ & _ & Hcr) _ [IH1 IH2]]; [done|].
  cbn [unlines fold_right]. fold (unlines (String LF "") lines).
  fold (unlines (String CR (String LF "")) lines).
  rewrite !append_cons, !append_empty_l.
  rewrite (replaceCRLF_plain line (String LF _)) by done.
  rewrite (replaceCRLF_plain line (String CR _)) by done.
  by rewrite replaceCRLF_LF, replaceCRLF_CRLF, IH1, IH2.
Qed.

Lemma fieldsFrom_run (f : ascii -> bool) (line : string) :
  forall cur rest : string,
    (forall c, In c (bytes line) -> f c = false) ->
    fieldsFrom f (line +:+ rest) cur = fieldsFrom f rest (cur +:+ line).
Proof.
  induction line as [|c line IH]; intros cur rest Hfree.
  - by rewrite append_empty_r.
  - rewrite append_cons. cbn [fieldsFrom].
    rewrite (Hfree c) by (by left).
    rewrite IH by (intros c' Hin; apply Hfree; by right).
    by rewrite append_assoc.
Qed.

Lemma fields_unlines (lines : list string) :
  Forall plainLine lines ->
  fieldsFrom (fun c => Ascii.eqb c LF) (unlines (String LF "") lines) ""
  = lines.
Proof.
  induction 1 as [|line lines (Hne & Hlf & _) _ IH]; [done|].
  cbn [unlines fold_right]. fold (unlines (String LF "") lines).
  rewrite fieldsFrom_run.
  - rewrite append_cons, !append_empty_l.
    cbn [fieldsFrom]. rewrite Ascii.eqb_refl.
    destruct line; [done|]. cbn [len String.length Nat.eqb].
    by rewrite IH.
  - intros c Hin. apply Ascii.eqb_neq. by intros ->.
Qed.

(** X2: [splitLines] reads back lines that were written one per line, ended
    by a line feed or by a carriage return and a line feed, when no line is
    empty or holds either byte. *)
Theorem splitLines_unlines (lines : list string) :
  Forall plainLine lines ->
  splitLines (unlines (String LF "") lines) = lines
  /\ splitLines (unlines (String CR (String LF "")) lines) = lines.
Proof.
  intros Hplain. unfold splitLines, FieldsFunc.
  destruct (replaceCRLF_unlines lines Hplain) as [-> ->].
  by rewrite fields_unlines.
Qed.

(** ** Parsing the listings *)

Lemma for_range_ext {X S R : Type} (body1 body2 : nat -> X -> S -> flow S R)
    (xs : list X) :
  (forall i x s, body1 i x s = body2 i x s) ->
  forall (i : nat) (s : S), for_range body1 i xs s = for_range body2 i xs s.
Proof.
  intros Hext. induction xs as [|x xs IH]; intros i s; [done|].
  cbn [for_range]. rewrite Hext. destruct (body2 i x s); auto.
Qed.

(** A loop that appends one parse per element and returns at the first
    element that does not parse. *)
Lemma for_range_parseAll {X Y R : Type} (parse : X -> option Y) (r : R)
    (xs : list X) :
  forall (i : nat) (acc : list Y),
    for_range
      (fun _ x acc =>
         match parse x with
         | Some y => Next (acc ++ [y])
         | None => Return r
         end) i xs acc
    = match parseAll parse xs with
      | Some ys => inl (acc ++ ys)
      | None => inr r
      end.
Proof.
  induction xs as [|x xs IH]; intros i acc; cbn [for_range parseAll].
  - by rewrite app_nil_r.
  - destruct (parse x) as [y|]; [|done]. rewrite IH.
    destruct (parseAll parse xs); [|done]. by rewrite <- app_assoc.
Qed.

Lemma parseAll_None {X Y : Type} (parse : X -> option Y) (xs : list X) :
  parseAll parse xs = None <-> exists x, In x xs /\ parse x = None.
Proof.
  induction xs as [|x xs IH]; cbn [parseAll].
  - split; [done | by intros (? & [] & _)].
  - destruct (parse x) as [y|] eqn:Hx.
    + destruct (parseAll parse xs) as [ys|] eqn:Hxs.
      * split; [done|]. intros (x' & [<- | Hin] & Hnone); [congruence|].
        assert (Some ys = None) by (apply IH; eauto). done.
      * split; [|done]. intros _.
        destruct (proj1 IH eq_refl) as (x' & Hin & Hnone).
        exists x'. split; [by right | done].
    + split; [|done]. intros _. exists x. split; [by left | done].
Qed.

Lemma parseAll_map {X Y : Type} (parse : X -> option Y) (g : X -> Y)
    (xs : list X) :
  (forall x, In x xs -> parse x = Some (g x)) ->
  parseAll parse xs = Some (List.map g xs).
Proof.
  induction xs as [|x xs IH]; intros Hall; [done|].
  cbn [parseAll List.map]. rewrite (Hall x) by (by left).
  rewrite IH; [done|]. intros x' Hin. apply Hall. by right.
Qed.

Lemma toBranch_parseAll (lines : list string) :
  toBranch lines
  = match parseAll branchOfLine lines with
    | Some branches => Ret branches
    | None => Panic
    end.
Proof.
  unfold toBranch.
  rewrite (for_range_ext _
             (fun _ line acc =>
                match branchOfLine line with
                | Some b => Next (acc ++ [b])
                | None => Return tt
                end)).
  - rewrite for_range_parseAll. by destruct (parseAll _ _).
  - intros i line acc. unfold branchOfLine.
    by destruct (Split line ":") as [|s0 [|s1 rest]].
Qed.

Lemma toUncommittedChange_parseAll (lines : list string) :
  toUncommittedChange lines
  = match parseAll changeOfLine lines with
    | Some changes => Ret changes
    | None => Panic
    end.
Proof.
  unfold toUncommittedChange.
  rewrite (for_range_ext _
             (fun _ line acc =>
                match changeOfLine line with
                | Some c => Next (acc ++ [c])
                | None => Return tt
                end)).
  - rewrite for_range_parseAll. by destruct (parseAll _ _).
  - intros i line acc. unfold changeOfLine.
    destruct line as [|c0 [|c1 rest]]; [done..|].
    by destruct (sliceFrom 3 _).
Qed.

Lemma splitFrom_sep (sep : ascii) (s : string) :
  forall cur : string,
    In sep (bytes s) ->
    exists s0 s1 rest, splitFrom sep s cur = s0 :: s1 :: rest.
Proof.
  induction s as [|c s IH]; intros cur Hin; [done|].
  cbn [splitFrom]. destruct (Ascii.eqb c sep) eqn:Hc.
  - destruct (splitFrom_nonempty sep s "") as (s1 & rest & ->). eauto.
  - destruct Hin as [-> | Hin]; [by rewrite Ascii.eqb_refl in Hc|].
    by apply IH.
Qed.

Lemma branchOfLine_None (line : string) :
  branchOfLine line = None <-> ~ In ":"%char (bytes line).
Proof.
  unfold branchOfLine, Split. split.
  - intros Hnone Hin.
    destruct (splitFrom_sep ":" line "" Hin) as (s0 & s1 & rest & H).
    by rewrite H in Hnone.
  - intros Hfree. by rewrite splitFrom_plain.
Qed.

(** X3: [toBranch] never returns an error; it panics exactly when some line
    has no colon, and otherwise returns one branch per line, in order. *)
Theorem toBranch_panics_iff (lines : list string) :
  (toBranch lines = Panic
   <-> exists line, In line lines /\ ~ In ":"%char (bytes line))
  /\ (forall e, toBranch lines <> Fail e)
  /\ (forall branches,
        toBranch lines = Ret branches ->
        List.length branches = List.length lines).
Proof.
  rewrite toBranch_parseAll. split; [|split].
  - destruct (parseAll branchOfLine lines) as [branches|] eqn:Hparse.
    + split; [done|]. intros (line & Hin & Hfree%branchOfLine_None).
      assert (parseAll branchOfLine lines = None)
        by (apply parseAll_None; eauto).
      congruence.
    + split; [|done]. intros _.
      apply parseAll_None in Hparse as (line & Hin & Hnone).
      exists line. split; [done | by apply branchOfLine_None].
  - intros e. by destruct (parseAll _ _).
  - intros branches. destruct (parseAll branchOfLine lines) as [bs|] eqn:Hparse;
      [|done].
    intros [= <-]. revert bs Hparse.
    induction lines as [|line lines IH]; intros bs; cbn [parseAll].
    + by intros [= <-].
    + destruct (branchOfLine line); [|done].
      destruct (parseAll branchOfLine lines); [|done].
      intros [= <-]. cbn [List.length]. f_equal. by apply IH.
Qed.

Lemma parseAll_Forall2 {X Y : Type} (parse : X -> option Y) (xs : list X) :
  forall ys : list Y,
    parseAll parse xs = Some ys ->
    Forall2 (fun x y => parse x = Some y) xs ys.
Proof.
  induction xs as [|x xs IH]; intros ys; cbn [parseAll].
  - intros [= <-]. constructor.
  - destruct (parse x) as [y|] eqn:Hx; [|done].
    destruct (parseAll parse xs) as [ys'|]; [|done].
    intros [= <-]. constructor; [done | by apply IH].
Qed.

Lemma branchOfLine_branchLine (entry : bool * string) :
  ~ In ":"%char (bytes entry.2) ->
  branchOfLine (branchLine entry)
  = Some (Branch.mk entry.1 entry.2 false false "" [] [] Unknown).
Proof.
  intros Hfree. unfold branchOfLine, branchLine, Split.
  destruct entry as [[|] name]; cbn [fst snd] in *;
    rewrite !append_cons, append_empty_l; cbn [splitFrom Ascii.eqb Bool.eqb];
    rewrite splitFrom_plain by done; reflexivity.
Qed.

Lemma plainLine_branchLine (entry : bool * string) :
  ~ In LF (bytes entry.2) -> ~ In CR (bytes entry.2) ->
  plainLine (branchLine entry).
Proof.
  intros Hlf Hcr. unfold plainLine, branchLine.
  destruct entry as [[|] name]; cbn [fst snd] in *;
    rewrite !append_cons, append_empty_l;
    (split; [discriminate|]);
    split; intros [Hc | [Hc | Hin]]; try discriminate; auto.
Qed.

(** X4: [toBranch] after [splitLines] reads the listing of
    [git branch --format=%(HEAD):%(refname:lstrip=2)] back: one branch per
    line, Head set on the starred line, every other field at its zero
    value, for names without colon, line feed or carriage return. *)
Theorem toBranch_reads_listing (entries : list (bool * string)) :
  Forall (fun entry : bool * string =>
            ~ In ":"%char (bytes entry.2)
            /\ ~ In LF (bytes entry.2) /\ ~ In CR (bytes entry.2)) entries ->
  toBranch (splitLines (unlines (String LF "") (List.map branchLine entries)))
  = Ret (List.map
           (fun entry : bool * string =>
              Branch.mk entry.1 entry.2 false false "" [] [] Unknown)
           entries).
Proof.
  intros Hentries.
  assert (Hplain : Forall plainLine (List.map branchLine entries)).
  { apply List.Forall_map. eapply Forall_impl; [exact Hentries|].
    intros entry (_ & Hlf & Hcr). by apply plainLine_branchLine. }
  unfold splitLines, FieldsFunc.
  rewrite (proj1 (replaceCRLF_unlines _ Hplain)), fields_unlines by done.
  rewrite toBranch_parseAll.
  rewrite (parseAll_map branchOfLine
             (fun line =>
                default Branch.zero (branchOfLine line))).
  - f_equal. rewrite List.map_map. apply List.map_ext_in.
    intros entry Hin. rewrite List.Forall_forall in Hentries.
    destruct (Hentries entry Hin) as (Hcolon & _).
    by rewrite branchOfLine_branchLine.
  - intros line (entry & <- & Hin)%in_map_iff.
    rewrite List.Forall_forall in Hentries.
    destruct (Hentries entry Hin) as (Hcolon & _).
    by rewrite branchOfLine_branchLine.
Qed.

Lemma changeOfLine_None (line : string) :
  changeOfLine line = None <-> (len line < 3)%nat.
Proof.
  unfold changeOfLine, len.
  destruct line as [|c0 [|c1 [|c2 rest]]]; cbn; split; try done; try lia.
Qed.

Lemma stringOfByte_question (c : ascii) :
  stringOfByte c = "?" <-> c = "?"%char.
Proof.
  unfold stringOfByte. split.
  - destruct (N_of_ascii c <? 128)%N; [by intros [= ->] | discriminate].
  - intros ->. reflexivity.
Qed.

(** X5: [toUncommittedChange] never returns an error; it panics exactly
    when some line is shorter than three bytes; and a change it returns is
    untracked exactly when the second byte of its line is a question
    mark. *)
Theorem toUncommittedChange_panics_iff (lines : list string) :
  (toUncommittedChange lines = Panic
   <-> exists line, In line lines /\ (len line < 3)%nat)
  /\ (forall e, toUncommittedChange lines <> Fail e)
  /\ (forall changes,
        toUncommittedChange lines = Ret changes ->
        Forall2
          (fun line change =>
             IsUntracked change = true
             <-> String.get 1 line = Some "?"%char)
          lines changes).
Proof.
  rewrite toUncommittedChange_parseAll. split; [|split].
  - destruct (parseAll changeOfLine lines) as [changes|] eqn:Hparse.
    + split; [done|]. intros (line & Hin & Hshort%changeOfLine_None).
      assert (parseAll changeOfLine lines = None)
        by (apply parseAll_None; eauto).
      congruence.
    + split; [|done]. intros _.
      apply parseAll_None in Hparse as (line & Hin & Hnone).
      exists line. split; [done | by apply changeOfLine_None].
  - intros e. by destruct (parseAll _ _).
  - intros changes.
    destruct (parseAll changeOfLine lines) as [cs|] eqn:Hparse; [|done].
    intros [= <-]. apply parseAll_Forall2 in Hparse.
    eapply Forall2_impl; [exact Hparse|].
    intros line change. unfold changeOfLine.
    destruct line as [|c0 [|c1 rest]]; [done..|].
    destruct (sliceFrom 3 _); [|done]. intros [= <-].
    unfold IsUntracked. cbn [Y String.get].
    rewrite bool_decide_eq_true, stringOfByte_question.
    split; [by intros -> | by intros [= ->]].
Qed.

(** ** Names and numbers read from git *)

Lemma span_fst (f : ascii -> bool) (s : string) :
  forall c, In c (bytes (span f s).1) -> f c = true.
Proof.
  induction s as [|d s IH]; intros c; cbn [span]; [done|].
  destruct (f d) eqn:Hd; [|done].
  destruct (span f s) as [a b]. cbn [fst bytes list_ascii_of_string] in *.
  intros [<- | Hin]; [done | by apply IH].
Qed.

Lemma span_run (f : ascii -> bool) (run : string) :
  forall rest : string,
    (forall c, In c (bytes run) -> f c = true) ->
    (forall c tail, rest = String c tail -> f c = false) ->
    span f (run +:+ rest) = (run, rest).
Proof.
  induction run as [|d run IH]; intros rest Hrun Hrest.
  - rewrite append_empty_l. destruct rest as [|c tail]; [done|].
    cbn [span]. by rewrite (Hrest c tail).
  - rewrite append_cons. cbn [span]. rewrite (Hrun d) by (by left).
    rewrite IH; [done | | done]. intros c Hin. apply Hrun. by right.
Qed.

Lemma decimal_nonneg (digits : string) :
  forall acc : Z,
    (0 <= acc)%Z ->
    (forall c, In c (bytes digits) -> isDigit c = true) ->
    (0 <= decimal acc digits)%Z.
Proof.
  induction digits as [|c digits IH]; intros acc Hacc Hdigits; [done|].
  cbn [decimal]. apply IH.
  - assert (Hc : isDigit c = true) by (apply Hdigits; by left).
    unfold isDigit in Hc. apply andb_true_iff in Hc as [Hlo%Nat.leb_le _].
    lia.
  - intros c' Hin. apply Hdigits. by right.
Qed.

(** X6: the number [getPRNumber] reads is never negative and never above
    the largest 64-bit [int]; it is the decimal value of the run of digits
    that follows [refs/pull/], whatever comes after the run, and [0] when
    that value does not fit. *)
Theorem getPRNumber_reads_digits :
  (forall mergeConfig : string,
     (0 <= getPRNumber mergeConfig <= maxInt)%Z)
  /\ (forall digits rest : string,
        digits <> "" ->
        (forall c, In c (bytes digits) -> isDigit c = true) ->
        (forall c tail, rest = String c tail -> isDigit c = false) ->
        getPRNumber ("refs/pull/" +:+ digits +:+ rest)
        = if (decimal 0 digits <=? maxInt)%Z then decimal 0 digits else 0%Z).
Proof.
  split.
  - intros mergeConfig. unfold getPRNumber.
    destruct (cutPrefix "refs/pull/" mergeConfig) as [rest|];
      [|by unfold maxInt].
    pose proof (span_fst isDigit rest) as Hdigits.
    destruct (span isDigit rest) as [digits tail]. cbn [fst] in Hdigits.
    destruct (len digits =? 0)%nat; [by unfold maxInt|].
    unfold Atoi. destruct (decimal 0 digits <=? maxInt)%Z eqn:Hfit;
      [|by unfold maxInt].
    apply Z.leb_le in Hfit. split; [|done].
    by apply decimal_nonneg.
  - intros digits rest Hne Hdigits Hrest. unfold getPRNumber.
    rewrite cutPrefix_append, span_run by done.
    destruct digits as [|c digits]; [done|].
    cbn [len String.length Nat.eqb]. unfold Atoi.
    by destruct (_ <=? maxInt)%Z.
Qed.

Lemma cutPrefix_longer (p q s : string) :
  cutPrefix p s = None -> cutPrefix (p +:+ q) s = None.
Proof.
  revert s. induction p as [|a p IH]; intros s; [done|].
  rewrite append_cons. cbn [cutPrefix].
  destruct s as [|b s]; [done|]. destruct (Ascii.eqb a b); [apply IH | done].
Qed.

(** X7: [stripRefPrefix] gives a local branch and its remote-tracking
    branches the same bare name: [refs/heads/<name>] and
    [refs/remotes/<remote>/<name>] both become [<name>], slashes in the
    name included; a name that does not start with [refs/] is left as it
    is. *)
Theorem stripRefPrefix_bare_name :
  (forall name : string, stripRefPrefix ("refs/heads/" +:+ name) = name)
  /\ (forall (c : ascii) (remote name : string),
        c <> LF ->
        ~ In "/"%char (bytes remote) -> ~ In LF (bytes remote) ->
        stripRefPrefix
          ("refs/remotes/" +:+ String c remote +:+ String "/" name)
        = name)
  /\ (forall name : string,
        cutPrefix "refs/" name = None -> stripRefPrefix name = name).
Proof.
  split; [|split].
  - intros name. unfold stripRefPrefix. by rewrite cutPrefix_append.
  - intros c remote name Hc Hslash Hlf. unfold stripRefPrefix.
    rewrite cutPrefix_append.
    assert (cutPrefix "refs/heads/"
              ("refs/remotes/" +:+ String c remote +:+ String "/" name)
            = None) as -> by reflexivity.
    rewrite append_cons.
    assert (Ascii.eqb c LF = false) as -> by (by apply Ascii.eqb_neq).
    by rewrite afterFirstSlash_plain.
  - intros name Hnone. unfold stripRefPrefix.
    assert (cutPrefix "refs/heads/" name = None) as ->
      by exact (cutPrefix_longer "refs/" "heads/" name Hnone).
    assert (cutPrefix "refs/remotes/" name = None) as ->
      by exact (cutPrefix_longer "refs/" "remotes/" name Hnone).
    reflexivity.
Qed.

Lemma span_all (f : ascii -> bool) (s : string) :
  (forall c, In c (bytes s) -> f c = true) -> span f s = (s, "").
Proof.
  intros Hall. rewrite <- (append_empty_r s) at 1. by apply span_run.
Qed.

Lemma mergedNameCapture_padded (pad : string) (c : ascii) (rest : string) :
  pad <> "" ->
  (forall p, In p (bytes pad) -> isPad p = true) ->
  isPad c = false ->
  ~ In LF (bytes (String c rest)) ->
  mergedNameCapture (pad +:+ String c rest) = Some (String c rest).
Proof.
  intros Hpad Hpads Hc Hlf. unfold mergedNameCapture.
  rewrite span_run; [|done|by intros ? ? [= <- <-]].
  rewrite span_all.
  - destruct pad; [done|]. reflexivity.
  - intros d Hin. unfold notLF. apply negb_true_iff, Ascii.eqb_neq.
    by intros ->.
Qed.

Lemma mergedNameCapture_unpadded (line : string) :
  (forall c rest, line = String c rest -> isPad c = false) ->
  mergedNameCapture line = None.
Proof.
  intros Hline. unfold mergedNameCapture.
  destruct line as [|c rest]; [done|].
  cbn [span]. rewrite (Hline c rest) by done.
  by destruct (span notLF _).
Qed.

Lemma extractMergedBranchNames_loop (lines : list (string * string)) :
  Forall
    (fun line : string * string =>
       (line.1 = "" \/ forall p, In p (bytes line.1) -> isPad p = true)
       /\ (exists c rest,
             line.2 = String c rest /\ isPad c = false
             /\ ~ In LF (bytes line.2)))
    lines ->
  forall (i : nat) (acc : list string),
    fell_through
      (for_range (fun _ name (result : list string) =>
                    match mergedNameCapture name with
                    | Some found1 => Next (result ++ [found1])
                    | None => Next result
                    end)
         i (List.map (fun line => line.1 +:+ line.2) lines) acc)
    = acc ++ List.map snd
               (List.filter (fun line => negb (len line.1 =? 0)%nat) lines).
Proof.
  induction 1 as [|line lines Hline _ IH]; intros i acc.
  - cbn. by rewrite app_nil_r.
  - destruct line as [pad name].
    destruct Hline as (Hpad & c & rest & Hname & Hc & Hlf).
    cbn [fst snd] in Hpad, Hname, Hlf. subst name.
    cbn [List.map for_range fst snd List.filter].
    destruct pad as [|p pad].
    + rewrite append_empty_l, mergedNameCapture_unpadded
        by (by intros ? ? [= <- <-]).
      cbn [len String.length Nat.eqb negb]. apply IH.
    + destruct Hpad as [|Hpad]; [done|].
      rewrite mergedNameCapture_padded by done.
      cbn [len String.length Nat.eqb negb List.map snd].
      rewrite IH, <- app_assoc. reflexivity.
Qed.

(** X8: [extractMergedBranchNames] reads the names of
    [git branch --merged]: from each line it drops the leading spaces and
    asterisks and keeps the name, and it skips a line that does not start
    with a space or an asterisk. *)
Theorem extractMergedBranchNames_reads (lines : list (string * string)) :
  Forall
    (fun line : string * string =>
       (line.1 = "" \/ forall p, In p (bytes line.1) -> isPad p = true)
       /\ (exists c rest,
             line.2 = String c rest /\ isPad c = false
             /\ ~ In LF (bytes line.2)))
    lines ->
  extractMergedBranchNames (List.map (fun line => line.1 +:+ line.2) lines)
  = List.map snd (List.filter (fun line => negb (len line.1 =? 0)%nat) lines).
Proof.
  intros Hlines. unfold extractMergedBranchNames.
  by rewrite extractMergedBranchNames_loop.
Qed.

(** X9: [applyMerged] changes nothing of a branch but its merged flag,
    which it sets for a name in the list and clears for any other. *)
Theorem applyMerged_flags (branches : list Branch.t)
    (mergedNames : list string) :
  Forall2
    (fun before after =>
       after = Branch.set_IsMerged (Branch.IsMerged after) before
       /\ (Branch.IsMerged after = true
           <-> In (Branch.Name before) mergedNames))
    branches (applyMerged branches mergedNames).
Proof.
  unfold applyMerged.
  rewrite (for_range_append_map
             (fun b => Branch.set_IsMerged
                         (nameExists (Branch.Name b) mergedNames) b)).
  cbn [fell_through app].
  induction branches as [|b branches IH]; [constructor|].
  cbn [List.map]. constructor; [|done].
  split; [done|]. cbn [Branch.set_IsMerged Branch.IsMerged].
  by rewrite nameExists_spec, existsb_eq_In.
Qed.

(** ** Loading the branches *)

Section Loading.
Context {W : Type} (connection : Connection.t W) `{Library}.

Lemma applyProtected_loop (branches : list Branch.t) :
  forall (i : nat) (results : list Branch.t) (w : W),
    exists (marked : list Branch.t) (w' : W),
      for_rangeM
        (fun _ branch (results : list Branch.t) =>
           rep <- call (Connection.GetConfig connection
                          ("branch." +:+ Branch.Name branch
                             +:+ ".gh-poi-protected")) ;;
           let (config, _) := rep : reply in
           let splitConfig := splitLines config in
           let branch :=
             if (0 <? List.length splitConfig)%nat
                && bool_decide (List.hd "" splitConfig = "true")
             then Branch.set_IsProtected true branch
             else branch in
           ret (Next (R := Empty_set) (results ++ [branch])))
        i branches results w
      = (Ret (inl (results ++ marked)), w')
      /\ Forall2
           (fun before after =>
              after = Branch.set_IsProtected (Branch.IsProtected after) before
              /\ (Branch.IsProtected before = true ->
                  Branch.IsProtected after = true))
           branches marked.
Proof.
  induction branches as [|b branches IH]; intros i results w.
  - exists [], w. split; [by rewrite app_nil_r | constructor].
  - cbn [for_rangeM].
    destruct (Connection.GetConfig connection
                ("branch." +:+ Branch.Name b +:+ ".gh-poi-protected") w)
      as [[config err] w1] eqn:Hconfig.
    destruct (IH (Datatypes.S i)
                (results
                   ++ [if (0 <? List.length (splitLines config))%nat
                          && bool_decide (List.hd "" (splitLines config) = "true")
                       then Branch.set_IsProtected true b else b]) w1)
      as (marked & w' & Hrun & Hmarked).
    exists ((if (0 <? List.length (splitLines config))%nat
                && bool_decide (List.hd "" (splitLines config) = "true")
             then Branch.set_IsProtected true b else b) :: marked), w'.
    split.
    + eapply eq_trans.
      { apply bind_Ret. unfold bind, call, ret. rewrite Hconfig. reflexivity. }
      cbn beta iota. etrans; [exact Hrun|]. by rewrite <- app_assoc.
    + constructor; [|exact Hmarked].
      destruct (_ && _); destruct b; cbn; by split.
Qed.

(** X10: [applyProtected] always returns a list, also when every
    [GetConfig] call fails; it changes nothing of a branch but its
    protection flag and never clears that flag; and a branch becomes
    protected when the first line of the configuration answer is [true],
    whether or not the call reported an error. *)
Theorem applyProtected_total (branches : list Branch.t) (w : W) :
  (exists (result : list Branch.t) (w' : W),
     applyProtected connection branches w = (Ret result, w')
     /\ Forall2
          (fun before after =>
             after = Branch.set_IsProtected (Branch.IsProtected after) before
             /\ (Branch.IsProtected before = true ->
                 Branch.IsProtected after = true))
          branches result)
  /\ (forall (b : Branch.t) (config : string) (err : option error) (w' : W),
        Connection.GetConfig connection
          ("branch." +:+ Branch.Name b +:+ ".gh-poi-protected") w
        = ((config, err), w') ->
        applyProtected connection [b] w
        = (Ret [if bool_decide (List.head (splitLines config) = Some "true")
                then Branch.set_IsProtected true b else b], w')).
Proof.
  split.
  - unfold applyProtected.
    destruct (applyProtected_loop branches 0 [] w)
      as (marked & w' & Hrun & Hmarked).
    exists marked, w'. split; [|done].
    by rewrite (bind_Ret _ _ _ _ _ Hrun).
  - intros b config err w' Hconfig. unfold applyProtected.
    cbn [for_rangeM]. unfold bind, call, ret. rewrite Hconfig.
    cbn [fell_through app]. do 2 f_equal.
    destruct (splitLines config) as [|l0 ls]; [done|].
    cbn [List.length Nat.ltb Nat.leb andb List.hd List.head].
    destruct (bool_decide (l0 = "true")) eqn:Hl0.
    + apply bool_decide_eq_true in Hl0 as ->.
      by rewrite bool_decide_eq_true_2.
    + apply bool_decide_eq_false in Hl0.
      rewrite bool_decide_eq_false_2; [done|]. by intros [= ->].
Qed.

Lemma applyCommits_skip_loop (remote : Remote.t) (defaultBranchName : string)
    (branches : list Branch.t) :
  Forall (fun b => Branch.Name b = defaultBranchName \/ IsDetached b = true)
    branches ->
  forall (results : list Branch.t) (w : W),
    applyCommits connection remote branches defaultBranchName w
    = (Ret (List.map (Branch.set_Commits []) branches), w).
Proof.
  intros Hskip results w. unfold applyCommits.
  match goal with
  | |- context [for_rangeM ?body 0%nat branches []] =>
      assert (Hloop : forall i results w,
                 for_rangeM body i branches results w
                 = (Ret (inl (results
                                ++ List.map (Branch.set_Commits []) branches)),
                    w))
  end.
  { clear results w. induction Hskip as [|b branches Hb _ IH];
      intros i results w.
    - cbn. by rewrite app_nil_r.
    - cbn [for_rangeM List.map].
      assert (bool_decide (Branch.Name b = defaultBranchName) || IsDetached b
              = true) as ->.
      { destruct Hb as [Hb | ->]; [|by rewrite orb_true_r].
        by rewrite bool_decide_eq_true_2. }
      unfold bind at 1, ret at 1. rewrite IH. by rewrite <- app_assoc. }
  by rewrite (bind_Ret _ _ _ _ _ (Hloop 0%nat [] w)).
Qed.

(** X11: [applyCommits] makes no call for the default branch and for a
    detached head: it returns them with an empty Commits list and leaves
    the world as it was. *)
Theorem applyCommits_skips_default_and_detached (remote : Remote.t)
    (defaultBranchName : string) (branches : list Branch.t) (w : W) :
  Forall (fun b => Branch.Name b = defaultBranchName \/ IsDetached b = true)
    branches ->
  applyCommits connection remote branches defaultBranchName w
  = (Ret (List.map (Branch.set_Commits []) branches), w).
Proof. intros Hskip. by apply applyCommits_skip_loop. Qed.

(** X12: for a branch that is neither the default branch nor detached, when
    [GetRemoteHeadOid] succeeds with an answer that holds no line,
    [applyCommits] panics on [splitLines(remoteHeadOid)[0]]; and when it
    succeeds with a line but [GetLog] then fails, [applyCommits] returns
    the error of [GetLog]. *)
Theorem applyCommits_remote_head_edges (remote : Remote.t)
    (defaultBranchName : string) (b : Branch.t) (rest : list Branch.t)
    (answer : string) (w w1 : W) :
  Branch.Name b <> defaultBranchName ->
  IsDetached b = false ->
  Connection.GetRemoteHeadOid connection (Remote.Name remote) (Branch.Name b) w
  = ((answer, None), w1) ->
  (splitLines answer = [] ->
   applyCommits connection remote (b :: rest) defaultBranchName w
   = (Panic, w1))
  /\ (forall (out : string) (e : error) (w2 : W),
        splitLines answer <> [] ->
        Connection.GetLog connection (Branch.Name b) w1
        = ((out, Some e), w2) ->
        applyCommits connection remote (b :: rest) defaultBranchName w
        = (Fail e, w2)).
Proof.
  intros Hname Hdetached Hhead. unfold applyCommits. cbn [for_rangeM].
  rewrite bool_decide_eq_false_2 by done. rewrite Hdetached. cbn [orb].
  split.
  - intros Hlines. apply bind_Panic, bind_Panic.
    unfold bind at 1, call. rewrite Hhead. rewrite Hlines.
    apply bind_Panic. reflexivity.
  - intros out e w2 Hlines Hlog. apply bind_Fail, bind_Fail.
    unfold bind at 1, call at 1. rewrite Hhead.
    destruct (splitLines answer) as [|l0 ls]; [done|].
    unfold bind at 1, ret at 1. unfold bind, call.
    cbn [Branch.Name Branch.set_RemoteHeadOid]. rewrite Hlog. reflexivity.
Qed.
End Loading.

(** ** The ancestry trimmer, whatever the flags *)

Section Trimming.
Context {W : Type} (connection : Connection.t W).

(** What one iteration of the loop of [trimBranch] can do. *)
Lemma trimBranchStep_cases (remoteHeadOid : string) (isMerged : bool)
    (branchName defaultBranchName : string) (i : nat) (oid : string)
    (results childNames : list string) (w w' : W)
    (next : flow (list string * list string) (list string)) :
  trimBranchStep connection remoteHeadOid isMerged branchName
    defaultBranchName i oid (results, childNames) w = (Ret next, w') ->
  (exists childNames', next = Next (results ++ [oid], childNames'))
  \/ (exists childNames', next = Break (results ++ [oid], childNames'))
  \/ next = Return [] \/ next = Return results.
Proof.
  unfold trimBranchStep.
  destruct ((0 <? len remoteHeadOid)%nat || isMerged).
  { intros [= <- <-]. right. left. eauto. }
  unfold bind, call.
  destruct (Connection.GetAssociatedRefNames connection oid w)
    as [[refNames [e|]] w1]; [done|].
  cbv zeta.
  destruct (i =? 0)%nat.
  - rewrite register_loop. destruct (existsb _ _).
    + intros [= <- <-]. auto.
    + rewrite check_loop. destruct (existsb _ _); intros [= <- <-]; eauto.
  - rewrite check_loop. destruct (existsb _ _); intros [= <- <-]; eauto.
Qed.

Lemma trimBranch_loop_prefix (remoteHeadOid : string) (isMerged : bool)
    (branchName defaultBranchName : string) (remaining : list string) :
  forall (i : nat) (results childNames : list string) (w w' : W)
         (out : list string * list string + list string),
    for_rangeM
      (trimBranchStep connection remoteHeadOid isMerged branchName
         defaultBranchName) i remaining (results, childNames) w
    = (Ret out, w') ->
    let kept := match out with inl (kept, _) => kept | inr kept => kept end in
    kept = []
    \/ exists taken rest, kept = results ++ taken /\ remaining = taken ++ rest.
Proof.
  induction remaining as [|oid remaining IH];
    intros i results childNames w w' out.
  - intros [= <- <-]. right. exists [], []. by rewrite app_nil_r.
  - cbn [for_rangeM]. unfold bind at 1.
    destruct (trimBranchStep _ _ _ _ _ _ _ _ w) as [[next| |] w1] eqn:Hstep;
      [|done..].
    apply trimBranchStep_cases in Hstep
      as [[cn ->] | [[cn ->] | [-> | ->]]].
    + intros Hrest. apply IH in Hrest as [Hnil | (taken & rest & Hkept & ->)];
        [by left|].
      right. exists (oid :: taken), rest.
      by rewrite Hkept, <- app_assoc.
    + intros [= <- <-]. right. by exists [oid], remaining.
    + intros [= <- <-]. by left.
    + intros [= <- <-]. right. exists [], (oid :: remaining).
      by rewrite app_nil_r.
Qed.

(** X13: whatever the flags, the names and the connection, the commits
    [trimBranch] returns are a prefix of the log it was given: it never
    reorders, skips or invents a commit. *)
Theorem trimBranch_prefix (oids : list string) (remoteHeadOid : string)
    (isMerged : bool) (branchName defaultBranchName : string) (w w' : W)
    (kept : list string) :
  trimBranch connection oids remoteHeadOid isMerged branchName
    defaultBranchName w = (Ret kept, w') ->
  exists rest : list string, oids = kept ++ rest.
Proof.
  unfold trimBranch, bind.
  destruct (for_rangeM _ 0%nat oids ([], []) w) as [[out| |] w1] eqn:Hloop;
    [|done..].
  apply trimBranch_loop_prefix in Hloop.
  destruct out as [[kept' cn]|kept']; intros [= <- <-]; cbn in Hloop;
    destruct Hloop as [-> | (taken & rest & -> & ->)]; eauto.
Qed.
End Trimming.

(** ** Matching, per branch *)

Lemma NoDup_snoc_number (results : list PullRequest.t) (pr : PullRequest.t) :
  NoDup (List.map PullRequest.Number results) ->
  existsb (fun result =>
             bool_decide (PullRequest.Number pr = PullRequest.Number result))
    results = false ->
  NoDup (List.map PullRequest.Number (results ++ [pr])).
Proof.
  intros Hnodup Hnew. rewrite List.map_app. cbn [List.map].
  apply NoDup_app. split; [done|]. split; [|apply NoDup_singleton].
  intros n Hn Hk. apply list_elem_of_singleton in Hk. subst n.
  apply list_elem_of_In, in_map_iff in Hn as (result & Hnum & Hin).
  apply not_true_iff_false in Hnew. apply Hnew.
  apply existsb_exists. exists result. split; [done|].
  by apply bool_decide_eq_true.
Qed.

Lemma findMatchedPullRequest_loop (branchName : string)
    (prNumbers : gmap string Z) (prs : list PullRequest.t) :
  forall (i : nat) (results : list PullRequest.t),
    NoDup (List.map PullRequest.Number results) ->
    exists added : list PullRequest.t,
      fell_through
        (for_range
           (fun _ pr (results : list PullRequest.t) =>
              let prExists (pr : PullRequest.t) : bool :=
                match for_range
                        (fun _ result (_ : unit) =>
                           if bool_decide
                                (PullRequest.Number pr
                                 = PullRequest.Number result)
                           then Return true else Next tt)
                        0%nat results tt with
                | inr b => b
                | inl _ => false
                end in
              let prNumberExists (prNumber : Z) : bool :=
                match for_range
                        (fun _ (kv : string * Z) (_ : unit) =>
                           if bool_decide (kv.2 = prNumber)
                           then Return true else Next tt)
                        0%nat (map_to_list prNumbers) tt with
                | inr b => b
                | inl _ => false
                end in
              if prExists pr then Next results
              else if prNumberExists (PullRequest.Number pr)
              then if bool_decide
                        (PullRequest.Number pr
                         = default 0%Z (prNumbers !! branchName))
                   then Next (results ++ [pr])
                   else Next results
              else if bool_decide (PullRequest.Name pr = branchName)
              then Next (results ++ [pr])
              else Next results)
           i prs results)
      = results ++ added
      /\ sublist added prs
      /\ NoDup (List.map PullRequest.Number (results ++ added))
      /\ forall pr, In pr prs -> matchedBecause branchName prNumbers pr ->
                    In (PullRequest.Number pr)
                      (List.map PullRequest.Number (results ++ added)).
Proof.
  induction prs as [|pr prs IH]; intros i results Hnodup.
  - exists []. rewrite app_nil_r. repeat split; [constructor | done | by intros ? []].
  - cbn [for_range]. cbv zeta.
    rewrite (for_range_search
               (fun result =>
                  bool_decide (PullRequest.Number pr
                               = PullRequest.Number result))).
    pose proof (prNumberExists_spec prNumbers (PullRequest.Number pr))
      as Htracked.
    assert (Hkeep : forall added,
               sublist added prs ->
               (forall q, In q prs -> matchedBecause branchName prNumbers q ->
                          In (PullRequest.Number q)
                            (List.map PullRequest.Number (results ++ added))) ->
               In (PullRequest.Number pr)
                 (List.map PullRequest.Number results)
               \/ ~ matchedBecause branchName prNumbers pr ->
               sublist added (pr :: prs)
               /\ forall q, In q (pr :: prs) ->
                            matchedBecause branchName prNumbers q ->
                            In (PullRequest.Number q)
                              (List.map PullRequest.Number (results ++ added))).
    { intros added Hsub Hall Hpr. split; [by apply sublist_cons|].
      intros q [<- | Hq] Hq'; [|by apply Hall].
      destruct Hpr as [Hin | Hnot]; [|done].
      rewrite List.map_app. apply in_or_app. by left. }
    assert (Htake : forall added,
               sublist added prs ->
               (forall q, In q prs -> matchedBecause branchName prNumbers q ->
                          In (PullRequest.Number q)
                            (List.map PullRequest.Number
                               ((results ++ [pr]) ++ added))) ->
               sublist (pr :: added) (pr :: prs)
               /\ forall q, In q (pr :: prs) ->
                            matchedBecause branchName prNumbers q ->
                            In (PullRequest.Number q)
                              (List.map PullRequest.Number
                                 (results ++ pr :: added))).
    { intros added Hsub Hall. split; [by apply sublist_skip|].
      intros q Hq Hq'. change (pr :: added) with ([pr] ++ added).
      rewrite app_assoc. destruct Hq as [<- | Hq]; [|by apply Hall].
      rewrite !List.map_app. apply in_or_app. left. apply in_or_app.
      right. by left. }
    destruct (existsb _ results) eqn:Hexists.
    { destruct (IH (Datatypes.S i) results Hnodup)
        as (added & Hrun & Hsub & Hnd & Hall).
      exists added. split; [exact Hrun|].
      destruct (Hkeep added Hsub Hall) as [? ?]; [|done].
      left. apply existsb_exists in Hexists as (result & Hin & Heq).
      apply bool_decide_eq_true in Heq. rewrite Heq. by apply in_map. }
    pose proof (NoDup_snoc_number results pr Hnodup Hexists) as Hnodup'.
    destruct (IH (Datatypes.S i) results Hnodup)
      as (added & Hrun & Hsub & Hnd & Hall).
    destruct (IH (Datatypes.S i) (results ++ [pr]) Hnodup')
      as (added' & Hrun' & Hsub' & Hnd' & Hall').
    rewrite <- app_assoc in Hrun', Hnd'. cbn [app] in Hrun', Hnd'.
    destruct (match for_range _ 0%nat (map_to_list prNumbers) tt with
              | inr b => b | inl _ => false end).
    + case_bool_decide as Hnum.
      * exists (pr :: added'). split; [exact Hrun'|].
        destruct (Htake added' Hsub' Hall') as [? ?]. done.
      * exists added. split; [exact Hrun|].
        destruct (Hkeep added Hsub Hall) as [? ?]; [|done].
        right. intros [[_ Heq] | [Hnot _]]; [done|].
        apply Hnot, Htracked. done.
    + case_bool_decide as Hname.
      * exists (pr :: added'). split; [exact Hrun'|].
        destruct (Htake added' Hsub' Hall') as [? ?]. done.
      * exists added. split; [exact Hrun|].
        destruct (Hkeep added Hsub Hall) as [? ?]; [|done].
        right. intros [[Htr _] | [_ Heq]]; [|done].
        apply Htracked in Htr. done.
Qed.

Lemma findMatchedPullRequest_facts (branchName : string)
    (prs : list PullRequest.t) (prNumbers : gmap string Z) :
  sublist (findMatchedPullRequest branchName prs prNumbers) prs
  /\ NoDup (List.map PullRequest.Number
              (findMatchedPullRequest branchName prs prNumbers))
  /\ forall pr,
       In pr prs -> matchedBecause branchName prNumbers pr ->
       In (PullRequest.Number pr)
         (List.map PullRequest.Number
            (findMatchedPullRequest branchName prs prNumbers)).
Proof.
  unfold findMatchedPullRequest.
  destruct (findMatchedPullRequest_loop branchName prNumbers prs 0 [])
    as (added & Hrun & Hsub & Hnodup & Hall); [constructor|].
  cbn [app] in *. by rewrite Hrun.
Qed.

(** X14: the pull requests [findMatchedPullRequest] returns for a branch are
    taken from the fetched list in its order, hold no PR number twice
    (a pull request fetched twice is kept once), and miss no number of a
    fetched pull request that matches the branch. *)
Theorem findMatchedPullRequest_complete (branchName : string)
    (prs : list PullRequest.t) (prNumbers : gmap string Z) :
  sublist (findMatchedPullRequest branchName prs prNumbers) prs
  /\ NoDup (List.map PullRequest.Number
              (findMatchedPullRequest branchName prs prNumbers))
  /\ forall pr,
       In pr prs -> matchedBecause branchName prNumbers pr ->
       In (PullRequest.Number pr)
         (List.map PullRequest.Number
            (findMatchedPullRequest branchName prs prNumbers)).
Proof. apply findMatchedPullRequest_facts. Qed.

Section Attaching.
Context {W : Type} (connection : Connection.t W) `{Library}.

(** X15: [applyPullRequest] returns the branches in their order with nothing
    changed but the PullRequests list, which is replaced: each new list
    holds fetched pull requests only, and no PR number twice. *)
Theorem applyPullRequest_frame (branches : list Branch.t)
    (prs : list PullRequest.t) (w : W) :
  exists (result : list Branch.t) (w' : W),
    applyPullRequest connection branches prs w = (Ret result, w')
    /\ Forall2
         (fun before after =>
            after = Branch.set_PullRequests (Branch.PullRequests after) before
            /\ NoDup (List.map PullRequest.Number (Branch.PullRequests after))
            /\ forall pr, In pr (Branch.PullRequests after) -> In pr prs)
         branches result.
Proof.
  destruct (collectPRNumbers_total connection branches w)
    as (prNumbers & w' & Hrun & _).
  exists (attachPullRequests branches prs prNumbers), w'. split.
  { unfold applyPullRequest. by rewrite (bind_Ret _ _ _ _ _ Hrun). }
  rewrite attachPullRequests_map. clear Hrun.
  induction branches as [|b branches IH]; [constructor|].
  cbn [List.map]. constructor; [|done].
  cbn [Branch.set_PullRequests Branch.PullRequests].
  destruct (findMatchedPullRequest_facts (Branch.Name b) prs prNumbers)
    as (Hsub & Hnodup & _).
  pose proof (sort_Slice_Permutation PullRequest.t
                (fun a b => (PullRequest.Number a <? PullRequest.Number b)%Z)
                (findMatchedPullRequest (Branch.Name b) prs prNumbers))
    as Hperm.
  split; [done|]. split.
  - by rewrite (Permutation_map PullRequest.Number Hperm).
  - intros pr Hin. eapply Permutation_in in Hin; [|exact Hperm].
    apply list_elem_of_In. eapply elem_of_sublist; [|exact Hsub].
    by apply list_elem_of_In.
Qed.
End Attaching.

(** ** Classification, read backwards *)

Lemma getDeleteStatus_range (branch : Branch.t)
    (uncommittedChanges : list UncommittedChange) :
  getDeleteStatus branch uncommittedChanges = NotDeletable
  \/ getDeleteStatus branch uncommittedChanges = Deletable.
Proof.
  unfold getDeleteStatus.
  destruct (Branch.IsProtected branch); [by left|].
  destruct (Branch.Head branch && _); [by left|].
  destruct (List.length (Branch.PullRequests branch) =? 0)%nat; [by left|].
  rewrite getDeleteStatus_loop.
  destruct (existsb _ (Branch.PullRequests branch)); [by left|].
  destruct (_ =? 0)%Z; [by left | by right].
Qed.

(** X16: [getDeleteStatus] only answers NotDeletable or Deletable, and it
    answers Deletable only with evidence: the branch is not protected, no
    tracked change is pending if it is checked out, none of its pull
    requests is Open, and one of them is Merged and holds the first entry
    of the branch's Commits. *)
Theorem getDeleteStatus_deletable_evidence (branch : Branch.t)
    (uncommittedChanges : list UncommittedChange) :
  (getDeleteStatus branch uncommittedChanges = NotDeletable
   \/ getDeleteStatus branch uncommittedChanges = Deletable)
  /\ (getDeleteStatus branch uncommittedChanges = Deletable ->
      Branch.IsProtected branch = false
      /\ (Branch.Head branch = true ->
          forall change, In change uncommittedChanges -> Y change = "?")
      /\ (forall pr, In pr (Branch.PullRequests branch) ->
                     PullRequest.State pr <> Open)
      /\ exists pr localHeadOid,
           In pr (Branch.PullRequests branch)
           /\ PullRequest.State pr = Merged
           /\ List.head (Branch.Commits branch) = Some localHeadOid
           /\ In localHeadOid (PullRequest.Commits pr)).
Proof.
  split; [apply getDeleteStatus_range|].
  unfold getDeleteStatus.
  destruct (Branch.IsProtected branch); [done|].
  rewrite (for_range_flag (fun change => negb (IsUntracked change))).
  cbn [orb].
  destruct (Branch.Head branch
            && existsb (fun change => negb (IsUntracked change))
                 uncommittedChanges) eqn:Htracked; [done|].
  destruct (List.length (Branch.PullRequests branch) =? 0)%nat; [done|].
  rewrite getDeleteStatus_loop.
  destruct (existsb _ (Branch.PullRequests branch)) eqn:Hopen; [done|].
  destruct (List.filter (isFullyMerged branch) (Branch.PullRequests branch))
    as [|pr merged] eqn:Hmerged; [done|].
  intros _. split; [done|]. split; [|split].
  - intros Hhead change Hin. rewrite Hhead in Htracked. cbn [andb] in Htracked.
    destruct (bool_decide (Y change = "?")) eqn:Hy;
      [by apply bool_decide_eq_true in Hy|].
    apply not_true_iff_false in Htracked. exfalso. apply Htracked.
    apply existsb_exists. exists change. split; [done|].
    unfold IsUntracked. by rewrite Hy.
  - intros pr' Hin Hstate. apply not_true_iff_false in Hopen. apply Hopen.
    apply existsb_exists. exists pr'. split; [done|].
    by apply bool_decide_eq_true.
  - assert (Hpr : In pr (List.filter (isFullyMerged branch)
                           (Branch.PullRequests branch)))
      by (rewrite Hmerged; by left).
    apply filter_In in Hpr as [Hin Hfull].
    rewrite isFullyMerged_closed in Hfull.
    apply andb_true_iff in Hfull as [Hstate%bool_decide_eq_true Hc].
    destruct (Branch.Commits branch) as [|c0 cs]; [done|].
    apply existsb_eq_In in Hc. exists pr, c0. done.
Qed.

(** X17: [checkDeletion] changes nothing of a branch but its State, does not
    read the State it replaces, and so gives the same list when it is run
    again on its own result. *)
Theorem checkDeletion_idempotent (branches : list Branch.t)
    (uncommittedChanges : list UncommittedChange) :
  Forall2
    (fun before after =>
       after = Branch.set_State (Branch.State after) before
       /\ (Branch.State after = NotDeletable
           \/ Branch.State after = Deletable))
    branches (checkDeletion branches uncommittedChanges)
  /\ checkDeletion (checkDeletion branches uncommittedChanges)
       uncommittedChanges
     = checkDeletion branches uncommittedChanges.
Proof.
  rewrite !checkDeletion_map. split.
  - induction branches as [|b branches IH]; [constructor|].
    cbn [List.map]. constructor; [|done].
    split; [done|]. cbn [Branch.set_State Branch.State].
    apply getDeleteStatus_range.
  - rewrite List.map_map. apply List.map_ext. intros b.
    by destruct b.
Qed.

(** ** The calls the package makes, and those it does not *)

Section Calls.
Context {W : Type} (connection other : Connection.t W) `{Library}.

(** X18: [GetBranches] classifies without writing: its outcome and the
    world it leaves are the same whatever the connection does for the
    remote listing, the SSH configuration, [AddConfig], [RemoveConfig] and
    [DeleteBranches]; and in a dry run they are the same whatever
    [CheckoutBranch] does. *)
Theorem GetBranches_read_only (remote : Remote.t) (dryRun : bool) (w : W) :
  GetBranches (withOtherWrites connection other) remote dryRun w
  = GetBranches connection remote dryRun w
  /\ GetBranches (withOtherCheckout connection other) remote true w
     = GetBranches connection remote true w.
Proof. split; reflexivity. Qed.

(** X19: [DeleteBranches] calls nothing but the batched delete and the
    branch listing: its outcome and the world it leaves are the same
    whatever the connection does for every other method. *)
Theorem DeleteBranches_calls_two_methods (branches : list Branch.t) (w : W) :
  DeleteBranches (onlyDeleting connection other) branches w
  = DeleteBranches connection branches w.
Proof. reflexivity. Qed.
End Calls.

(** ** Errors on the way to a classification *)

Section Errors.
Context {W : Type} (connection : Connection.t W) `{Library}.

(** X20: when no checked-out branch is Deletable,
    [switchToDefaultBranchIfDeleted] returns its input as it is and calls
    nothing, in a dry run or not. *)
Theorem switchToDefaultBranchIfDeleted_untriggered (branches : list Branch.t)
    (defaultBranchName : string) (dryRun : bool) (w : W) :
  ~ checkedOutIsDeletable branches ->
  switchToDefaultBranchIfDeleted connection branches defaultBranchName
    dryRun w
  = (Ret branches, w).
Proof.
  intros Hnot. unfold switchToDefaultBranchIfDeleted.
  match goal with
  | |- context [negb ?needs] => destruct needs eqn:Hneeds
  end; [|done].
  by apply needsCheckout_spec in Hneeds.
Qed.

(** X21: [GetBranches] stops at the first of its opening steps that fails:
    a failed [GetRepoNames] gives its error, a repository answer that does
    not parse gives the wrapped parse error, and a failed [CheckRepos]
    gives its error; in each case the world is left as that step left it,
    so no branch has been read. *)
Theorem GetBranches_opening_errors (remote : Remote.t) (dryRun : bool)
    (w : W) :
  (forall (out : string) (e : error) (w1 : W),
     Connection.GetRepoNames connection (Remote.Hostname remote)
       (Remote.RepoName remote) w = ((out, Some e), w1) ->
     GetBranches connection remote dryRun w = (Fail e, w1))
  /\ (forall (json : string) (e : error) (w1 : W),
        Connection.GetRepoNames connection (Remote.Hostname remote)
          (Remote.RepoName remote) w = ((json, None), w1) ->
        json_Unmarshal_repo json = inl e ->
        GetBranches connection remote dryRun w
        = (Fail ("error unmarshaling response: " +:+ e), w1))
  /\ (forall (json : string) (repoNames : list string)
             (defaultBranchName : string) (e : error) (w1 w2 : W),
        Connection.GetRepoNames connection (Remote.Hostname remote)
          (Remote.RepoName remote) w = ((json, None), w1) ->
        getRepo json = Ret (repoNames, defaultBranchName) ->
        Connection.CheckRepos connection (Remote.Hostname remote) repoNames w1
        = (Some e, w2) ->
        GetBranches connection remote dryRun w = (Fail e, w2)).
Proof.
  split; [|split].
  - intros out e w1 Hrepo. unfold GetBranches.
    apply bind_Fail. unfold orReturn, bind, call, fail. by rewrite Hrepo.
  - intros json e w1 Hrepo Hparse. unfold GetBranches.
    erewrite bind_Ret;
      [|unfold orReturn, bind, call, ret; by rewrite Hrepo].
    apply bind_Fail. unfold lift, getRepo. by rewrite Hparse.
  - intros json repoNames defaultBranchName e w1 w2 Hrepo Hparse Hcheck.
    unfold GetBranches.
    erewrite bind_Ret;
      [|unfold orReturn, bind, call, ret; by rewrite Hrepo].
    erewrite bind_Ret; [|unfold lift; by rewrite Hparse].
    cbn beta iota.
    erewrite bind_Ret; [|unfold call; by rewrite Hcheck].
    reflexivity.
Qed.

(** X22: [loadBranches] returns the error of a failed [GetBranchNames], and
    panics, before any other call, on a branch listing that holds a line
    without a colon. *)
Theorem loadBranches_listing_errors (remote : Remote.t)
    (defaultBranchName : string) (repoNames : list string) (w : W) :
  (forall (out : string) (e : error) (w1 : W),
     Connection.GetBranchNames connection w = ((out, Some e), w1) ->
     loadBranches connection remote defaultBranchName repoNames w
     = (Fail e, w1))
  /\ (forall (out line : string) (w1 : W),
        Connection.GetBranchNames connection w = ((out, None), w1) ->
        In line (splitLines out) -> ~ In ":"%char (bytes line) ->
        loadBranches connection remote defaultBranchName repoNames w
        = (Panic, w1)).
Proof.
  split.
  - intros out e w1 Hnames. unfold loadBranches.
    apply bind_Fail. unfold orReturn, bind, call, fail. by rewrite Hnames.
  - intros out line w1 Hnames Hin Hcolon. unfold loadBranches.
    erewrite bind_Ret;
      [|unfold orReturn, bind, call, ret; by rewrite Hnames].
    apply bind_Panic. unfold lift. rewrite toBranch_parseAll.
    assert (parseAll branchOfLine (splitLines out) = None) as ->; [|done].
    apply parseAll_None. exists line. split; [done|].
    by apply branchOfLine_None.
Qed.
End Errors.

(** ** Choosing the remote *)


Lemma Split_field (sep : ascii) (field rest : string) :
  ~ In sep (bytes field) ->
  exists more,
    Split (field +:+ String sep rest) sep = field :: more
    /\ List.head more = List.head (Split rest sep).
Proof.
  intros Hfree. unfold Split.
  assert (Hrun : forall cur,
             splitFrom sep (field +:+ String sep rest) cur
             = (cur +:+ field) :: splitFrom sep rest "").
  { induction field as [|c field IH]; intros cur.
    - rewrite append_empty_l, append_empty_r. cbn [splitFrom].
      by rewrite Ascii.eqb_refl.
    - rewrite append_cons. cbn [splitFrom].
      assert (Ascii.eqb c sep = false) as ->.
      { apply Ascii.eqb_neq. intros ->. apply Hfree. by left. }
      rewrite IH by (intros Hin; apply Hfree; by right).
      by rewrite append_assoc. }
  rewrite Hrun. eauto.
Qed.

Lemma findHostname_run (before after : list string)
    (defaultName : string) :
  Forall (fun param => List.hd "" (Split param " ") <> "hostname") before ->
  findHostname before defaultName = Ret defaultName
  /\ (forall value rest : string,
        ~ In " "%char (bytes value) ->
        findHostname (before ++ ("hostname " +:+ value) :: after) defaultName
        = Ret value
        /\ findHostname
             (before ++ ("hostname " +:+ value +:+ String " " rest) :: after)
             defaultName
           = Ret value)
  /\ findHostname (before ++ "hostname" :: after) defaultName = Panic.
Proof.
  intros Hbefore. unfold findHostname.
  assert (Hskip : forall (tail : list string) (i : nat),
             for_range (fun _ param (_ : unit) => findHostnameStep param)
               i (before ++ tail) tt
             = for_range (fun _ param (_ : unit) => findHostnameStep param)
                 (i + List.length before) tail tt).
  { intros tail. induction Hbefore as [|param before Hparam _ IH]; intros i.
    - cbn. by rewrite Nat.add_0_r.
    - cbn [app for_range]. unfold findHostnameStep at 1.
      rewrite bool_decide_eq_false_2 by done.
      rewrite IH. cbn [List.length]. f_equal. lia. }
  split; [|split].
  - specialize (Hskip [] 0%nat). rewrite app_nil_r in Hskip.
    by rewrite Hskip.
  - intros value rest Hvalue.
    split; rewrite Hskip; cbn [for_range]; unfold findHostnameStep.
    + assert (Split ("hostname " +:+ value) " " = ["hostname"; value]) as ->.
      { unfold Split. rewrite !append_cons, append_empty_l.
        cbn [splitFrom Ascii.eqb Bool.eqb]. by rewrite splitFrom_plain. }
      reflexivity.
    + destruct (Split_field " " value rest Hvalue) as (more & Hsplit & _).
      assert (Split ("hostname " +:+ value +:+ String " " rest) " "
              = "hostname" :: value :: more) as ->.
      { unfold Split in *. rewrite !append_cons, append_empty_l.
        cbn [splitFrom Ascii.eqb Bool.eqb]. by rewrite Hsplit. }
      reflexivity.
  - rewrite Hskip. reflexivity.
Qed.

(** X24: [findHostname] returns the default name when no parameter's first
    word is [hostname]; it returns the second word of the first parameter
    that starts with [hostname] and a space; and it panics when that
    parameter is the bare word [hostname]. *)
Theorem findHostname_first (before after : list string)
    (defaultName : string) :
  Forall (fun param => List.hd "" (Split param " ") <> "hostname") before ->
  findHostname before defaultName = Ret defaultName
  /\ (forall value rest : string,
        ~ In " "%char (bytes value) ->
        findHostname (before ++ ("hostname " +:+ value) :: after) defaultName
        = Ret value
        /\ findHostname
             (before ++ ("hostname " +:+ value +:+ String " " rest) :: after)
             defaultName
           = Ret value)
  /\ findHostname (before ++ "hostname" :: after) defaultName = Panic.
Proof. apply findHostname_run. Qed.

(** ** Pull requests, as fetched *)

Section Fetched.
Context `{Library}.

(** The loop of [toPullRequests], from any accumulated list. *)
Lemma toPullRequests_loop (edges : list SearchNode.t) :
  forall (i : nat) (results : list PullRequest.t),
    for_range
      (fun _ node (results : list PullRequest.t) =>
         match toPullRequestState (SearchNode.State node) with
         | Ret state =>
             let commits :=
               fell_through
                 (for_range
                    (fun _ oid (commits : list string) =>
                       Next (commits ++ [oid]))
                    0%nat (SearchNode.Commits node) []) in
             Next (results ++
                     [PullRequest.mk (SearchNode.HeadRefName node)
                        state (SearchNode.IsDraft node)
                        (SearchNode.Number node) commits
                        (SearchNode.Url node)
                        (SearchNode.Author_Login node)])
         | _ =>
             Return ("unexpected pull request state: "
                       +:+ SearchNode.State node)
         end) i edges results
    = match parseAll pullRequestOfNode edges with
      | Some prs => inl (results ++ prs)
      | None =>
          inr ("unexpected pull request state: "
                 +:+ List.hd ""
                       (List.map SearchNode.State
                          (List.filter
                             (fun node =>
                                negb (bool_decide
                                        (SearchNode.State node = "CLOSED")
                                      || bool_decide
                                           (SearchNode.State node = "MERGED")
                                      || bool_decide
                                           (SearchNode.State node = "OPEN")))
                             edges)))
      end.
Proof.
  induction edges as [|node edges IH]; intros i results.
  - cbn. by rewrite app_nil_r.
  - cbn [for_range parseAll List.filter]. unfold pullRequestOfNode at 1.
    unfold toPullRequestState at 1 3.
    destruct (bool_decide (SearchNode.State node = "CLOSED"));
      [|destruct (bool_decide (SearchNode.State node = "MERGED"));
        [|destruct (bool_decide (SearchNode.State node = "OPEN"))]];
      cbn [orb negb List.map List.hd]; try reflexivity;
      cbv zeta; rewrite (for_range_append_map (fun oid : string => oid));
      cbn [fell_through app]; rewrite List.map_id, IH;
      destruct (parseAll pullRequestOfNode edges); try reflexivity;
      by rewrite <- app_assoc.
Qed.

(** X25: [toPullRequests] converts all the nodes or none: with every state
    among CLOSED, MERGED and OPEN it returns one pull request per node, in
    order, with the node's number, head ref name and commits; with any
    other state, matched case-sensitively, it returns an error naming the
    first such state, and no pull request. *)
Theorem toPullRequests_all_or_nothing (jsonResp : string)
    (edges : list SearchNode.t) :
  json_Unmarshal_search jsonResp = inr edges ->
  let unknown (node : SearchNode.t) : bool :=
    negb (bool_decide (SearchNode.State node = "CLOSED")
          || bool_decide (SearchNode.State node = "MERGED")
          || bool_decide (SearchNode.State node = "OPEN")) in
  match List.filter unknown edges with
  | [] =>
      exists prs,
        toPullRequests jsonResp = Ret prs
        /\ Forall2
             (fun node pr =>
                PullRequest.Number pr = SearchNode.Number node
                /\ PullRequest.Name pr = SearchNode.HeadRefName node
                /\ PullRequest.Commits pr = SearchNode.Commits node
                /\ toPullRequestState (SearchNode.State node)
                   = Ret (PullRequest.State pr))
             edges prs
  | node :: _ =>
      toPullRequests jsonResp
      = Fail ("unexpected pull request state: " +:+ SearchNode.State node)
  end.
Proof.
  intros Hjson unknown. unfold toPullRequests. rewrite Hjson.
  rewrite toPullRequests_loop. fold unknown.
  destruct (parseAll pullRequestOfNode edges) as [prs|] eqn:Hparse.
  - assert (List.filter unknown edges = []) as ->.
    { clear Hjson. revert prs Hparse.
      induction edges as [|node edges IH]; intros prs; [done|].
      cbn [parseAll List.filter]. unfold pullRequestOfNode at 1.
      unfold toPullRequestState, unknown.
      repeat case_bool_decide; cbn [orb negb]; try done;
        destruct (parseAll pullRequestOfNode edges) eqn:Hrest; try done;
        intros _; by eapply IH. }
    exists prs. split; [done|].
    apply parseAll_Forall2 in Hparse.
    eapply Forall2_impl; [exact Hparse|].
    intros node pr. unfold pullRequestOfNode.
    destruct (toPullRequestState (SearchNode.State node)); [|done..].
    by intros [= <-].
  - destruct (List.filter unknown edges) as [|node rest] eqn:Hfilter;
      [|reflexivity].
    exfalso. apply parseAll_None in Hparse as (node & Hin & Hnone).
    assert (Hun : In node (List.filter unknown edges)).
    { apply filter_In. split; [done|].
      unfold pullRequestOfNode, toPullRequestState, unknown in *.
      by repeat case_bool_decide. }
    by rewrite Hfilter in Hun.
Qed.
End Fetched.

(** ** Query blocks *)

Lemma getQueryHashes_pack (branches : list Branch.t) :
  getQueryHashes branches
  = pack "" (hashFilters (List.length branches) 0 branches).
Proof.
  unfold getQueryHashes.
  exact (getQueryHashes_loop branches branches 0 [] "").
Qed.

Lemma prefix_append (p block more : string) :
  String.prefix p block = true -> String.prefix p (block +:+ more) = true.
Proof.
  revert block. induction p as [|a p IH]; intros block.
  - intros _. by destruct (block +:+ more).
  - destruct block as [|b block]; [done|].
    rewrite append_cons. cbn [String.prefix].
    destruct (ascii_dec a b); [apply IH | done].
Qed.

Lemma prefix_self (p s : string) : String.prefix p (p +:+ s) = true.
Proof.
  induction p as [|a p IH]; [by destruct s|].
  rewrite append_cons. cbn [String.prefix].
  by destruct (ascii_dec a a).
Qed.

Lemma hashFilters_prefix (total : nat) (branches : list Branch.t) :
  forall i : nat,
    Forall (fun f => String.prefix "hash:" f = true)
      (hashFilters total i branches).
Proof.
  induction branches as [|b branches IH]; intros i; [constructor|].
  cbn [hashFilters]. destruct (contributes b); cbn [app]; [|apply IH].
  constructor; [|apply IH]. apply prefix_self.
Qed.

Lemma pack_prefix (filters : list string) :
  forall block : string,
    block = "" \/ String.prefix "hash:" block = true ->
    (len block <= 256)%nat ->
    Forall (fun f => String.prefix "hash:" f = true /\ (len f <= 256)%nat)
      filters ->
    Forall (fun b => String.prefix "hash:" b = true) (pack block filters).
Proof.
  induction filters as [|f fs IH]; intros block Hblock Hlen Hfilters;
    cbn [pack].
  - destruct Hblock as [-> | Hblock]; [constructor|].
    destruct (0 <? len block)%nat; constructor; [done | constructor].
  - apply Forall_cons in Hfilters as [[Hf Hflen] Hfs].
    destruct (256 <? len block + len f)%nat eqn:Hfull.
    + destruct Hblock as [-> | Hblock].
      { apply Nat.ltb_lt in Hfull. cbn [len String.length] in Hfull. lia. }
      constructor; [done|]. apply IH; auto.
    + apply Nat.ltb_ge in Hfull. apply IH; [|by rewrite len_append|done].
      right. destruct Hblock as [-> | Hblock]; [done|].
      by apply prefix_append.
Qed.

(** X26: when every filter is at most 256 bytes long, no block of
    [getQueryHashes] is empty: each starts with a [hash:] filter.  But
    when the first filter is longer than 256 bytes, the first block is the
    empty string. *)
Theorem getQueryHashes_blocks (branches : list Branch.t) :
  let filters := hashFilters (List.length branches) 0 branches in
  (Forall (fun f => (len f <= 256)%nat) filters ->
   Forall (fun block => String.prefix "hash:" block = true)
     (getQueryHashes branches))
  /\ (forall f fs,
        filters = f :: fs -> (256 < len f)%nat ->
        List.head (getQueryHashes branches) = Some "").
Proof.
  intros filters. rewrite getQueryHashes_pack. fold filters. split.
  - intros Hlen. apply pack_prefix; [by left | cbn; lia |].
    pose proof (hashFilters_prefix (List.length branches) branches 0) as Hpre.
    fold filters in Hpre. clear -Hlen Hpre.
    induction filters as [|f fs IH]; [constructor|].
    apply Forall_cons in Hlen as [? ?]. apply Forall_cons in Hpre as [? ?].
    constructor; auto.
  - intros f fs -> Hlong. cbn [pack].
    change (len "" + len f)%nat with (len f).
    apply Nat.ltb_lt in Hlong. by rewrite Hlong.
Qed.

(** ** Deletion, once more *)

(** X27: [checkDeleted] keeps the order and every field but State, changes
    a State only from Deletable to Deleted, and gives the same list when
    it is run again with the same listing. *)
Theorem checkDeleted_idempotent (before after : list Branch.t) :
  Forall2
    (fun b b' =>
       b' = Branch.set_State (Branch.State b') b
       /\ (Branch.State b' = Branch.State b
           \/ Branch.State b = Deletable /\ Branch.State b' = Deleted))
    before (checkDeleted before after)
  /\ checkDeleted (checkDeleted before after) after
     = checkDeleted before after.
Proof.
  rewrite !checkDeleted_map. split.
  - induction before as [|b before IH]; [constructor|].
    cbn [List.map]. constructor; [|done].
    unfold markDeleted. case_bool_decide as Hstate.
    + destruct (negb _); destruct b; cbn in *; auto.
    + destruct b; cbn; auto.
  - rewrite List.map_map. apply List.map_ext. intros b.
    unfold markDeleted.
    destruct (bool_decide (Branch.State b = Deletable)) eqn:Hb.
    + destruct (negb (branchNameExists (Branch.Name b) after)) eqn:Hgone.
      * cbn [Branch.State Branch.set_State].
        by rewrite bool_decide_eq_false_2.
      * by rewrite Hb, Hgone.
    + by rewrite Hb.
Qed.

(** * The remote *)

Lemma substring_append (p s : string) :
  String.substring (len p) (len s) (p +:+ s) = s.
Proof.
  induction p as [|c p IH].
  - rewrite append_empty_l. cbn [len String.length].
    induction s as [|c s IH]; [done|]. cbn. by f_equal.
  - rewrite append_cons. cbn [len String.length String.substring]. exact IH.
Qed.

Lemma HasSuffix_append (p suffix : string) :
  HasSuffix (p +:+ suffix) suffix = true.
Proof.
  unfold HasSuffix. rewrite len_append.
  apply andb_true_intro. split; [apply Nat.leb_le; lia|].
  apply bool_decide_eq_true.
  replace (len p + len suffix - len suffix)%nat with (len p) by lia.
  apply substring_append.
Qed.

Lemma bytes_substring (s : string) :
  forall n m : nat,
    bytes (String.substring n m s) = take m (drop n (bytes s)).
Proof.
  induction s as [|c s IH]; intros [|n] [|m]; cbn; try done;
    rewrite ?IH; done.
Qed.

Lemma bytes_length (s : string) : List.length (bytes s) = len s.
Proof. induction s as [|c s IH]; cbn; [done | by f_equal]. Qed.

Lemma HasSuffix_bytes (s suffix : string) :
  HasSuffix s suffix = true ->
  exists front : list ascii, bytes s = front ++ bytes suffix.
Proof.
  unfold HasSuffix. intros [Hlen Hsub%bool_decide_eq_true]%andb_prop.
  apply Nat.leb_le in Hlen.
  exists (take (len s - len suffix) (bytes s)).
  rewrite <- Hsub at 2. rewrite bytes_substring.
  rewrite (take_ge (drop _ _)).
  - by rewrite take_drop.
  - rewrite length_drop. unfold length. rewrite bytes_length. lia.
Qed.

Lemma HasSuffix_other_end (front suffix other : string) :
  last (bytes suffix) <> None ->
  last (bytes other) <> None ->
  last (bytes suffix) <> last (bytes other) ->
  HasSuffix (front +:+ other) suffix = false.
Proof.
  intros Hsuffix Hother Hdiff.
  destruct (HasSuffix (front +:+ other) suffix) eqn:Hhas; [|done].
  destruct (HasSuffix_bytes _ _ Hhas) as [front' Hbytes].
  rewrite bytes_append in Hbytes.
  apply (f_equal last) in Hbytes. rewrite !last_app in Hbytes.
  destruct (last (bytes other)), (last (bytes suffix)); congruence.
Qed.

Section Hostnames.
Variable strings_ToLower : string -> string.

(** X28: [normalizeHostname] maps every subdomain of [github.com] to
    [github.com] and every subdomain of [github.localhost] to
    [github.localhost], compared after lower-casing; any other host it only
    lower-cases; and with a lower-casing that leaves lower-case text alone
    it gives the same host when applied to its own result. *)
Theorem normalizeHostname_collapses (host : string) :
  (forall sub : string,
     strings_ToLower host = sub +:+ ".github.com" ->
     normalizeHostname strings_ToLower host = "github.com")
  /\ (forall sub : string,
        strings_ToLower host = sub +:+ ".github.localhost" ->
        normalizeHostname strings_ToLower host = "github.localhost")
  /\ (normalizeHostname strings_ToLower host = "github.com"
      \/ normalizeHostname strings_ToLower host = "github.localhost"
      \/ normalizeHostname strings_ToLower host = strings_ToLower host)
  /\ (strings_ToLower "github.com" = "github.com" ->
      strings_ToLower "github.localhost" = "github.localhost" ->
      strings_ToLower (strings_ToLower host) = strings_ToLower host ->
      normalizeHostname strings_ToLower
        (normalizeHostname strings_ToLower host)
      = normalizeHostname strings_ToLower host).
Proof.
  unfold normalizeHostname.
  change ("." +:+ github) with ".github.com".
  change ("." +:+ localhost) with ".github.localhost".
  split; [|split; [|split]].
  - intros sub ->. by rewrite HasSuffix_append.
  - intros sub ->.
    rewrite (HasSuffix_other_end sub ".github.com" ".github.localhost")
      by done.
    by rewrite HasSuffix_append.
  - destruct (HasSuffix _ ".github.com"); [by left|].
    destruct (HasSuffix _ ".github.localhost"); [by right; left|].
    by right; right.
  - intros Hgithub Hlocalhost Hfixed.
    destruct (HasSuffix (strings_ToLower host) ".github.com") eqn:Hg.
    + unfold github. by rewrite Hgithub.
    + destruct (HasSuffix (strings_ToLower host) ".github.localhost")
        eqn:Hl.
      * unfold localhost. by rewrite Hlocalhost.
      * by rewrite Hfixed, Hg, Hl.
Qed.
End Hostnames.

Section RemoteLookup.
Context {W : Type} (connection : Connection.t W).
Variable toRemotes : list string -> list Remote.t.
Variable strings_ToLower : string -> string.

(** X29: [GetRemote] returns the error of a failed [GetRemoteNames], and
    [ErrNotFound] when no line of the listing is read as a remote, in both
    cases without asking for the SSH configuration; and it panics when the
    first parameter of the SSH configuration whose first word is
    [hostname] is that bare word. *)
Theorem GetRemote_errors (w : W) :
  (forall (out : string) (e : error) (w1 : W),
     Connection.GetRemoteNames connection w = ((out, Some e), w1) ->
     GetRemote connection toRemotes strings_ToLower w = (Fail e, w1))
  /\ (forall (out : string) (w1 : W),
        Connection.GetRemoteNames connection w = ((out, None), w1) ->
        toRemotes (splitLines out) = [] ->
        GetRemote connection toRemotes strings_ToLower w
        = (Fail ErrNotFound, w1))
  /\ (forall (out config : string) (remote : Remote.t)
             (before after : list string) (w1 w2 : W),
        Connection.GetRemoteNames connection w = ((out, None), w1) ->
        getPrimaryRemote (toRemotes (splitLines out)) = Ret remote ->
        Connection.GetSshConfig connection (Remote.Hostname remote) w1
        = ((config, None), w2) ->
        splitLines config = before ++ "hostname" :: after ->
        Forall (fun param => List.hd "" (Split param " ") <> "hostname")
          before ->
        GetRemote connection toRemotes strings_ToLower w = (Panic, w2)).
Proof.
  unfold GetRemote, orReturn, bind, call, lift, ret, fail.
  split; [|split].
  - intros out e w1 ->. reflexivity.
  - intros out w1 -> ->. reflexivity.
  - intros out config remote before after w1 w2 -> -> -> -> Hbefore.
    destruct (findHostname_run before after (Remote.Hostname remote) Hbefore)
      as (_ & _ & ->).
    reflexivity.
Qed.

(** X30: the remote [GetRemote] returns is the primary remote with its
    name and repository name as parsed.  When the SSH configuration cannot
    be read the error is dropped and the host name is returned as parsed,
    not normalised; when it can be read the host name is the normalised
    [hostname] parameter of the configuration, or the normalised parsed
    host name when the configuration has none. *)
Theorem GetRemote_hostname (out : string) (remote : Remote.t) (w w1 : W) :
  Connection.GetRemoteNames connection w = ((out, None), w1) ->
  getPrimaryRemote (toRemotes (splitLines out)) = Ret remote ->
  (forall (config : string) (e : error) (w2 : W),
     Connection.GetSshConfig connection (Remote.Hostname remote) w1
     = ((config, Some e), w2) ->
     GetRemote connection toRemotes strings_ToLower w = (Ret remote, w2))
  /\ (forall (config found : string) (w2 : W),
        Connection.GetSshConfig connection (Remote.Hostname remote) w1
        = ((config, None), w2) ->
        findHostname (splitLines config) (Remote.Hostname remote)
        = Ret found ->
        GetRemote connection toRemotes strings_ToLower w
        = (Ret (Remote.mk (Remote.Name remote)
                  (normalizeHostname strings_ToLower found)
                  (Remote.RepoName remote)), w2))
  /\ (forall (config : string) (w2 : W),
        Connection.GetSshConfig connection (Remote.Hostname remote) w1
        = ((config, None), w2) ->
        Forall (fun param => List.hd "" (Split param " ") <> "hostname")
          (splitLines config) ->
        GetRemote connection toRemotes strings_ToLower w
        = (Ret (Remote.mk (Remote.Name remote)
                  (normalizeHostname strings_ToLower (Remote.Hostname remote))
                  (Remote.RepoName remote)), w2)).
Proof.
  intros Hnames Hprimary.
  unfold GetRemote, orReturn, bind, call, lift, ret, fail.
  rewrite Hnames, Hprimary.
  split; [|split].
  - intros config e w2 ->. reflexivity.
  - intros config found w2 -> ->. reflexivity.
  - intros config w2 -> Hnone.
    destruct (findHostname_run (splitLines config) []
                (Remote.Hostname remote) Hnone) as (-> & _).
    reflexivity.
Qed.
End RemoteLookup.

(** * Instances of the further properties *)

Lemma splitLines_unlines_witness :
  Forall plainLine ["issue1"; "main"]
  /\ splitLines ("issue1" +:+ String LF ("main" +:+ String LF "")) =
     ["issue1"; "main"].
Proof.
  assert (Hplain : Forall plainLine ["issue1"; "main"]).
  { repeat constructor; try discriminate; cbn; intuition discriminate. }
  split; [exact Hplain|].
  exact (proj1 (splitLines_unlines ["issue1"; "main"] Hplain)).
Defined.

Lemma toBranch_panics_iff_witness :
  (exists line, In line ["*:main"; "issue1"] /\ ~ In ":"%char (bytes line))
  /\ toBranch ["*:main"; "issue1"] = Panic.
Proof.
  assert (Hline : exists line,
             In line ["*:main"; "issue1"] /\ ~ In ":"%char (bytes line)).
  { exists "issue1". split; [by right; left|]. cbn. intuition discriminate. }
  split; [exact Hline|].
  exact (proj2 (proj1 (toBranch_panics_iff ["*:main"; "issue1"])) Hline).
Defined.

Lemma toBranch_reads_listing_witness :
  toBranch (splitLines ("*:issue1" +:+ String LF (" :main" +:+ String LF "")))
  = Ret [Stub.branch true "issue1" Unknown; Stub.branch false "main" Unknown].
Proof.
  apply (toBranch_reads_listing [(true, "issue1"); (false, "main")]).
  repeat constructor; cbn; intuition discriminate.
Defined.

Lemma toUncommittedChange_panics_iff_witness :
  (exists line, In line [" M README.md"; "??"] /\ (len line < 3)%nat)
  /\ toUncommittedChange [" M README.md"; "??"] = Panic.
Proof.
  assert (Hline : exists line,
             In line [" M README.md"; "??"] /\ (len line < 3)%nat).
  { exists "??". split; [by right; left | cbn; lia]. }
  split; [exact Hline|].
  exact (proj2 (proj1 (toUncommittedChange_panics_iff
                         [" M README.md"; "??"])) Hline).
Defined.

Lemma getPRNumber_reads_digits_witness :
  getPRNumber "refs/pull/123/head" = 123%Z.
Proof.
  apply (proj2 getPRNumber_reads_digits "123" "/head").
  - discriminate.
  - cbn. intros c [<- | [<- | [<- | []]]]; reflexivity.
  - intros c tail [= <- <-]. reflexivity.
Defined.

Lemma stripRefPrefix_bare_name_witness :
  stripRefPrefix "refs/remotes/origin/feature/x" = "feature/x".
Proof.
  apply (proj1 (proj2 stripRefPrefix_bare_name) "o"%char "rigin" "feature/x").
  - discriminate.
  - cbn. intuition discriminate.
  - cbn. intuition discriminate.
Defined.

Lemma extractMergedBranchNames_reads_witness :
  extractMergedBranchNames ["* main"; "  issue1"; "detached"]
  = ["main"; "issue1"].
Proof.
  apply (extractMergedBranchNames_reads
           [("* ", "main"); ("  ", "issue1"); ("", "detached")]).
  constructor; [split|constructor; [split|constructor; [split|constructor]]];
    cbn [fst snd].
  - right. cbn. intros p [<- | [<- | []]]; reflexivity.
  - exists "m"%char, "ain". repeat split. cbn. intuition discriminate.
  - right. cbn. intros p [<- | [<- | []]]; reflexivity.
  - exists "i"%char, "ssue1". repeat split. cbn. intuition discriminate.
  - by left.
  - exists "d"%char, "etached". repeat split. cbn. intuition discriminate.
Defined.

Lemma applyProtected_total_witness :
  let w :=
    Stub.checkedOut "main" ["main"]
      [("branch.main.gh-poi-protected", "true")] [] in
  Connection.GetConfig Stub.connection "branch.main.gh-poi-protected" w
  = (("true", None), w)
  /\ applyProtected Stub.connection [Stub.branch true "main" Unknown] w
     = (Ret [Branch.mk true "main" false true "" [] [] Unknown], w).
Proof.
  split; [reflexivity|].
  apply (proj2 (applyProtected_total Stub.connection
                  [Stub.branch true "main" Unknown]
                  (Stub.checkedOut "main" ["main"]
                     [("branch.main.gh-poi-protected", "true")] []))
           (Stub.branch true "main" Unknown) "true" None).
  reflexivity.
Defined.

Lemma applyCommits_skips_default_and_detached_witness :
  applyCommits Stub.connection Stub.remote
    [Stub.branch false "main" Unknown;
     Stub.branch true "(HEAD detached at a97e963)" Unknown]
    "main" (Stub.repository false)
  = (Ret [Stub.branch false "main" Unknown;
          Stub.branch true "(HEAD detached at a97e963)" Unknown],
     Stub.repository false).
Proof.
  apply (applyCommits_skips_default_and_detached Stub.connection Stub.remote
           "main"
           [Stub.branch false "main" Unknown;
            Stub.branch true "(HEAD detached at a97e963)" Unknown]
           (Stub.repository false)).
  constructor; [by left | constructor; [by right | constructor]].
Defined.

Lemma applyCommits_remote_head_edges_witness :
  applyCommits (Fixture.withRemoteHead "") Stub.remote
    [Stub.branch true "issue1" Unknown] "main" (Stub.repository false)
  = (Panic, Stub.repository false)
  /\ applyCommits (Fixture.withRemoteHead Stub.oid1) Stub.remote
       [Stub.branch true "issue2" Unknown] "main" (Stub.repository false)
     = (Fail Stub.ErrCommand, Stub.repository false).
Proof.
  split.
  - apply (proj1 (applyCommits_remote_head_edges (Fixture.withRemoteHead "")
                    Stub.remote "main" (Stub.branch true "issue1" Unknown) []
                    "" (Stub.repository false) (Stub.repository false)
                    ltac:(discriminate) eq_refl eq_refl)).
    reflexivity.
  - apply (proj2 (applyCommits_remote_head_edges
                    (Fixture.withRemoteHead Stub.oid1)
                    Stub.remote "main" (Stub.branch true "issue2" Unknown) []
                    Stub.oid1 (Stub.repository false) (Stub.repository false)
                    ltac:(discriminate) eq_refl eq_refl) "").
    + discriminate.
    + reflexivity.
Defined.

Lemma trimBranch_prefix_witness :
  trimBranch Stub.connection [Stub.oid1; Stub.oid2] "" false "issue1" "main"
    (Stub.repository false)
  = (Ret [Stub.oid1], Stub.repository false)
  /\ exists rest : list string,
       [Stub.oid1; Stub.oid2] = [Stub.oid1] ++ rest.
Proof.
  split; [reflexivity|].
  apply (trimBranch_prefix Stub.connection [Stub.oid1; Stub.oid2] "" false
           "issue1" "main" (Stub.repository false) (Stub.repository false)
           [Stub.oid1]).
  reflexivity.
Defined.

Lemma findMatchedPullRequest_complete_witness :
  In Stub.pr5 [Stub.pr5'; Stub.pr5; Stub.pr5]
  /\ matchedBecause "a" ∅ Stub.pr5
  /\ In 5%Z
       (List.map PullRequest.Number
          (findMatchedPullRequest "a" [Stub.pr5'; Stub.pr5; Stub.pr5] ∅)).
Proof.
  assert (Hin : In Stub.pr5 [Stub.pr5'; Stub.pr5; Stub.pr5])
    by (right; by left).
  assert (Hmatched : matchedBecause "a" ∅ Stub.pr5).
  { right. split; [|reflexivity]. intros (name & Hname).
    by rewrite lookup_empty in Hname. }
  split; [exact Hin|]. split; [exact Hmatched|].
  exact (proj2 (proj2 (findMatchedPullRequest_complete "a"
                         [Stub.pr5'; Stub.pr5; Stub.pr5] ∅))
           Stub.pr5 Hin Hmatched).
Defined.

Lemma getDeleteStatus_deletable_evidence_witness :
  let issue1 :=
    Branch.mk false "issue1" false false "" [Stub.oid1] [Stub.pr1] Unknown in
  getDeleteStatus issue1 [] = Deletable
  /\ exists pr localHeadOid,
       In pr (Branch.PullRequests issue1)
       /\ PullRequest.State pr = Merged
       /\ List.head (Branch.Commits issue1) = Some localHeadOid
       /\ In localHeadOid (PullRequest.Commits pr).
Proof.
  split; [reflexivity|].
  apply (proj2 (getDeleteStatus_deletable_evidence
                  (Branch.mk false "issue1" false false "" [Stub.oid1]
                     [Stub.pr1] Unknown) [])).
  reflexivity.
Defined.

Lemma switchToDefaultBranchIfDeleted_untriggered_witness :
  let branches :=
    [Stub.branch false "issue1" Deletable;
     Stub.branch true "main" NotDeletable] in
  ~ checkedOutIsDeletable branches
  /\ switchToDefaultBranchIfDeleted Stub.connection branches "main" false
       (Stub.repository false)
     = (Ret branches, Stub.repository false).
Proof.
  assert (Hnone : ~ checkedOutIsDeletable
                      [Stub.branch false "issue1" Deletable;
                       Stub.branch true "main" NotDeletable]).
  { intros (b & [<- | [<- | []]] & Hhead & Hstate); discriminate. }
  split; [exact Hnone|].
  exact (switchToDefaultBranchIfDeleted_untriggered Stub.connection _ "main"
           false (Stub.repository false) Hnone).
Defined.

Lemma GetBranches_opening_errors_witness :
  GetBranches (Fixture.withRepoNames ("", Some Stub.ErrCommand)) Stub.remote
    false (Stub.repository false)
  = (Fail Stub.ErrCommand, Stub.repository false)
  /\ GetBranches (Fixture.withRepoNames ("{", None)) Stub.remote false
       (Stub.repository false)
     = (Fail "error unmarshaling response: unexpected end of JSON input",
        Stub.repository false).
Proof.
  split.
  - apply (proj1 (GetBranches_opening_errors
                    (Fixture.withRepoNames ("", Some Stub.ErrCommand))
                    Stub.remote false (Stub.repository false)) "").
    reflexivity.
  - apply (proj1 (proj2 (GetBranches_opening_errors
                           (Fixture.withRepoNames ("{", None))
                           Stub.remote false (Stub.repository false)))
             "{" "unexpected end of JSON input");
      reflexivity.
Defined.

Lemma loadBranches_listing_errors_witness :
  loadBranches Stub.connection Stub.remote "main" ["owner/repo"]
    (Stub.unreadable (Stub.repository false))
  = (Fail Stub.ErrCommand, Stub.unreadable (Stub.repository false)).
Proof.
  apply (proj1 (loadBranches_listing_errors Stub.connection Stub.remote
                  "main" ["owner/repo"]
                  (Stub.unreadable (Stub.repository false))) "").
  reflexivity.
Defined.


Lemma findHostname_first_witness :
  findHostname (splitLines Fixture.sshConfig) "github.com"
  = Ret "ssh.GitHub.com".
Proof.
  assert (Hbefore :
            Forall (fun param => List.hd "" (Split param " ") <> "hostname")
              ["user git"]).
  { constructor; [vm_compute; discriminate | constructor]. }
  assert (Hvalue : ~ In " "%char (bytes "ssh.GitHub.com")).
  { cbn. intuition discriminate. }
  exact (proj1 (proj1 (proj2 (findHostname_first ["user git"] ["port 443"]
                                "github.com" Hbefore))
                  "ssh.GitHub.com" "" Hvalue)).
Defined.

Lemma toPullRequests_all_or_nothing_witness :
  exists prs,
    toPullRequests "PRS" = Ret prs
    /\ Forall2
         (fun node pr =>
            PullRequest.Number pr = SearchNode.Number node
            /\ PullRequest.Name pr = SearchNode.HeadRefName node
            /\ PullRequest.Commits pr = SearchNode.Commits node
            /\ toPullRequestState (SearchNode.State node)
               = Ret (PullRequest.State pr))
         [SearchNode.mk 1 "issue1" Stub.oid1
            "https://github.com/owner/repo/pull/1" "MERGED" false
            [Stub.oid1] "owner"]
         prs.
Proof.
  exact (toPullRequests_all_or_nothing "PRS" _ eq_refl).
Defined.

Lemma getQueryHashes_blocks_witness :
  let branches :=
    [Branch.mk false "issue1" false false "" [Stub.oid1] [] Unknown] in
  Forall (fun f => (len f <= 256)%nat)
    (hashFilters (List.length branches) 0 branches)
  /\ Forall (fun block => String.prefix "hash:" block = true)
       (getQueryHashes branches).
Proof.
  assert (Hshort :
            Forall (fun f => (len f <= 256)%nat)
              (hashFilters 1 0
                 [Branch.mk false "issue1" false false "" [Stub.oid1] []
                    Unknown])).
  { constructor; [apply Nat.leb_le; reflexivity | constructor]. }
  split; [exact Hshort|].
  exact (proj1 (getQueryHashes_blocks
                  [Branch.mk false "issue1" false false "" [Stub.oid1] []
                     Unknown]) Hshort).
Defined.

Lemma normalizeHostname_collapses_witness :
  Fixture.lower "SSH.GitHub.com" = "ssh" +:+ ".github.com"
  /\ normalizeHostname Fixture.lower "SSH.GitHub.com" = "github.com".
Proof.
  split; [reflexivity|].
  apply (proj1 (normalizeHostname_collapses Fixture.lower "SSH.GitHub.com")
           "ssh").
  reflexivity.
Defined.

Lemma GetRemote_errors_witness :
  GetRemote Stub.connection (fun _ => []) Fixture.lower
    (Stub.repository false)
  = (Fail ErrNotFound, Stub.repository false).
Proof.
  apply (proj1 (proj2 (GetRemote_errors Stub.connection (fun _ => [])
                         Fixture.lower (Stub.repository false)))
           "origin git@github.com:owner/repo.git (fetch)");
    reflexivity.
Defined.

Lemma GetRemote_hostname_witness :
  GetRemote (Fixture.withSshConfig (Fixture.sshConfig, None)) Fixture.remotes
    Fixture.lower (Stub.repository false)
  = (Ret (Remote.mk "origin" "github.com" "owner/repo"),
     Stub.repository false).
Proof.
  apply (proj1 (proj2 (GetRemote_hostname
                         (Fixture.withSshConfig (Fixture.sshConfig, None))
                         Fixture.remotes Fixture.lower
                         "origin git@github.com:owner/repo.git (fetch)"
                         (Remote.mk "origin" "GitHub.com" "owner/repo")
                         (Stub.repository false) (Stub.repository false)
                         eq_refl eq_refl))
           Fixture.sshConfig "ssh.GitHub.com");
    reflexivity.
Defined.
